(** * Latency tester and reaction tester: a shallow embedding

    The repository holds two Win32 programs, [main.cpp] (the latency
    tester) and [reaction.cpp] (the reaction time tester).  Both are a
    single-threaded message loop around one global [g_app] structure.
    This file embeds their measurement logic: the window procedure, the
    raw-input handler, the per-frame [Render] step and the tone engine.

    Conventions.
    - [float] and [double] are IEEE 754 binary32 and binary64, taken from
      the Standard Library's [SpecFloat] (round to nearest, ties to even).
    - [Clock::time_point] is the tick count of
      [std::chrono::high_resolution_clock], whose period is one nanosecond
      with both toolchains the build script drives; it is a [Z].
    - [Clock::now()] reads an external clock: the k-th reading of a run is
      [clock k], and the program state counts the readings made so far.
    - Direct3D, Direct2D and window management are left out: none of the
      modelled fields is written by them. *)

From Stdlib Require Import ZArith List Bool Lia String Ascii DecimalString.
From Stdlib Require Import Sorting.Sorted.
From Stdlib Require Import Floats.SpecFloat.
Import ListNotations.

Local Open Scope Z_scope.

(** ** IEEE 754 arithmetic as the compiled code performs it *)

Module F32.

Definition prec : Z := 24.
Definition emax : Z := 128.

Definition float := spec_float.

(** Conversion of an integer to [float] (a C++ [static_cast<float>] or a
    decimal literal with an integral value). *)
Definition of_Z (n : Z) : float := binary_normalize prec emax n 0 false.

Definition add : float -> float -> float := SFadd prec emax.
Definition sub : float -> float -> float := SFsub prec emax.
Definition mul : float -> float -> float := SFmul prec emax.
Definition div : float -> float -> float := SFdiv prec emax.
Definition ltb : float -> float -> bool := SFltb.
Definition leb : float -> float -> bool := SFleb.

Definition zero : float := S754_zero false.

Definition is_nan (x : float) : bool :=
  match x with S754_nan => true | _ => false end.

(** [x] is not NaN and carries sign bit [s]. *)
Definition has_sign (s : bool) (x : float) : bool :=
  match x with
  | S754_zero s' | S754_infinity s' | S754_finite s' _ _ => Bool.eqb s' s
  | S754_nan => false
  end.

(** Conversion of a [float] to an unsigned integer, which truncates
    toward zero.  The C++ conversion is undefined for NaN, the
    infinities and values out of range; the model gives 0 there. *)
Definition to_Z (x : float) : Z :=
  match x with
  | S754_finite s m e =>
      let a := match e with
               | Zneg p => Z.shiftr (Zpos m) (Zpos p)
               | _ => Z.shiftl (Zpos m) e
               end in
      if s then - a else a
  | _ => 0
  end.

End F32.

Module F64.

Definition prec : Z := 53.
Definition emax : Z := 1024.

Definition double := spec_float.

Definition of_Z (n : Z) : double := binary_normalize prec emax n 0 false.
Definition sub : double -> double -> double := SFsub prec emax.
Definition div : double -> double -> double := SFdiv prec emax.

Definition zero : double := S754_zero false.

End F64.

(** [std::chrono::duration<float, std::milli>(d).count()] for a tick
  difference [d]: [duration_cast] converts the count to the common
  representation ([float]) and divides by the period ratio, 10^6. *)
Definition duration_float_milli (d : Z) : F32.float :=
F32.div (F32.of_Z d) (F32.of_Z 1000000).

(** [std::chrono::duration<double, std::milli>(d).count()]. *)
Definition duration_double_milli (d : Z) : F64.double :=
F64.div (F64.of_Z d) (F64.of_Z 1000000).

(** [std::chrono::duration_cast<std::chrono::milliseconds>(d).count()]:
  integer division, truncating toward zero. *)
Definition duration_cast_milliseconds (d : Z) : Z := Z.quot d 1000000.

(** ** [std::vector] operations used by both programs *)

Section Vector.
Context {A : Type}.

Definition vector_empty (v : list A) : bool :=
  match v with [] => true | _ :: _ => false end.

(** [v.insert(v.begin(), x)] *)
Definition insert_begin (x : A) (v : list A) : list A := x :: v.

(** [v.push_back(x)] *)
Definition push_back (x : A) (v : list A) : list A := v ++ [x].

(** [v.pop_back()] on a non-empty vector. *)
Definition pop_back (v : list A) : list A := removelast v.

(** [v.erase(v.begin())] on a non-empty vector. *)
Definition erase_begin (v : list A) : list A := tl v.

Definition size (v : list A) : Z := Z.of_nat (List.length v).
End Vector.

(** ** The Win32 raw-input structures and constants the handlers read *)

Module Win32.

Definition RIM_TYPEMOUSE : Z := 0.
Definition RIM_TYPEKEYBOARD : Z := 1.

Definition RI_MOUSE_LEFT_BUTTON_DOWN : Z := 0x0001.
Definition RI_MOUSE_LEFT_BUTTON_UP : Z := 0x0002.
Definition RI_MOUSE_RIGHT_BUTTON_DOWN : Z := 0x0004.
Definition RI_MOUSE_RIGHT_BUTTON_UP : Z := 0x0008.
Definition RI_MOUSE_MIDDLE_BUTTON_DOWN : Z := 0x0010.
Definition RI_MOUSE_MIDDLE_BUTTON_UP : Z := 0x0020.
Definition RI_MOUSE_BUTTON_4_DOWN : Z := 0x0040.
Definition RI_MOUSE_BUTTON_4_UP : Z := 0x0080.
Definition RI_MOUSE_BUTTON_5_DOWN : Z := 0x0100.
Definition RI_MOUSE_BUTTON_5_UP : Z := 0x0200.
Definition RI_MOUSE_WHEEL : Z := 0x0400.

Definition RI_KEY_BREAK : Z := 1.
Definition RI_KEY_E0 : Z := 2.

Definition VK_ESCAPE : Z := 0x1B.
Definition VK_SPACE : Z := 0x20.
Definition VK_F1 : Z := 0x70.
Definition VK_F2 : Z := 0x71.
Definition VK_F3 : Z := 0x72.
Definition VK_F4 : Z := 0x73.
Definition VK_F5 : Z := 0x74.
Definition VK_F6 : Z := 0x75.
Definition VK_F7 : Z := 0x76.
Definition VK_F8 : Z := 0x77.
Definition VK_F9 : Z := 0x78.
Definition VK_F10 : Z := 0x79.

Record RAWINPUTHEADER := {
  dwType : Z;
  hDevice : Z
}.

Record RAWMOUSE := {
  usButtonFlags : Z;   (* USHORT *)
  usButtonData : Z;    (* USHORT *)
  lLastX : Z;          (* LONG *)
  lLastY : Z           (* LONG *)
}.

Record RAWKEYBOARD := {
  MakeCode : Z;
  Flags : Z;
  VKey : Z
}.

(** [data] is a union in C; the handlers read the member that
    [header.dwType] selects. *)
Record RAWINPUT := {
  header : RAWINPUTHEADER;
  mouse : RAWMOUSE;
  keyboard : RAWKEYBOARD
}.

(** The messages the window procedures tell apart.  [WM_INPUT] carries
    what the two [GetRawInputData] calls deliver: [None] when the size
    query returns 0 or the second call does not return that size.
    [WM_QUIT] is taken by the message loop and never dispatched. *)
Inductive MSG :=
| WM_INPUT (raw : option RAWINPUT)
| WM_KEYDOWN (wParam : Z)
| WM_SYSKEYDOWN (wParam : Z)
| WM_DESTROY
| WM_QUIT
| WM_other.

(** A C condition [flags & mask]. *)
Definition test (flags mask : Z) : bool := negb (Z.land flags mask =? 0).

End Win32.

(** ** Programs over the global state

    A handler is a function of the program state that either finishes
    with a new state or stops at undefined behaviour.  Two kinds of
    undefined or unwanted behaviour are tracked: an index outside a
    vector, and a division whose divisor is a zero element count (IEEE
    division would return an infinity or NaN there; reporting it makes
    its absence a property that can be stated). *)

Inductive fault := OutOfBounds | DivisionByZero.

Inductive result (A : Type) :=
| Ok (a : A)
| Fault (f : fault).
Arguments Ok {A} a.
Arguments Fault {A} f.

Definition M (S A : Type) : Type := S -> result (A * S).

Definition ret {S A} (a : A) : M S A := fun s => Ok (a, s).

Definition bind {S A B} (c : M S A) (k : A -> M S B) : M S B :=
  fun s => match c s with
           | Ok (a, s') => k a s'
           | Fault f => Fault f
           end.

Definition gets {S A} (f : S -> A) : M S A := fun s => Ok (f s, s).
Definition modify {S} (f : S -> S) : M S unit := fun s => Ok (tt, f s).
Definition raise {S A} (f : fault) : M S A := fun _ => Fault f.

Declare Scope prog_scope.
Delimit Scope prog_scope with prog.
Notation "x <- c ;; k" := (bind c (fun x => k))
  (at level 61, c at next level, right associativity) : prog_scope.
Notation "c ;; k" := (bind c (fun _ => k))
  (at level 61, right associativity) : prog_scope.

(** [v[i]] *)
Definition vector_at {S A} (v : list A) (i : nat) : M S A :=
  match nth_error v i with
  | Some x => ret x
  | None => raise OutOfBounds
  end.

(** [x / v.size()] in [float]. *)
Definition div_by_size {S A} (x : F32.float) (v : list A) : M S F32.float :=
  if size v =? 0 then raise DivisionByZero
  else ret (F32.div x (F32.of_Z (size v))).

(** The program state together with its environment: the number of clock
    readings made so far, and a record of the calls of interest, newest
    first. *)
Record World (App Call : Type) := {
  app : App;
  clock_reads : nat;
  calls : list Call
}.
Arguments app {App Call} w.
Arguments clock_reads {App Call} w.
Arguments calls {App Call} w.

Section Environment.
Context {App Call : Type}.
Variable clock : nat -> Z.

(** [Clock::now()] *)
Definition Clock_now : M (World App Call) Z :=
  fun w => Ok (clock (clock_reads w),
               {| app := app w; clock_reads := S (clock_reads w); calls := calls w |}).

Definition record_call (c : Call) : M (World App Call) unit :=
  modify (fun w => {| app := app w; clock_reads := clock_reads w; calls := c :: calls w |}).

Definition read {A} (f : App -> A) : M (World App Call) A :=
  gets (fun w => f (app w)).

Definition update (f : App -> App) : M (World App Call) unit :=
  modify (fun w => {| app := f (app w); clock_reads := clock_reads w; calls := calls w |}).
End Environment.

(** A clock is monotonic when a later reading is never smaller. *)
Definition monotonic (clock : nat -> Z) : Prop :=
  forall i j : nat, (i <= j)%nat -> clock i <= clock j.

(** * The reaction time tester ([reaction.cpp]) *)

Module Reaction.
Import Win32.
Local Open Scope prog_scope.

Definition MIN_DELAY_MS : F32.float := F32.of_Z 1500.
Definition MAX_DELAY_MS : F32.float := F32.of_Z 5000.
Definition MAX_LOG_ENTRIES : Z := 25.

Definition TONE_FREQ_HZ : F32.float := F32.of_Z 800.
Definition TONE_DURATION_MS : F32.float := F32.of_Z 80.

Inductive TestState :=
| Waiting      (* black screen, waiting for the random delay *)
| Flashing     (* stimulus shown, waiting for the click *)
| TooEarly.    (* clicked before the stimulus *)

Record WAVEFORMATEX := {
  nSamplesPerSec : Z;
  nChannels : Z;
  wBitsPerSample : Z
}.

(** What the [InitWASAPI] negotiation obtains from the default render
    device when every step succeeds. *)
Record AudioDevice := {
  mixFormat : WAVEFORMATEX;      (* GetMixFormat *)
  bufferSize : Z;                (* GetBufferSize, UINT32 *)
  streamLatency : Z              (* GetStreamLatency, in 100 ns units *)
}.

(** The calls whose order the properties below speak about.  The samples
    of the sine wave are not modelled, only how many are written. *)
Inductive Call :=
| Enter_StartNewRound
| Enter_PlayBeepWASAPI
| AudioClient_Stop
| AudioClient_Reset
| RenderClient_GetBuffer (frames : Z)
| Buffer_fill (frames channels bits : Z)
| RenderClient_ReleaseBuffer (frames : Z)
| AudioClient_Start.

Section Program.

(** The state of the [std::mt19937] engine, and one call of a
    [std::uniform_real_distribution<float>] constructed over [[a, b]]:
    both belong to the C++ standard library. *)
Variable mt19937 : Type.
Variable uniform_real_distribution :
  F32.float -> F32.float -> mt19937 -> F32.float * mt19937.

Variable clock : nat -> Z.

Record AppState := {
  state : TestState;
  roundStartTime : Z;
  flashStartTime : Z;
  targetDelayMs : F32.float;
  reactionTimes : list F32.float;
  lastReactionTime : F32.float;
  averageTime : F32.float;
  bestTime : F32.float;
  rng : mt19937;
  running : bool;
  audioMode : bool;
  beepPlayed : bool;
  audioFormat : WAVEFORMATEX;
  audioBufferFrames : Z;
  audioInitialized : bool;
  audioLatencyMs : F32.float
}.

Definition set_state v a := {|
  state := v; roundStartTime := roundStartTime a;
  flashStartTime := flashStartTime a; targetDelayMs := targetDelayMs a;
  reactionTimes := reactionTimes a; lastReactionTime := lastReactionTime a;
  averageTime := averageTime a; bestTime := bestTime a; rng := rng a;
  running := running a; audioMode := audioMode a; beepPlayed := beepPlayed a;
  audioFormat := audioFormat a; audioBufferFrames := audioBufferFrames a;
  audioInitialized := audioInitialized a; audioLatencyMs := audioLatencyMs a |}.

Definition set_roundStartTime v a := {|
  state := state a; roundStartTime := v;
  flashStartTime := flashStartTime a; targetDelayMs := targetDelayMs a;
  reactionTimes := reactionTimes a; lastReactionTime := lastReactionTime a;
  averageTime := averageTime a; bestTime := bestTime a; rng := rng a;
  running := running a; audioMode := audioMode a; beepPlayed := beepPlayed a;
  audioFormat := audioFormat a; audioBufferFrames := audioBufferFrames a;
  audioInitialized := audioInitialized a; audioLatencyMs := audioLatencyMs a |}.

Definition set_flashStartTime v a := {|
  state := state a; roundStartTime := roundStartTime a;
  flashStartTime := v; targetDelayMs := targetDelayMs a;
  reactionTimes := reactionTimes a; lastReactionTime := lastReactionTime a;
  averageTime := averageTime a; bestTime := bestTime a; rng := rng a;
  running := running a; audioMode := audioMode a; beepPlayed := beepPlayed a;
  audioFormat := audioFormat a; audioBufferFrames := audioBufferFrames a;
  audioInitialized := audioInitialized a; audioLatencyMs := audioLatencyMs a |}.

Definition set_targetDelayMs v a := {|
  state := state a; roundStartTime := roundStartTime a;
  flashStartTime := flashStartTime a; targetDelayMs := v;
  reactionTimes := reactionTimes a; lastReactionTime := lastReactionTime a;
  averageTime := averageTime a; bestTime := bestTime a; rng := rng a;
  running := running a; audioMode := audioMode a; beepPlayed := beepPlayed a;
  audioFormat := audioFormat a; audioBufferFrames := audioBufferFrames a;
  audioInitialized := audioInitialized a; audioLatencyMs := audioLatencyMs a |}.

Definition set_reactionTimes v a := {|
  state := state a; roundStartTime := roundStartTime a;
  flashStartTime := flashStartTime a; targetDelayMs := targetDelayMs a;
  reactionTimes := v; lastReactionTime := lastReactionTime a;
  averageTime := averageTime a; bestTime := bestTime a; rng := rng a;
  running := running a; audioMode := audioMode a; beepPlayed := beepPlayed a;
  audioFormat := audioFormat a; audioBufferFrames := audioBufferFrames a;
  audioInitialized := audioInitialized a; audioLatencyMs := audioLatencyMs a |}.

Definition set_lastReactionTime v a := {|
  state := state a; roundStartTime := roundStartTime a;
  flashStartTime := flashStartTime a; targetDelayMs := targetDelayMs a;
  reactionTimes := reactionTimes a; lastReactionTime := v;
  averageTime := averageTime a; bestTime := bestTime a; rng := rng a;
  running := running a; audioMode := audioMode a; beepPlayed := beepPlayed a;
  audioFormat := audioFormat a; audioBufferFrames := audioBufferFrames a;
  audioInitialized := audioInitialized a; audioLatencyMs := audioLatencyMs a |}.

Definition set_averageTime v a := {|
  state := state a; roundStartTime := roundStartTime a;
  flashStartTime := flashStartTime a; targetDelayMs := targetDelayMs a;
  reactionTimes := reactionTimes a; lastReactionTime := lastReactionTime a;
  averageTime := v; bestTime := bestTime a; rng := rng a;
  running := running a; audioMode := audioMode a; beepPlayed := beepPlayed a;
  audioFormat := audioFormat a; audioBufferFrames := audioBufferFrames a;
  audioInitialized := audioInitialized a; audioLatencyMs := audioLatencyMs a |}.

Definition set_bestTime v a := {|
  state := state a; roundStartTime := roundStartTime a;
  flashStartTime := flashStartTime a; targetDelayMs := targetDelayMs a;
  reactionTimes := reactionTimes a; lastReactionTime := lastReactionTime a;
  averageTime := averageTime a; bestTime := v; rng := rng a;
  running := running a; audioMode := audioMode a; beepPlayed := beepPlayed a;
  audioFormat := audioFormat a; audioBufferFrames := audioBufferFrames a;
  audioInitialized := audioInitialized a; audioLatencyMs := audioLatencyMs a |}.

Definition set_rng v a := {|
  state := state a; roundStartTime := roundStartTime a;
  flashStartTime := flashStartTime a; targetDelayMs := targetDelayMs a;
  reactionTimes := reactionTimes a; lastReactionTime := lastReactionTime a;
  averageTime := averageTime a; bestTime := bestTime a; rng := v;
  running := running a; audioMode := audioMode a; beepPlayed := beepPlayed a;
  audioFormat := audioFormat a; audioBufferFrames := audioBufferFrames a;
  audioInitialized := audioInitialized a; audioLatencyMs := audioLatencyMs a |}.

Definition set_running v a := {|
  state := state a; roundStartTime := roundStartTime a;
  flashStartTime := flashStartTime a; targetDelayMs := targetDelayMs a;
  reactionTimes := reactionTimes a; lastReactionTime := lastReactionTime a;
  averageTime := averageTime a; bestTime := bestTime a; rng := rng a;
  running := v; audioMode := audioMode a; beepPlayed := beepPlayed a;
  audioFormat := audioFormat a; audioBufferFrames := audioBufferFrames a;
  audioInitialized := audioInitialized a; audioLatencyMs := audioLatencyMs a |}.

Definition set_audioMode v a := {|
  state := state a; roundStartTime := roundStartTime a;
  flashStartTime := flashStartTime a; targetDelayMs := targetDelayMs a;
  reactionTimes := reactionTimes a; lastReactionTime := lastReactionTime a;
  averageTime := averageTime a; bestTime := bestTime a; rng := rng a;
  running := running a; audioMode := v; beepPlayed := beepPlayed a;
  audioFormat := audioFormat a; audioBufferFrames := audioBufferFrames a;
  audioInitialized := audioInitialized a; audioLatencyMs := audioLatencyMs a |}.

Definition set_beepPlayed v a := {|
  state := state a; roundStartTime := roundStartTime a;
  flashStartTime := flashStartTime a; targetDelayMs := targetDelayMs a;
  reactionTimes := reactionTimes a; lastReactionTime := lastReactionTime a;
  averageTime := averageTime a; bestTime := bestTime a; rng := rng a;
  running := running a; audioMode := audioMode a; beepPlayed := v;
  audioFormat := audioFormat a; audioBufferFrames := audioBufferFrames a;
  audioInitialized := audioInitialized a; audioLatencyMs := audioLatencyMs a |}.

Definition set_audioFormat v a := {|
  state := state a; roundStartTime := roundStartTime a;
  flashStartTime := flashStartTime a; targetDelayMs := targetDelayMs a;
  reactionTimes := reactionTimes a; lastReactionTime := lastReactionTime a;
  averageTime := averageTime a; bestTime := bestTime a; rng := rng a;
  running := running a; audioMode := audioMode a; beepPlayed := beepPlayed a;
  audioFormat := v; audioBufferFrames := audioBufferFrames a;
  audioInitialized := audioInitialized a; audioLatencyMs := audioLatencyMs a |}.

Definition set_audioBufferFrames v a := {|
  state := state a; roundStartTime := roundStartTime a;
  flashStartTime := flashStartTime a; targetDelayMs := targetDelayMs a;
  reactionTimes := reactionTimes a; lastReactionTime := lastReactionTime a;
  averageTime := averageTime a; bestTime := bestTime a; rng := rng a;
  running := running a; audioMode := audioMode a; beepPlayed := beepPlayed a;
  audioFormat := audioFormat a; audioBufferFrames := v;
  audioInitialized := audioInitialized a; audioLatencyMs := audioLatencyMs a |}.

Definition set_audioInitialized v a := {|
  state := state a; roundStartTime := roundStartTime a;
  flashStartTime := flashStartTime a; targetDelayMs := targetDelayMs a;
  reactionTimes := reactionTimes a; lastReactionTime := lastReactionTime a;
  averageTime := averageTime a; bestTime := bestTime a; rng := rng a;
  running := running a; audioMode := audioMode a; beepPlayed := beepPlayed a;
  audioFormat := audioFormat a; audioBufferFrames := audioBufferFrames a;
  audioInitialized := v; audioLatencyMs := audioLatencyMs a |}.

Definition set_audioLatencyMs v a := {|
  state := state a; roundStartTime := roundStartTime a;
  flashStartTime := flashStartTime a; targetDelayMs := targetDelayMs a;
  reactionTimes := reactionTimes a; lastReactionTime := lastReactionTime a;
  averageTime := averageTime a; bestTime := bestTime a; rng := rng a;
  running := running a; audioMode := audioMode a; beepPlayed := beepPlayed a;
  audioFormat := audioFormat a; audioBufferFrames := audioBufferFrames a;
  audioInitialized := audioInitialized a; audioLatencyMs := v |}.

Definition Prog (A : Type) : Type := M (World AppState Call) A.

(** ** The functions of [reaction.cpp] *)

Definition GetRandomDelay : Prog F32.float :=
  g <- read rng ;;
  let draw := uniform_real_distribution MIN_DELAY_MS MAX_DELAY_MS g in
  update (set_rng (snd draw)) ;;
  ret (fst draw).

Definition StartNewRound : Prog unit :=
  record_call Enter_StartNewRound ;;
  update (set_state Waiting) ;;
  t <- Clock_now clock ;;
  update (set_roundStartTime t) ;;
  d <- GetRandomDelay ;;
  update (set_targetDelayMs d) ;;
  update (set_beepPlayed false).

(** The loop body of [UpdateStats], on the pair [(sum, best)]. *)
Definition UpdateStats_body (acc : F32.float * F32.float) (t : F32.float)
  : F32.float * F32.float :=
  let (sum, best) := acc in
  (F32.add sum t, if F32.ltb t best then t else best).

Definition UpdateStats : Prog unit :=
  times <- read reactionTimes ;;
  if vector_empty times then ret tt
  else
    first <- vector_at times 0 ;;
    let acc := fold_left UpdateStats_body times (F32.zero, first) in
    let sum := fst acc in
    let best := snd acc in
    avg <- div_by_size sum times ;;
    update (set_averageTime avg) ;;
    update (set_bestTime best).

(** [InitWASAPI]: every step is a call into the audio subsystem, so the
    outcome is an input: [Some dev] when all steps succeed, [None] when
    one fails (the fields a failed run leaves behind are never read,
    [audioInitialized] being false). *)
Definition InitWASAPI (dev : option AudioDevice) : Prog bool :=
  match dev with
  | None => ret false
  | Some d =>
      update (set_audioFormat (mixFormat d)) ;;
      update (set_audioBufferFrames (bufferSize d)) ;;
      update (set_audioLatencyMs
                (F32.div (F32.of_Z (streamLatency d)) (F32.of_Z 10000))) ;;
      update (set_audioInitialized true) ;;
      ret true
  end.

(** [(UINT32)(sampleRate * TONE_DURATION_MS / 1000.0f)] *)
Definition toneSamples_of (sampleRate : Z) : Z :=
  F32.to_Z (F32.div (F32.mul (F32.of_Z sampleRate) TONE_DURATION_MS)
                    (F32.of_Z 1000)).

(** [hrGetBuffer] tells whether the [GetBuffer] call succeeds. *)
Definition PlayBeepWASAPI (hrGetBuffer : bool) : Prog unit :=
  record_call Enter_PlayBeepWASAPI ;;
  initialized <- read audioInitialized ;;
  if negb initialized then ret tt
  else
    record_call AudioClient_Stop ;;
    record_call AudioClient_Reset ;;
    format <- read audioFormat ;;
    let sampleRate := nSamplesPerSec format in
    let channels := nChannels format in
    let toneSamples := toneSamples_of sampleRate in
    bufferFrames <- read audioBufferFrames ;;
    let toneSamples :=
      if bufferFrames <? toneSamples then bufferFrames else toneSamples in
    record_call (RenderClient_GetBuffer toneSamples) ;;
    if negb hrGetBuffer then ret tt
    else
      (if wBitsPerSample format =? 32
       then record_call (Buffer_fill toneSamples channels 32)
       else if wBitsPerSample format =? 16
       then record_call (Buffer_fill toneSamples channels 16)
       else ret tt) ;;
      record_call (RenderClient_ReleaseBuffer toneSamples) ;;
      record_call AudioClient_Start.

Definition buttonDown (m : RAWMOUSE) : bool :=
  test (usButtonFlags m) RI_MOUSE_LEFT_BUTTON_DOWN ||
  test (usButtonFlags m) RI_MOUSE_RIGHT_BUTTON_DOWN ||
  test (usButtonFlags m) RI_MOUSE_MIDDLE_BUTTON_DOWN.

Definition ProcessRawInput (lParam : option RAWINPUT) : Prog unit :=
  match lParam with
  | None => ret tt
  | Some raw =>
      if dwType (header raw) =? RIM_TYPEMOUSE then
        if negb (buttonDown (mouse raw)) then ret tt
        else
          now <- Clock_now clock ;;
          st <- read state ;;
          match st with
          | Waiting =>
              update (set_state TooEarly)
          | Flashing =>
              onset <- read flashStartTime ;;
              let reactionMs := duration_float_milli (now - onset) in
              update (set_lastReactionTime reactionMs) ;;
              times <- read reactionTimes ;;
              update (set_reactionTimes (insert_begin reactionMs times)) ;;
              times <- read reactionTimes ;;
              (if MAX_LOG_ENTRIES <? size times
               then update (set_reactionTimes (pop_back times))
               else ret tt) ;;
              UpdateStats ;;
              StartNewRound
          | TooEarly =>
              StartNewRound
          end
      else ret tt
  end.

(** The "clear" part shared by the SPACE and F1 branches. *)
Definition clear_results : Prog unit :=
  update (set_reactionTimes []) ;;
  update (set_averageTime F32.zero) ;;
  update (set_bestTime F32.zero) ;;
  update (set_lastReactionTime F32.zero).

Definition WndProc (msg : MSG) : Prog unit :=
  match msg with
  | WM_INPUT lParam => ProcessRawInput lParam
  | WM_KEYDOWN wParam =>
      if wParam =? VK_ESCAPE then update (set_running false)
      else if wParam =? VK_SPACE then
        clear_results ;;
        StartNewRound
      else if wParam =? VK_F1 then
        mode <- read audioMode ;;
        update (set_audioMode (negb mode)) ;;
        clear_results ;;
        StartNewRound
      else ret tt
  | WM_SYSKEYDOWN _ => ret tt      (* F10: ToggleFullscreen *)
  | WM_DESTROY => update (set_running false)
  | _ => ret tt                    (* DefWindowProcW *)
  end.

(** The part of [Render] that writes the state; the drawing that follows
    only reads it. *)
Definition Render (hrGetBuffer : bool) : Prog unit :=
  now <- Clock_now clock ;;
  st <- read state ;;
  match st with
  | Waiting =>
      start <- read roundStartTime ;;
      let elapsed := duration_float_milli (now - start) in
      target <- read targetDelayMs ;;
      if F32.leb target elapsed then
        update (set_state Flashing) ;;
        onset <- Clock_now clock ;;
        update (set_flashStartTime onset) ;;
        mode <- read audioMode ;;
        played <- read beepPlayed ;;
        if mode && negb played then
          update (set_beepPlayed true) ;;
          PlayBeepWASAPI hrGetBuffer
        else ret tt
      else ret tt
  | _ => ret tt
  end.

(** ** The message loop of [wWinMain] *)

(** The inner [PeekMessageW] loop over the messages pending at the start
    of an iteration. *)
Fixpoint pump (queue : list MSG) : Prog unit :=
  match queue with
  | [] => ret tt
  | WM_QUIT :: _ => update (set_running false)
  | msg :: rest => WndProc msg ;; pump rest
  end.

(** The outer loop, for as many iterations as there are entries: each
    holds the pending messages and the outcome of a [GetBuffer] call made
    during that frame. *)
Fixpoint main_loop (frames : list (list MSG * bool)) : Prog unit :=
  match frames with
  | [] => ret tt
  | (queue, hr) :: rest =>
      r <- read running ;;
      if r then pump queue ;; Render hr ;; main_loop rest
      else ret tt
  end.

Definition startup (dev : option AudioDevice) : Prog unit :=
  ok <- InitWASAPI dev ;;
  (if negb ok then update (set_audioInitialized false) else ret tt) ;;
  StartNewRound.

(** [CleanupWASAPI] and [Cleanup].  Of the COM pointers of [g_app] only
    the audio client matters to the calls on record: [audioClient] says
    whether [g_app.audioClient] is non-null, which it is from the
    [Activate] of [InitWASAPI] on.  The releases that follow the [Stop],
    and [SetFullscreenState], are calls of no recorded kind, and what
    they write is read by nothing before the program ends. *)
Definition CleanupWASAPI (audioClient : bool) : Prog unit :=
  if audioClient then record_call AudioClient_Stop else ret tt.

Definition Cleanup (audioClient : bool) : Prog unit :=
  CleanupWASAPI audioClient.

(** [wWinMain].  The outcomes of [InitWindow], [InitD3D11] and [InitD2D]
    are inputs, as is that of [InitWASAPI]: [Some dev] for a success, and
    for a failure [activated], which says whether it came after the
    audio client had been activated.  The loop runs over the iterations
    of [frames]; the result is [None] when [running] is still set after
    them, so that more iterations would follow, and the exit code
    otherwise. *)
Definition wWinMain (initWindow initD3D11 initD2D : bool)
  (dev : option AudioDevice) (activated : bool)
  (frames : list (list MSG * bool)) : Prog (option Z) :=
  if negb initWindow then ret (Some 1)
  else if negb initD3D11 then ret (Some 1)
  else if negb initD2D then ret (Some 1)
  else
    startup dev ;;
    main_loop frames ;;
    r <- read running ;;
    if r then ret None
    else
      Cleanup (match dev with Some _ => true | None => activated end) ;;
      ret (Some 0).

(** The member initialisers of [g_app]; [seed] is the engine seeded from
    [std::random_device]. *)
Definition g_app (seed : mt19937) : AppState := {|
  state := Waiting; roundStartTime := 0; flashStartTime := 0;
  targetDelayMs := F32.zero; reactionTimes := [];
  lastReactionTime := F32.zero; averageTime := F32.zero;
  bestTime := F32.zero; rng := seed; running := true;
  audioMode := false; beepPlayed := false;
  audioFormat := {| nSamplesPerSec := 0; nChannels := 0; wBitsPerSample := 0 |};
  audioBufferFrames := 0; audioInitialized := false;
  audioLatencyMs := F32.zero |}.

Definition initial (seed : mt19937) : World AppState Call :=
  {| app := g_app seed; clock_reads := 0%nat; calls := [] |}.

(** ** Runs

    What the loop does is a sequence of dispatched messages and rendered
    frames; the properties are proved for every such sequence. *)
Inductive Event :=
| Message (msg : MSG)
| Frame (hrGetBuffer : bool).

Definition step (e : Event) : Prog unit :=
  match e with
  | Message WM_QUIT => update (set_running false)
  | Message msg => WndProc msg
  | Frame hr => Render hr
  end.

Fixpoint run (evs : list Event) : Prog unit :=
  match evs with
  | [] => ret tt
  | e :: rest => step e ;; run rest
  end.

(** The program started on [dev] with seed [seed] and taken through
    [evs]. *)
Definition exec (seed : mt19937) (dev : option AudioDevice)
  (evs : list Event) : result (unit * World AppState Call) :=
  (startup dev ;; run evs) (initial seed).

End Program.

Arguments state {mt19937} a.
Arguments roundStartTime {mt19937} a.
Arguments flashStartTime {mt19937} a.
Arguments targetDelayMs {mt19937} a.
Arguments reactionTimes {mt19937} a.
Arguments lastReactionTime {mt19937} a.
Arguments averageTime {mt19937} a.
Arguments bestTime {mt19937} a.
Arguments rng {mt19937} a.
Arguments running {mt19937} a.
Arguments audioMode {mt19937} a.
Arguments beepPlayed {mt19937} a.
Arguments audioFormat {mt19937} a.
Arguments audioBufferFrames {mt19937} a.
Arguments audioInitialized {mt19937} a.
Arguments audioLatencyMs {mt19937} a.
Arguments set_state {mt19937} v a.
Arguments set_roundStartTime {mt19937} v a.
Arguments set_flashStartTime {mt19937} v a.
Arguments set_targetDelayMs {mt19937} v a.
Arguments set_reactionTimes {mt19937} v a.
Arguments set_lastReactionTime {mt19937} v a.
Arguments set_averageTime {mt19937} v a.
Arguments set_bestTime {mt19937} v a.
Arguments set_rng {mt19937} v a.
Arguments set_running {mt19937} v a.
Arguments set_audioMode {mt19937} v a.
Arguments set_beepPlayed {mt19937} v a.
Arguments set_audioFormat {mt19937} v a.
Arguments set_audioBufferFrames {mt19937} v a.
Arguments set_audioInitialized {mt19937} v a.
Arguments set_audioLatencyMs {mt19937} v a.
Arguments g_app {mt19937} seed.
Arguments initial {mt19937} seed.
Arguments GetRandomDelay {mt19937} uniform_real_distribution.
Arguments StartNewRound {mt19937} uniform_real_distribution clock.
Arguments UpdateStats {mt19937}.
Arguments InitWASAPI {mt19937} dev.
Arguments PlayBeepWASAPI {mt19937} hrGetBuffer.
Arguments ProcessRawInput {mt19937} uniform_real_distribution clock lParam.
Arguments clear_results {mt19937}.
Arguments WndProc {mt19937} uniform_real_distribution clock msg.
Arguments Render {mt19937} clock hrGetBuffer.
Arguments pump {mt19937} uniform_real_distribution clock queue.
Arguments main_loop {mt19937} uniform_real_distribution clock frames.
Arguments startup {mt19937} uniform_real_distribution clock dev.
Arguments CleanupWASAPI {mt19937} audioClient.
Arguments Cleanup {mt19937} audioClient.
Arguments wWinMain {mt19937} uniform_real_distribution clock
  initWindow initD3D11 initD2D dev activated frames.
Arguments step {mt19937} uniform_real_distribution clock e.
Arguments run {mt19937} uniform_real_distribution clock evs.
Arguments exec {mt19937} uniform_real_distribution clock seed dev evs.

End Reaction.

(** * The latency tester ([main.cpp]) *)

Module Latency.
Import Win32.
Local Open Scope string_scope.
Local Open Scope Z_scope.
Local Open Scope prog_scope.

Definition MAX_LOG_ENTRIES : Z := 30.

(** [constexpr float smoothing = 0.9f]: the [float] nearest to 9/10. *)
Definition smoothing : F32.float := F32.div (F32.of_Z 9) (F32.of_Z 10).

(** [std::to_wstring] of an integer. *)
Definition to_wstring (n : Z) : string :=
  DecimalString.NilZero.string_of_int (Z.to_int n).

(** [(SHORT)x] for a [USHORT] [x]. *)
Definition SHORT (x : Z) : Z :=
  let y := x mod 65536 in if y <? 32768 then y else y - 65536.

(** [(LONG)x] for a [UINT] [x]. *)
Definition LONG (x : Z) : Z :=
  let y := x mod 4294967296 in if y <? 2147483648 then y else y - 4294967296.

(** [s.rfind(c, pos)]: the last index at most [pos] that holds [c]. *)
Fixpoint rfind (c : ascii) (s : string) (pos : nat) : option nat :=
  if match String.get pos s with
     | Some d => Ascii.eqb d c
     | None => false
     end
  then Some pos
  else match pos with
       | O => None
       | S p => rfind c s p
       end.

(** The leaf part of a device path: what lies between its last two ['#'],
    when it has two. *)
Definition device_leaf (deviceName : string) : string :=
  match rfind "#"%char deviceName (String.length deviceName - 1) with
  | Some lastSlash =>
      if (0 <? lastSlash)%nat then
        match rfind "#"%char deviceName (lastSlash - 1) with
        | Some prevSlash =>
            String.substring (prevSlash + 1) (lastSlash - prevSlash - 1)
                             deviceName
        | None => deviceName
        end
      else deviceName
  | None => deviceName
  end.

(** The [while] loop of [Render] that drops the readings older than
    [oneSecondAgo] from the front of [mouseDeltaTimes]. *)
Fixpoint erase_older (oneSecondAgo : Z) (times : list Z) : list Z :=
  match times with
  | [] => []
  | front :: rest =>
      if front <? oneSecondAgo then erase_older oneSecondAgo rest
      else times
  end.

Inductive Call :=
| Enter_TriggerFlash (inputInfo deviceInfo : string).

Record AppState := {
  isFlashing : bool;
  flashStartTime : Z;
  flashDurationMs : F32.float;
  appStartTime : Z;
  lastEventTimeMs : F64.double;
  lastInputText : string;
  lastDeviceText : string;
  lastFrameTime : Z;
  frameTimeMs : F32.float;
  fps : F32.float;
  smoothedFrameTimeMs : F32.float;
  smoothedFps : F32.float;
  enableMouseButtons : bool;
  enableKeyboard : bool;
  enableMouseDelta : bool;
  enableLog : bool;
  enableUpEvents : bool;
  enableMouseHz : bool;
  enableOverlay : bool;
  mouseDeltaTimes : list Z;
  mouseHz : F32.float;
  logEntries : list string;
  running : bool
}.

Definition set_isFlashing v a := {|
  isFlashing := v; flashStartTime := flashStartTime a;
  flashDurationMs := flashDurationMs a; appStartTime := appStartTime a;
  lastEventTimeMs := lastEventTimeMs a; lastInputText := lastInputText a;
  lastDeviceText := lastDeviceText a; lastFrameTime := lastFrameTime a;
  frameTimeMs := frameTimeMs a; fps := fps a;
  smoothedFrameTimeMs := smoothedFrameTimeMs a;
  smoothedFps := smoothedFps a;
  enableMouseButtons := enableMouseButtons a;
  enableKeyboard := enableKeyboard a;
  enableMouseDelta := enableMouseDelta a; enableLog := enableLog a;
  enableUpEvents := enableUpEvents a; enableMouseHz := enableMouseHz a;
  enableOverlay := enableOverlay a; mouseDeltaTimes := mouseDeltaTimes a;
  mouseHz := mouseHz a; logEntries := logEntries a; running := running a |}.

Definition set_flashStartTime v a := {|
  isFlashing := isFlashing a; flashStartTime := v;
  flashDurationMs := flashDurationMs a; appStartTime := appStartTime a;
  lastEventTimeMs := lastEventTimeMs a; lastInputText := lastInputText a;
  lastDeviceText := lastDeviceText a; lastFrameTime := lastFrameTime a;
  frameTimeMs := frameTimeMs a; fps := fps a;
  smoothedFrameTimeMs := smoothedFrameTimeMs a;
  smoothedFps := smoothedFps a;
  enableMouseButtons := enableMouseButtons a;
  enableKeyboard := enableKeyboard a;
  enableMouseDelta := enableMouseDelta a; enableLog := enableLog a;
  enableUpEvents := enableUpEvents a; enableMouseHz := enableMouseHz a;
  enableOverlay := enableOverlay a; mouseDeltaTimes := mouseDeltaTimes a;
  mouseHz := mouseHz a; logEntries := logEntries a; running := running a |}.

Definition set_flashDurationMs v a := {|
  isFlashing := isFlashing a; flashStartTime := flashStartTime a;
  flashDurationMs := v; appStartTime := appStartTime a;
  lastEventTimeMs := lastEventTimeMs a; lastInputText := lastInputText a;
  lastDeviceText := lastDeviceText a; lastFrameTime := lastFrameTime a;
  frameTimeMs := frameTimeMs a; fps := fps a;
  smoothedFrameTimeMs := smoothedFrameTimeMs a;
  smoothedFps := smoothedFps a;
  enableMouseButtons := enableMouseButtons a;
  enableKeyboard := enableKeyboard a;
  enableMouseDelta := enableMouseDelta a; enableLog := enableLog a;
  enableUpEvents := enableUpEvents a; enableMouseHz := enableMouseHz a;
  enableOverlay := enableOverlay a; mouseDeltaTimes := mouseDeltaTimes a;
  mouseHz := mouseHz a; logEntries := logEntries a; running := running a |}.

Definition set_lastEventTimeMs v a := {|
  isFlashing := isFlashing a; flashStartTime := flashStartTime a;
  flashDurationMs := flashDurationMs a; appStartTime := appStartTime a;
  lastEventTimeMs := v; lastInputText := lastInputText a;
  lastDeviceText := lastDeviceText a; lastFrameTime := lastFrameTime a;
  frameTimeMs := frameTimeMs a; fps := fps a;
  smoothedFrameTimeMs := smoothedFrameTimeMs a;
  smoothedFps := smoothedFps a;
  enableMouseButtons := enableMouseButtons a;
  enableKeyboard := enableKeyboard a;
  enableMouseDelta := enableMouseDelta a; enableLog := enableLog a;
  enableUpEvents := enableUpEvents a; enableMouseHz := enableMouseHz a;
  enableOverlay := enableOverlay a; mouseDeltaTimes := mouseDeltaTimes a;
  mouseHz := mouseHz a; logEntries := logEntries a; running := running a |}.

Definition set_lastInputText v a := {|
  isFlashing := isFlashing a; flashStartTime := flashStartTime a;
  flashDurationMs := flashDurationMs a; appStartTime := appStartTime a;
  lastEventTimeMs := lastEventTimeMs a; lastInputText := v;
  lastDeviceText := lastDeviceText a; lastFrameTime := lastFrameTime a;
  frameTimeMs := frameTimeMs a; fps := fps a;
  smoothedFrameTimeMs := smoothedFrameTimeMs a;
  smoothedFps := smoothedFps a;
  enableMouseButtons := enableMouseButtons a;
  enableKeyboard := enableKeyboard a;
  enableMouseDelta := enableMouseDelta a; enableLog := enableLog a;
  enableUpEvents := enableUpEvents a; enableMouseHz := enableMouseHz a;
  enableOverlay := enableOverlay a; mouseDeltaTimes := mouseDeltaTimes a;
  mouseHz := mouseHz a; logEntries := logEntries a; running := running a |}.

Definition set_lastDeviceText v a := {|
  isFlashing := isFlashing a; flashStartTime := flashStartTime a;
  flashDurationMs := flashDurationMs a; appStartTime := appStartTime a;
  lastEventTimeMs := lastEventTimeMs a; lastInputText := lastInputText a;
  lastDeviceText := v; lastFrameTime := lastFrameTime a;
  frameTimeMs := frameTimeMs a; fps := fps a;
  smoothedFrameTimeMs := smoothedFrameTimeMs a;
  smoothedFps := smoothedFps a;
  enableMouseButtons := enableMouseButtons a;
  enableKeyboard := enableKeyboard a;
  enableMouseDelta := enableMouseDelta a; enableLog := enableLog a;
  enableUpEvents := enableUpEvents a; enableMouseHz := enableMouseHz a;
  enableOverlay := enableOverlay a; mouseDeltaTimes := mouseDeltaTimes a;
  mouseHz := mouseHz a; logEntries := logEntries a; running := running a |}.

Definition set_lastFrameTime v a := {|
  isFlashing := isFlashing a; flashStartTime := flashStartTime a;
  flashDurationMs := flashDurationMs a; appStartTime := appStartTime a;
  lastEventTimeMs := lastEventTimeMs a; lastInputText := lastInputText a;
  lastDeviceText := lastDeviceText a; lastFrameTime := v;
  frameTimeMs := frameTimeMs a; fps := fps a;
  smoothedFrameTimeMs := smoothedFrameTimeMs a;
  smoothedFps := smoothedFps a;
  enableMouseButtons := enableMouseButtons a;
  enableKeyboard := enableKeyboard a;
  enableMouseDelta := enableMouseDelta a; enableLog := enableLog a;
  enableUpEvents := enableUpEvents a; enableMouseHz := enableMouseHz a;
  enableOverlay := enableOverlay a; mouseDeltaTimes := mouseDeltaTimes a;
  mouseHz := mouseHz a; logEntries := logEntries a; running := running a |}.

Definition set_frameTimeMs v a := {|
  isFlashing := isFlashing a; flashStartTime := flashStartTime a;
  flashDurationMs := flashDurationMs a; appStartTime := appStartTime a;
  lastEventTimeMs := lastEventTimeMs a; lastInputText := lastInputText a;
  lastDeviceText := lastDeviceText a; lastFrameTime := lastFrameTime a;
  frameTimeMs := v; fps := fps a;
  smoothedFrameTimeMs := smoothedFrameTimeMs a;
  smoothedFps := smoothedFps a;
  enableMouseButtons := enableMouseButtons a;
  enableKeyboard := enableKeyboard a;
  enableMouseDelta := enableMouseDelta a; enableLog := enableLog a;
  enableUpEvents := enableUpEvents a; enableMouseHz := enableMouseHz a;
  enableOverlay := enableOverlay a; mouseDeltaTimes := mouseDeltaTimes a;
  mouseHz := mouseHz a; logEntries := logEntries a; running := running a |}.

Definition set_fps v a := {|
  isFlashing := isFlashing a; flashStartTime := flashStartTime a;
  flashDurationMs := flashDurationMs a; appStartTime := appStartTime a;
  lastEventTimeMs := lastEventTimeMs a; lastInputText := lastInputText a;
  lastDeviceText := lastDeviceText a; lastFrameTime := lastFrameTime a;
  frameTimeMs := frameTimeMs a; fps := v;
  smoothedFrameTimeMs := smoothedFrameTimeMs a;
  smoothedFps := smoothedFps a;
  enableMouseButtons := enableMouseButtons a;
  enableKeyboard := enableKeyboard a;
  enableMouseDelta := enableMouseDelta a; enableLog := enableLog a;
  enableUpEvents := enableUpEvents a; enableMouseHz := enableMouseHz a;
  enableOverlay := enableOverlay a; mouseDeltaTimes := mouseDeltaTimes a;
  mouseHz := mouseHz a; logEntries := logEntries a; running := running a |}.

Definition set_smoothedFrameTimeMs v a := {|
  isFlashing := isFlashing a; flashStartTime := flashStartTime a;
  flashDurationMs := flashDurationMs a; appStartTime := appStartTime a;
  lastEventTimeMs := lastEventTimeMs a; lastInputText := lastInputText a;
  lastDeviceText := lastDeviceText a; lastFrameTime := lastFrameTime a;
  frameTimeMs := frameTimeMs a; fps := fps a; smoothedFrameTimeMs := v;
  smoothedFps := smoothedFps a;
  enableMouseButtons := enableMouseButtons a;
  enableKeyboard := enableKeyboard a;
  enableMouseDelta := enableMouseDelta a; enableLog := enableLog a;
  enableUpEvents := enableUpEvents a; enableMouseHz := enableMouseHz a;
  enableOverlay := enableOverlay a; mouseDeltaTimes := mouseDeltaTimes a;
  mouseHz := mouseHz a; logEntries := logEntries a; running := running a |}.

Definition set_smoothedFps v a := {|
  isFlashing := isFlashing a; flashStartTime := flashStartTime a;
  flashDurationMs := flashDurationMs a; appStartTime := appStartTime a;
  lastEventTimeMs := lastEventTimeMs a; lastInputText := lastInputText a;
  lastDeviceText := lastDeviceText a; lastFrameTime := lastFrameTime a;
  frameTimeMs := frameTimeMs a; fps := fps a;
  smoothedFrameTimeMs := smoothedFrameTimeMs a; smoothedFps := v;
  enableMouseButtons := enableMouseButtons a;
  enableKeyboard := enableKeyboard a;
  enableMouseDelta := enableMouseDelta a; enableLog := enableLog a;
  enableUpEvents := enableUpEvents a; enableMouseHz := enableMouseHz a;
  enableOverlay := enableOverlay a; mouseDeltaTimes := mouseDeltaTimes a;
  mouseHz := mouseHz a; logEntries := logEntries a; running := running a |}.

Definition set_enableMouseButtons v a := {|
  isFlashing := isFlashing a; flashStartTime := flashStartTime a;
  flashDurationMs := flashDurationMs a; appStartTime := appStartTime a;
  lastEventTimeMs := lastEventTimeMs a; lastInputText := lastInputText a;
  lastDeviceText := lastDeviceText a; lastFrameTime := lastFrameTime a;
  frameTimeMs := frameTimeMs a; fps := fps a;
  smoothedFrameTimeMs := smoothedFrameTimeMs a;
  smoothedFps := smoothedFps a; enableMouseButtons := v;
  enableKeyboard := enableKeyboard a;
  enableMouseDelta := enableMouseDelta a; enableLog := enableLog a;
  enableUpEvents := enableUpEvents a; enableMouseHz := enableMouseHz a;
  enableOverlay := enableOverlay a; mouseDeltaTimes := mouseDeltaTimes a;
  mouseHz := mouseHz a; logEntries := logEntries a; running := running a |}.

Definition set_enableKeyboard v a := {|
  isFlashing := isFlashing a; flashStartTime := flashStartTime a;
  flashDurationMs := flashDurationMs a; appStartTime := appStartTime a;
  lastEventTimeMs := lastEventTimeMs a; lastInputText := lastInputText a;
  lastDeviceText := lastDeviceText a; lastFrameTime := lastFrameTime a;
  frameTimeMs := frameTimeMs a; fps := fps a;
  smoothedFrameTimeMs := smoothedFrameTimeMs a;
  smoothedFps := smoothedFps a;
  enableMouseButtons := enableMouseButtons a; enableKeyboard := v;
  enableMouseDelta := enableMouseDelta a; enableLog := enableLog a;
  enableUpEvents := enableUpEvents a; enableMouseHz := enableMouseHz a;
  enableOverlay := enableOverlay a; mouseDeltaTimes := mouseDeltaTimes a;
  mouseHz := mouseHz a; logEntries := logEntries a; running := running a |}.

Definition set_enableMouseDelta v a := {|
  isFlashing := isFlashing a; flashStartTime := flashStartTime a;
  flashDurationMs := flashDurationMs a; appStartTime := appStartTime a;
  lastEventTimeMs := lastEventTimeMs a; lastInputText := lastInputText a;
  lastDeviceText := lastDeviceText a; lastFrameTime := lastFrameTime a;
  frameTimeMs := frameTimeMs a; fps := fps a;
  smoothedFrameTimeMs := smoothedFrameTimeMs a;
  smoothedFps := smoothedFps a;
  enableMouseButtons := enableMouseButtons a;
  enableKeyboard := enableKeyboard a; enableMouseDelta := v;
  enableLog := enableLog a; enableUpEvents := enableUpEvents a;
  enableMouseHz := enableMouseHz a; enableOverlay := enableOverlay a;
  mouseDeltaTimes := mouseDeltaTimes a; mouseHz := mouseHz a;
  logEntries := logEntries a; running := running a |}.

Definition set_enableLog v a := {|
  isFlashing := isFlashing a; flashStartTime := flashStartTime a;
  flashDurationMs := flashDurationMs a; appStartTime := appStartTime a;
  lastEventTimeMs := lastEventTimeMs a; lastInputText := lastInputText a;
  lastDeviceText := lastDeviceText a; lastFrameTime := lastFrameTime a;
  frameTimeMs := frameTimeMs a; fps := fps a;
  smoothedFrameTimeMs := smoothedFrameTimeMs a;
  smoothedFps := smoothedFps a;
  enableMouseButtons := enableMouseButtons a;
  enableKeyboard := enableKeyboard a;
  enableMouseDelta := enableMouseDelta a; enableLog := v;
  enableUpEvents := enableUpEvents a; enableMouseHz := enableMouseHz a;
  enableOverlay := enableOverlay a; mouseDeltaTimes := mouseDeltaTimes a;
  mouseHz := mouseHz a; logEntries := logEntries a; running := running a |}.

Definition set_enableUpEvents v a := {|
  isFlashing := isFlashing a; flashStartTime := flashStartTime a;
  flashDurationMs := flashDurationMs a; appStartTime := appStartTime a;
  lastEventTimeMs := lastEventTimeMs a; lastInputText := lastInputText a;
  lastDeviceText := lastDeviceText a; lastFrameTime := lastFrameTime a;
  frameTimeMs := frameTimeMs a; fps := fps a;
  smoothedFrameTimeMs := smoothedFrameTimeMs a;
  smoothedFps := smoothedFps a;
  enableMouseButtons := enableMouseButtons a;
  enableKeyboard := enableKeyboard a;
  enableMouseDelta := enableMouseDelta a; enableLog := enableLog a;
  enableUpEvents := v; enableMouseHz := enableMouseHz a;
  enableOverlay := enableOverlay a; mouseDeltaTimes := mouseDeltaTimes a;
  mouseHz := mouseHz a; logEntries := logEntries a; running := running a |}.

Definition set_enableMouseHz v a := {|
  isFlashing := isFlashing a; flashStartTime := flashStartTime a;
  flashDurationMs := flashDurationMs a; appStartTime := appStartTime a;
  lastEventTimeMs := lastEventTimeMs a; lastInputText := lastInputText a;
  lastDeviceText := lastDeviceText a; lastFrameTime := lastFrameTime a;
  frameTimeMs := frameTimeMs a; fps := fps a;
  smoothedFrameTimeMs := smoothedFrameTimeMs a;
  smoothedFps := smoothedFps a;
  enableMouseButtons := enableMouseButtons a;
  enableKeyboard := enableKeyboard a;
  enableMouseDelta := enableMouseDelta a; enableLog := enableLog a;
  enableUpEvents := enableUpEvents a; enableMouseHz := v;
  enableOverlay := enableOverlay a; mouseDeltaTimes := mouseDeltaTimes a;
  mouseHz := mouseHz a; logEntries := logEntries a; running := running a |}.

Definition set_enableOverlay v a := {|
  isFlashing := isFlashing a; flashStartTime := flashStartTime a;
  flashDurationMs := flashDurationMs a; appStartTime := appStartTime a;
  lastEventTimeMs := lastEventTimeMs a; lastInputText := lastInputText a;
  lastDeviceText := lastDeviceText a; lastFrameTime := lastFrameTime a;
  frameTimeMs := frameTimeMs a; fps := fps a;
  smoothedFrameTimeMs := smoothedFrameTimeMs a;
  smoothedFps := smoothedFps a;
  enableMouseButtons := enableMouseButtons a;
  enableKeyboard := enableKeyboard a;
  enableMouseDelta := enableMouseDelta a; enableLog := enableLog a;
  enableUpEvents := enableUpEvents a; enableMouseHz := enableMouseHz a;
  enableOverlay := v; mouseDeltaTimes := mouseDeltaTimes a;
  mouseHz := mouseHz a; logEntries := logEntries a; running := running a |}.

Definition set_mouseDeltaTimes v a := {|
  isFlashing := isFlashing a; flashStartTime := flashStartTime a;
  flashDurationMs := flashDurationMs a; appStartTime := appStartTime a;
  lastEventTimeMs := lastEventTimeMs a; lastInputText := lastInputText a;
  lastDeviceText := lastDeviceText a; lastFrameTime := lastFrameTime a;
  frameTimeMs := frameTimeMs a; fps := fps a;
  smoothedFrameTimeMs := smoothedFrameTimeMs a;
  smoothedFps := smoothedFps a;
  enableMouseButtons := enableMouseButtons a;
  enableKeyboard := enableKeyboard a;
  enableMouseDelta := enableMouseDelta a; enableLog := enableLog a;
  enableUpEvents := enableUpEvents a; enableMouseHz := enableMouseHz a;
  enableOverlay := enableOverlay a; mouseDeltaTimes := v;
  mouseHz := mouseHz a; logEntries := logEntries a; running := running a |}.

Definition set_mouseHz v a := {|
  isFlashing := isFlashing a; flashStartTime := flashStartTime a;
  flashDurationMs := flashDurationMs a; appStartTime := appStartTime a;
  lastEventTimeMs := lastEventTimeMs a; lastInputText := lastInputText a;
  lastDeviceText := lastDeviceText a; lastFrameTime := lastFrameTime a;
  frameTimeMs := frameTimeMs a; fps := fps a;
  smoothedFrameTimeMs := smoothedFrameTimeMs a;
  smoothedFps := smoothedFps a;
  enableMouseButtons := enableMouseButtons a;
  enableKeyboard := enableKeyboard a;
  enableMouseDelta := enableMouseDelta a; enableLog := enableLog a;
  enableUpEvents := enableUpEvents a; enableMouseHz := enableMouseHz a;
  enableOverlay := enableOverlay a; mouseDeltaTimes := mouseDeltaTimes a;
  mouseHz := v; logEntries := logEntries a; running := running a |}.

Definition set_logEntries v a := {|
  isFlashing := isFlashing a; flashStartTime := flashStartTime a;
  flashDurationMs := flashDurationMs a; appStartTime := appStartTime a;
  lastEventTimeMs := lastEventTimeMs a; lastInputText := lastInputText a;
  lastDeviceText := lastDeviceText a; lastFrameTime := lastFrameTime a;
  frameTimeMs := frameTimeMs a; fps := fps a;
  smoothedFrameTimeMs := smoothedFrameTimeMs a;
  smoothedFps := smoothedFps a;
  enableMouseButtons := enableMouseButtons a;
  enableKeyboard := enableKeyboard a;
  enableMouseDelta := enableMouseDelta a; enableLog := enableLog a;
  enableUpEvents := enableUpEvents a; enableMouseHz := enableMouseHz a;
  enableOverlay := enableOverlay a; mouseDeltaTimes := mouseDeltaTimes a;
  mouseHz := mouseHz a; logEntries := v; running := running a |}.

Definition set_running v a := {|
  isFlashing := isFlashing a; flashStartTime := flashStartTime a;
  flashDurationMs := flashDurationMs a; appStartTime := appStartTime a;
  lastEventTimeMs := lastEventTimeMs a; lastInputText := lastInputText a;
  lastDeviceText := lastDeviceText a; lastFrameTime := lastFrameTime a;
  frameTimeMs := frameTimeMs a; fps := fps a;
  smoothedFrameTimeMs := smoothedFrameTimeMs a;
  smoothedFps := smoothedFps a;
  enableMouseButtons := enableMouseButtons a;
  enableKeyboard := enableKeyboard a;
  enableMouseDelta := enableMouseDelta a; enableLog := enableLog a;
  enableUpEvents := enableUpEvents a; enableMouseHz := enableMouseHz a;
  enableOverlay := enableOverlay a; mouseDeltaTimes := mouseDeltaTimes a;
  mouseHz := mouseHz a; logEntries := logEntries a; running := v |}.

Section Program.

Variable clock : nat -> Z.

(** Operating system and C library calls whose results are text:
    [GetRawInputDeviceInfoW] with [RIDI_DEVICENAME] on a device handle,
    [GetKeyNameTextW] on a key code, and the [swprintf_s] of the two
    times that start a log entry. *)
Variable GetRawInputDeviceInfoW : Z -> string.
Variable GetKeyNameTextW : Z -> string.
Variable swprintf_times : F64.double -> F64.double -> string.

Definition Prog (A : Type) : Type := M (World AppState Call) A.

Definition TriggerFlash (inputInfo deviceInfo : string) : Prog unit :=
  record_call (Enter_TriggerFlash inputInfo deviceInfo) ;;
  now <- Clock_now clock ;;
  update (set_isFlashing true) ;;
  update (set_flashStartTime now) ;;
  update (set_lastInputText inputInfo) ;;
  update (set_lastDeviceText deviceInfo) ;;
  logging <- read enableLog ;;
  if logging then
    start <- read appStartTime ;;
    let currentTimeMs := duration_double_milli (now - start) in
    lastEvent <- read lastEventTimeMs ;;
    let deltaMs := F64.sub currentTimeMs lastEvent in
    let timeStr := swprintf_times currentTimeMs deltaMs in
    let logEntry := timeStr ++ " | " ++ inputInfo ++ " | " ++ deviceInfo in
    entries <- read logEntries ;;
    update (set_logEntries (insert_begin logEntry entries)) ;;
    entries <- read logEntries ;;
    (if MAX_LOG_ENTRIES <? size entries
     then update (set_logEntries (pop_back entries))
     else ret tt) ;;
    update (set_lastEventTimeMs currentTimeMs)
  else ret tt.

(** The chain of tests on [usButtonFlags] that names the input; [None]
    is a [return] from [ProcessRawInput]. *)
Definition mouse_inputInfo (m : RAWMOUSE) (isDeltaEvent enableUp : bool)
  : option string :=
  let flags := usButtonFlags m in
  let up (s : string) := if negb enableUp then None else Some s in
  if test flags RI_MOUSE_LEFT_BUTTON_DOWN then Some "Left Click DOWN"
  else if test flags RI_MOUSE_LEFT_BUTTON_UP then up "Left Click UP"
  else if test flags RI_MOUSE_RIGHT_BUTTON_DOWN then Some "Right Click DOWN"
  else if test flags RI_MOUSE_RIGHT_BUTTON_UP then up "Right Click UP"
  else if test flags RI_MOUSE_MIDDLE_BUTTON_DOWN then Some "Middle Click DOWN"
  else if test flags RI_MOUSE_MIDDLE_BUTTON_UP then up "Middle Click UP"
  else if test flags RI_MOUSE_BUTTON_4_DOWN then Some "Button 4 DOWN"
  else if test flags RI_MOUSE_BUTTON_4_UP then up "Button 4 UP"
  else if test flags RI_MOUSE_BUTTON_5_DOWN then Some "Button 5 DOWN"
  else if test flags RI_MOUSE_BUTTON_5_UP then up "Button 5 UP"
  else if test flags RI_MOUSE_WHEEL
       then Some ("Wheel: " ++ to_wstring (SHORT (usButtonData m)))
  else if isDeltaEvent
       then Some ("Move: dX=" ++ to_wstring (lLastX m)
                  ++ " dY=" ++ to_wstring (lLastY m))
  else None.

Definition keyboard_inputInfo (kb : RAWKEYBOARD) (isDown : bool) : string :=
  let vk := VKey kb in
  let sc := MakeCode kb in
  let scanCode := if test (Flags kb) RI_KEY_E0 then Z.lor sc 0x100 else sc in
  let keyName := GetKeyNameTextW (LONG (Z.shiftl scanCode 16)) in
  keyName ++ " (VK=" ++ to_wstring vk ++ " SC=" ++ to_wstring sc ++ ") "
          ++ (if isDown then "DOWN" else "UP").

Definition ProcessRawInput (lParam : option RAWINPUT) : Prog unit :=
  match lParam with
  | None => ret tt
  | Some raw =>
      let deviceName :=
        device_leaf (GetRawInputDeviceInfoW (hDevice (header raw))) in
      if dwType (header raw) =? RIM_TYPEMOUSE then
        let m := mouse raw in
        let isButtonEvent := negb (usButtonFlags m =? 0) in
        let isDeltaEvent := negb (lLastX m =? 0) || negb (lLastY m =? 0) in
        hz <- read enableMouseHz ;;
        (if isDeltaEvent && hz then
           t <- Clock_now clock ;;
           times <- read mouseDeltaTimes ;;
           update (set_mouseDeltaTimes (push_back t times))
         else ret tt) ;;
        buttons <- read enableMouseButtons ;;
        if isButtonEvent && negb buttons then ret tt
        else
          delta <- read enableMouseDelta ;;
          if isDeltaEvent && negb isButtonEvent && negb delta then ret tt
          else
            upEvents <- read enableUpEvents ;;
            match mouse_inputInfo m isDeltaEvent upEvents with
            | None => ret tt
            | Some inputInfo =>
                TriggerFlash inputInfo ("MOUSE" ++ ": " ++ deviceName)
            end
      else if dwType (header raw) =? RIM_TYPEKEYBOARD then
        kbd <- read enableKeyboard ;;
        if negb kbd then ret tt
        else
          let kb := keyboard raw in
          let isDown := negb (test (Flags kb) RI_KEY_BREAK) in
          upEvents <- read enableUpEvents ;;
          if negb isDown && negb upEvents then ret tt
          else
            TriggerFlash (keyboard_inputInfo kb isDown)
                         ("KEYBOARD" ++ ": " ++ deviceName)
      else ret tt
  end.

Definition toggle (get : AppState -> bool) (set : bool -> AppState -> AppState)
  : Prog unit :=
  b <- read get ;;
  update (set (negb b)).

Definition WndProc (msg : MSG) : Prog unit :=
  match msg with
  | WM_INPUT lParam => ProcessRawInput lParam
  | WM_KEYDOWN wParam =>
      if wParam =? VK_ESCAPE then update (set_running false)
      else if wParam =? VK_F1 then toggle enableMouseButtons set_enableMouseButtons
      else if wParam =? VK_F2 then toggle enableKeyboard set_enableKeyboard
      else if wParam =? VK_F3 then toggle enableMouseDelta set_enableMouseDelta
      else if wParam =? VK_F4 then
        toggle enableLog set_enableLog ;;
        logging <- read enableLog ;;
        if negb logging then update (set_logEntries []) else ret tt
      else if wParam =? VK_F5 then
        d <- read flashDurationMs ;;
        update (set_flashDurationMs (F32.add d (F32.of_Z 10)))
      else if wParam =? VK_F6 then
        d <- read flashDurationMs ;;
        update (set_flashDurationMs
                  (if F32.ltb (F32.of_Z 10) d then F32.sub d (F32.of_Z 10)
                   else F32.of_Z 10))
      else if wParam =? VK_F7 then toggle enableUpEvents set_enableUpEvents
      else if wParam =? VK_F8 then
        toggle enableMouseHz set_enableMouseHz ;;
        hz <- read enableMouseHz ;;
        if negb hz then
          update (set_mouseDeltaTimes []) ;;
          update (set_mouseHz F32.zero)
        else ret tt
      else if wParam =? VK_F9 then toggle enableOverlay set_enableOverlay
      else ret tt
  | WM_SYSKEYDOWN _ => ret tt      (* F10: ToggleFullscreen *)
  | WM_DESTROY => update (set_running false)
  | _ => ret tt                    (* DefWindowProcW *)
  end.

(** The test that ends a flash, written out in both paths of [Render]. *)
Definition end_flash : Prog unit :=
  flashing <- read isFlashing ;;
  if flashing then
    t <- Clock_now clock ;;
    start <- read flashStartTime ;;
    let elapsed := duration_cast_milliseconds (t - start) in
    duration <- read flashDurationMs ;;
    if F32.leb duration (F32.of_Z elapsed)
    then update (set_isFlashing false)
    else ret tt
  else ret tt.

(** The part of [Render] that writes the state. *)
Definition Render : Prog unit :=
  overlay <- read enableOverlay ;;
  if negb overlay then
    (* minimal path *)
    end_flash
  else
    (* full path *)
    now <- Clock_now clock ;;
    last <- read lastFrameTime ;;
    update (set_frameTimeMs (duration_float_milli (now - last))) ;;
    update (set_lastFrameTime now) ;;
    frameTime <- read frameTimeMs ;;
    update (set_fps (if F32.ltb F32.zero frameTime
                     then F32.div (F32.of_Z 1000) frameTime
                     else F32.zero)) ;;
    sft <- read smoothedFrameTimeMs ;;
    update (set_smoothedFrameTimeMs
              (F32.add (F32.mul sft smoothing)
                       (F32.mul frameTime (F32.sub (F32.of_Z 1) smoothing)))) ;;
    sfps <- read smoothedFps ;;
    f <- read fps ;;
    update (set_smoothedFps
              (F32.add (F32.mul sfps smoothing)
                       (F32.mul f (F32.sub (F32.of_Z 1) smoothing)))) ;;
    hz <- read enableMouseHz ;;
    (if hz then
       let oneSecondAgo := now - 1000000000 in
       times <- read mouseDeltaTimes ;;
       update (set_mouseDeltaTimes (erase_older oneSecondAgo times)) ;;
       times <- read mouseDeltaTimes ;;
       update (set_mouseHz (F32.of_Z (size times)))
     else ret tt) ;;
    end_flash.

(** ** The message loop of [wWinMain] *)

Fixpoint pump (queue : list MSG) : Prog unit :=
  match queue with
  | [] => ret tt
  | WM_QUIT :: _ => update (set_running false)
  | msg :: rest => WndProc msg ;; pump rest
  end.

Fixpoint main_loop (frames : list (list MSG)) : Prog unit :=
  match frames with
  | [] => ret tt
  | queue :: rest =>
      r <- read running ;;
      if r then pump queue ;; Render ;; main_loop rest
      else ret tt
  end.

(** The member initialisers of [g_app]: two of them read the clock, in
    the order of declaration. *)
Definition g_app : AppState := {|
  isFlashing := false; flashStartTime := 0;
  flashDurationMs := F32.of_Z 50;
  appStartTime := clock 0; lastEventTimeMs := F64.zero;
  lastInputText := "Waiting for input..."; lastDeviceText := "";
  lastFrameTime := clock 1;
  frameTimeMs := F32.zero; fps := F32.zero;
  smoothedFrameTimeMs := F32.zero; smoothedFps := F32.zero;
  enableMouseButtons := true; enableKeyboard := true;
  enableMouseDelta := true; enableLog := false; enableUpEvents := true;
  enableMouseHz := false; enableOverlay := true;
  mouseDeltaTimes := []; mouseHz := F32.zero; logEntries := [];
  running := true |}.

Definition initial : World AppState Call :=
  {| app := g_app; clock_reads := 2%nat; calls := [] |}.

Inductive Event :=
| Message (msg : MSG)
| Frame.

Definition step (e : Event) : Prog unit :=
  match e with
  | Message WM_QUIT => update (set_running false)
  | Message msg => WndProc msg
  | Frame => Render
  end.

Fixpoint run (evs : list Event) : Prog unit :=
  match evs with
  | [] => ret tt
  | e :: rest => step e ;; run rest
  end.

Definition exec (evs : list Event) : result (unit * World AppState Call) :=
  run evs initial.

End Program.
End Latency.

(** * Vocabulary of the properties *)

Module Spec.
Import Win32.

(** [b] is a minimum of [l]: it is one of its elements and no element is
    below it. *)
Definition is_minimum (b : F32.float) (l : list F32.float) : Prop :=
  In b l /\ forall t, In t l -> F32.leb b t = true.

(** The sum of [l], accumulated from a zero in sequence order, and the
    arithmetic mean: the sum divided by the number of elements. *)
Definition sum_of (l : list F32.float) : F32.float :=
  fold_left F32.add l F32.zero.

Definition mean_of (l : list F32.float) : F32.float :=
  F32.div (sum_of l) (F32.of_Z (Z.of_nat (List.length l))).

(** A raw input the reaction tester acts on: a mouse report with one of
    the three button-down flags. *)
Definition qualifying (raw : RAWINPUT) : bool :=
  (dwType (header raw) =? RIM_TYPEMOUSE) && Reaction.buttonDown (mouse raw).

(** Events of the reaction tester that are neither a qualifying input
    nor a key: rendered frames and raw inputs that do not qualify. *)
Definition passive (e : Reaction.Event) : bool :=
  match e with
  | Reaction.Frame _ => true
  | Reaction.Message (WM_INPUT None) => true
  | Reaction.Message (WM_INPUT (Some raw)) => negb (qualifying raw)
  | Reaction.Message _ => false
  end.

(** The results a trial updates. *)
Definition results {G : Type} (a : Reaction.AppState G)
  : list F32.float * F32.float * F32.float * F32.float :=
  (Reaction.reactionTimes a, Reaction.lastReactionTime a,
   Reaction.averageTime a, Reaction.bestTime a).

(** Rounds are delimited by the calls of [StartNewRound].  For a record
    of calls, newest first, [beeps_per_round] lists how many times the
    tone engine was invoked in each round, the current round first;
    [cur] counts the invocations seen since the latest round start. *)
Fixpoint beeps_from (cur : nat) (log : list Reaction.Call) : list nat :=
  match log with
  | [] => [cur]
  | Reaction.Enter_StartNewRound :: older => cur :: beeps_from 0 older
  | Reaction.Enter_PlayBeepWASAPI :: older => beeps_from (S cur) older
  | _ :: older => beeps_from cur older
  end.

Definition beeps_per_round (log : list Reaction.Call) : list nat :=
  beeps_from 0 log.

(** The calls made to the audio client from inside the tone engine. *)
Definition audio_call (c : Reaction.Call) : bool :=
  match c with
  | Reaction.Enter_StartNewRound | Reaction.Enter_PlayBeepWASAPI => false
  | _ => true
  end.

(** The number of invocations of the tone engine in a record of calls. *)
Definition beeps (log : list Reaction.Call) : nat :=
  List.length (filter (fun c => match c with
                                | Reaction.Enter_PlayBeepWASAPI => true
                                | _ => false
                                end) log).

(** A mouse report with a displacement, and one without button flags. *)
Definition delta_event (raw : RAWINPUT) : bool :=
  (dwType (header raw) =? RIM_TYPEMOUSE) &&
  (negb (lLastX (mouse raw) =? 0) || negb (lLastY (mouse raw) =? 0)).

Definition motion_only (raw : RAWINPUT) : bool :=
  delta_event raw && (usButtonFlags (mouse raw) =? 0).

(** The readings of [times] that are not older than one second at
    [now]. *)
Definition within_last_second (now : Z) (times : list Z) : list Z :=
  filter (fun t => now - 1000000000 <=? t) times.

(** Sample rates of common audio formats, in Hz. *)
Definition common_rates : list Z :=
  [8000; 11025; 16000; 22050; 32000; 44100; 48000; 88200; 96000;
   176400; 192000; 352800; 384000].

End Spec.

(** * A concrete environment

    An engine, a clock and inputs on which the programs can be run. *)

Module Demo.
Import Win32.
Local Open Scope string_scope.
Local Open Scope Z_scope.

Definition engine : Type := nat.

(** Delays of 1500, 2000, 2500 and 3000 ms in turn. *)
Definition draw (a b : F32.float) (g : engine) : F32.float * engine :=
  (F32.add a (F32.of_Z (Z.of_nat (g mod 4) * 500)), S g).

(** Readings that lie 2 s, 4 s, 6 s, ... apart (and 14 ns, 28 ns, ...). *)
Definition clock (k : nat) : Z :=
  Z.of_nat k * (Z.of_nat k + 1) * 1000000007.

Definition mouse_report (flags dx dy : Z) : RAWINPUT := {|
  header := {| dwType := RIM_TYPEMOUSE; hDevice := 65599 |};
  mouse := {| usButtonFlags := flags; usButtonData := 0;
              lLastX := dx; lLastY := dy |};
  keyboard := {| MakeCode := 0; Flags := 0; VKey := 0 |} |}.

Definition click : RAWINPUT := mouse_report RI_MOUSE_LEFT_BUTTON_DOWN 0 0.
Definition right_click : RAWINPUT := mouse_report RI_MOUSE_RIGHT_BUTTON_DOWN 0 0.
Definition move : RAWINPUT := mouse_report 0 3 (-1).

Definition device : Reaction.AudioDevice := {|
  Reaction.mixFormat := {| Reaction.nSamplesPerSec := 48000;
                           Reaction.nChannels := 2;
                           Reaction.wBitsPerSample := 32 |};
  Reaction.bufferSize := 144;
  Reaction.streamLatency := 30000 |}.

(** One successful trial: the frame that shows the stimulus, then the
    click. *)
Definition trial : list Reaction.Event :=
  [Reaction.Frame true; Reaction.Message (WM_INPUT (Some click))].

Fixpoint trials (n : nat) : list Reaction.Event :=
  match n with
  | O => []
  | S k => trial ++ trials k
  end.

Definition reaction_exec (evs : list Reaction.Event) :=
  Reaction.exec draw clock 0%nat (Some device) evs.

(** The world a run ends in. *)
Definition world_after (evs : list Reaction.Event)
  : World (Reaction.AppState engine) Reaction.Call :=
  match reaction_exec evs with
  | Ok (_, w) => w
  | Fault _ => Reaction.initial 0%nat
  end.

Definition device_name (h : Z) : string :=
  "\\?\HID#VID_046D&PID_C08B&MI_00#7&2a1b3c4d&0&0000#{378de44c-56ef-11d1-bc8c-00a0c91405dd}".

Definition key_name (code : Z) : string := "A".

Definition times_text (currentTimeMs deltaMs : F64.double) : string := "t".

Definition latency_exec (evs : list Latency.Event) :=
  Latency.exec clock device_name key_name times_text evs.

Definition latency_world_after (evs : list Latency.Event)
  : World Latency.AppState Latency.Call :=
  match latency_exec evs with
  | Ok (_, w) => w
  | Fault _ => Latency.initial clock
  end.

(** Thirty logged clicks after the log is switched on with F4. *)
Fixpoint clicks (n : nat) : list Latency.Event :=
  match n with
  | O => []
  | S k => Latency.Message (WM_INPUT (Some click)) :: clicks k
  end.

End Demo.

(** * Further inputs and checks *)

Module Cases.
Import Win32.
Local Open Scope Z_scope.

(** [p] holds of each of the [n] integers from [r] on. *)
Fixpoint all_from (n : nat) (r : Z) (p : Z -> bool) : bool :=
  match n with
  | O => true
  | S k => p r && all_from k (r + 1) p
  end.

(** At a rate of [25 * k] Hz, where 80 ms are a whole number of frames,
    the tone has these [2 * k] frames. *)
Definition tone_exact (k : Z) : bool :=
  Reaction.toneSamples_of (25 * k) =? 2 * k.

(** The world a run of the reaction tester ends in when no audio device
    could be opened. *)
Definition world_without_device (evs : list Reaction.Event)
  : World (Reaction.AppState Demo.engine) Reaction.Call :=
  match Reaction.exec Demo.draw Demo.clock 0%nat None evs with
  | Ok (_, w) => w
  | Fault _ => Reaction.initial 0%nat
  end.

(** A clock whose readings lie one millisecond apart. *)
Definition fast_clock (k : nat) : Z := Z.of_nat k * 1000000.

(** Rate tracking switched on with F8, then three moves of the mouse. *)
Definition three_moves : list Latency.Event :=
  [Latency.Message (WM_KEYDOWN VK_F8);
   Latency.Message (WM_INPUT (Some Demo.move));
   Latency.Message (WM_INPUT (Some Demo.move));
   Latency.Message (WM_INPUT (Some Demo.move))].

(** The world a run of the latency tester ends in on that clock. *)
Definition fast_world_after (evs : list Latency.Event)
  : World Latency.AppState Latency.Call :=
  match Latency.exec fast_clock Demo.device_name Demo.key_name
                     Demo.times_text evs with
  | Ok (_, w) => w
  | Fault _ => Latency.initial fast_clock
  end.

(** Two iterations of the loop of the reaction tester: F1 is pressed in
    the first, and the window is closed in the second. *)
Definition quit_frames : list (list MSG * bool) :=
  [([WM_KEYDOWN VK_F1], true); ([WM_QUIT; WM_KEYDOWN VK_SPACE], true)].

(** The whole program on these, when the audio client was activated and
    [InitWASAPI] failed, and when it succeeded. *)
Definition program_without_device
  : result (option Z * World (Reaction.AppState Demo.engine) Reaction.Call) :=
  Reaction.wWinMain Demo.draw Demo.clock true true true None true
                    quit_frames (Reaction.initial 0%nat).

Definition program_with_device
  : result (option Z * World (Reaction.AppState Demo.engine) Reaction.Call) :=
  Reaction.wWinMain Demo.draw Demo.clock true true true (Some Demo.device)
                    false quit_frames (Reaction.initial 0%nat).

Definition final_world
  (r : result (option Z * World (Reaction.AppState Demo.engine) Reaction.Call))
  : World (Reaction.AppState Demo.engine) Reaction.Call :=
  match r with
  | Ok (_, w) => w
  | Fault _ => Reaction.initial 0%nat
  end.

(** The release of a key. *)
Definition key_release : RAWINPUT := {|
  header := {| dwType := RIM_TYPEKEYBOARD; hDevice := 65601 |};
  mouse := {| usButtonFlags := 0; usButtonData := 0;
              lLastX := 0; lLastY := 0 |};
  keyboard := {| MakeCode := 30; Flags := RI_KEY_BREAK; VKey := 65 |} |}.

(** One report with the release of the left button and the press of the
    right one. *)
Definition release_and_press : RAWINPUT :=
  Demo.mouse_report
    (Z.lor RI_MOUSE_LEFT_BUTTON_UP RI_MOUSE_RIGHT_BUTTON_DOWN) 0 0.

End Cases.

(** * Facts about the arithmetic *)

Module F32Facts.
Import F32.

Section Rounding.
Variables prec emax : Z.

Lemma shr_1_nonneg mrs : 0 <= shr_m mrs -> 0 <= shr_m (shr_1 mrs).
Proof.
  destruct mrs as [m r s]; simpl.
  destruct m as [|p|p]; simpl; try lia.
  destruct p; simpl; lia.
Qed.

Lemma iter_shr_1_nonneg p : forall mrs,
  0 <= shr_m mrs -> 0 <= shr_m (iter_pos shr_1 p mrs).
Proof.
  induction p as [p IH|p IH|]; intros mrs H; simpl.
  - apply IH, IH, shr_1_nonneg, H.
  - apply IH, IH, H.
  - apply shr_1_nonneg, H.
Qed.

Lemma shr_nonneg mrs e n : 0 <= shr_m mrs -> 0 <= shr_m (fst (shr mrs e n)).
Proof.
  intros H. destruct n; simpl; auto using iter_shr_1_nonneg.
Qed.

Lemma shr_record_of_loc_m m l : shr_m (shr_record_of_loc m l) = m.
Proof. destruct l as [|[]]; reflexivity. Qed.

Lemma shr_fexp_nonneg m e l :
  0 <= m -> 0 <= shr_m (fst (shr_fexp prec emax m e l)).
Proof.
  intros H. unfold shr_fexp. apply shr_nonneg.
  rewrite shr_record_of_loc_m. exact H.
Qed.

Lemma round_nearest_even_nonneg m l : 0 <= m -> 0 <= round_nearest_even m l.
Proof.
  intros H. destruct l as [|[]]; simpl; try lia.
  destruct (Z.even m); lia.
Qed.

(** Rounding a non-negative mantissa never yields NaN and keeps the
    sign it is given. *)
Lemma binary_round_aux_sign s mx ex lx :
  0 <= mx -> has_sign s (binary_round_aux prec emax s mx ex lx) = true.
Proof.
  intros H. unfold binary_round_aux.
  pose proof (shr_fexp_nonneg mx ex lx H) as H1.
  destruct (shr_fexp prec emax mx ex lx) as [mrs' e']. simpl in H1.
  pose proof (shr_fexp_nonneg _ e' loc_Exact
                (round_nearest_even_nonneg _ (loc_of_shr_record mrs') H1)) as H2.
  destruct (shr_fexp prec emax _ e' loc_Exact) as [mrs'' e'']. simpl in H2.
  destruct (shr_m mrs'') as [|m|m]; simpl.
  - apply eqb_reflx.
  - destruct (e'' <=? emax - prec); simpl; apply eqb_reflx.
  - lia.
Qed.

Lemma binary_round_sign s m e :
  has_sign s (binary_round prec emax s m e) = true.
Proof.
  unfold binary_round. destruct (shl_align m e _) as [mz ez].
  apply binary_round_aux_sign. lia.
Qed.

Lemma binary_normalize_sign n e :
  has_sign (n <? 0) (binary_normalize prec emax n e false) = true.
Proof.
  destruct n; simpl; try apply binary_round_sign. reflexivity.
Qed.

Lemma SFdiv_core_nonneg m1 e1 m2 e2 :
  0 <= fst (fst (SFdiv_core_binary prec emax (Zpos m1) e1 (Zpos m2) e2)).
Proof.
  unfold SFdiv_core_binary.
  set (s := _ - _ - _).
  set (m' := match s with
             | Z0 => Zpos m1
             | Zpos _ => Z.shiftl (Zpos m1) s
             | Zneg _ => 0
             end).
  assert (Hm : 0 <= m').
  { subst m'. destruct s; try lia. apply Z.shiftl_nonneg. lia. }
  pose proof (Z_div_mod m' (Zpos m2) eq_refl) as Hd.
  destruct (Z.div_eucl m' (Zpos m2)) as [q r]. simpl.
  destruct Hd as [Hq Hr]. nia.
Qed.

(** Dividing a signed value by a finite one gives a signed value. *)
Lemma SFdiv_sign sx sy x my ey :
  has_sign sx x = true ->
  has_sign (xorb sx sy) (SFdiv prec emax x (S754_finite sy my ey)) = true.
Proof.
  intros Hx. destruct x as [s|s| |s m e]; simpl in Hx; try discriminate;
    apply eqb_prop in Hx; subst s; simpl; try apply eqb_reflx.
  pose proof (SFdiv_core_nonneg m e my ey) as H.
  destruct (SFdiv_core_binary _ _ _ _ _ _) as [[mz ez] lz]. simpl in H.
  apply binary_round_aux_sign, H.
Qed.

End Rounding.

Lemma of_Z_million : F32.of_Z 1000000 = S754_finite false 16000000 (-4).
Proof. vm_compute. reflexivity. Qed.

(** A duration in milliseconds carries the sign of the tick count. *)
Lemma duration_float_milli_sign d :
  has_sign (d <? 0) (duration_float_milli d) = true.
Proof.
  unfold duration_float_milli, F32.div. rewrite of_Z_million.
  rewrite <- (xorb_false_r (d <? 0)).
  apply SFdiv_sign, binary_normalize_sign.
Qed.

Lemma has_sign_not_nan s x : has_sign s x = true -> F32.is_nan x = false.
Proof. destruct x; simpl; intros; try reflexivity; discriminate. Qed.

Lemma duration_float_milli_not_nan d :
  F32.is_nan (duration_float_milli d) = false.
Proof. apply (has_sign_not_nan _ _ (duration_float_milli_sign d)). Qed.

Lemma leb_zero_nonneg x : has_sign false x = true -> F32.leb F32.zero x = true.
Proof.
  destruct x as [[]|[]| |[] m e]; simpl; intros; try discriminate; reflexivity.
Qed.

Lemma duration_float_milli_nonneg d :
  0 <= d -> F32.leb F32.zero (duration_float_milli d) = true.
Proof.
  intros H. apply leb_zero_nonneg.
  pose proof (duration_float_milli_sign d) as Hs.
  replace (d <? 0) with false in Hs; [exact Hs|].
  symmetry. apply Z.ltb_ge. exact H.
Qed.

(** ** The order of [SFcompare] on values that are not NaN *)

Ltac fold_compare :=
  repeat match goal with
  | |- context [PosDef.Pos.compare_cont Eq ?a ?b] =>
      change (PosDef.Pos.compare_cont Eq a b) with (Pos.compare a b)
  end.

Ltac order_cases :=
  repeat match goal with
  | |- context [Z.compare ?a ?b] =>
      let H := fresh in destruct (Z.compare_spec a b) as [H|H|H]
  | |- context [Pos.compare ?a ?b] =>
      let H := fresh in destruct (Pos.compare_spec a b) as [H|H|H]
  end.

Lemma leb_refl x : F32.is_nan x = false -> F32.leb x x = true.
Proof.
  destruct x as [s|s| |s m e]; intros H; try discriminate H;
    unfold F32.leb, SFleb; simpl.
  - reflexivity.
  - destruct s; reflexivity.
  - fold_compare. rewrite Z.compare_refl, Pos.compare_refl.
    destruct s; reflexivity.
Qed.

Lemma ltb_irrefl x : F32.ltb x x = false.
Proof.
  destruct x as [s|s| |s m e]; unfold F32.ltb, SFltb; simpl;
    try reflexivity.
  - destruct s; reflexivity.
  - fold_compare. rewrite Z.compare_refl, Pos.compare_refl.
    destruct s; reflexivity.
Qed.

Lemma ltb_leb_trans a b c :
  F32.ltb a b = true -> F32.leb b c = true -> F32.leb a c = true.
Proof.
  unfold F32.ltb, F32.leb, SFltb, SFleb.
  destruct a as [sa|sa| |sa ma ea], b as [sb|sb| |sb mb eb],
    c as [sc|sc| |sc mc ec]; simpl; try discriminate;
    try destruct sa; try destruct sb; try destruct sc; simpl;
    try discriminate; try reflexivity;
    fold_compare;
    order_cases; cbn [CompOpp]; subst;
    try discriminate; try reflexivity; try lia.
Qed.

Lemma not_ltb_leb a b :
  F32.is_nan a = false -> F32.is_nan b = false ->
  F32.ltb a b = false -> F32.leb b a = true.
Proof.
  unfold F32.ltb, F32.leb, SFltb, SFleb.
  destruct a as [sa|sa| |sa ma ea], b as [sb|sb| |sb mb eb]; simpl;
    try discriminate; intros _ _;
    try destruct sa; try destruct sb; simpl;
    try discriminate; try reflexivity;
    fold_compare;
    order_cases; cbn [CompOpp]; subst;
    try discriminate; try reflexivity; try lia.
Qed.

End F32Facts.

(** * Facts about the vector operations *)

Module VectorFacts.

Lemma size_cons {A} (x : A) l : size (x :: l) = size l + 1.
Proof. unfold size. cbn [List.length]. lia. Qed.

Lemma size_nonneg {A} (l : list A) : 0 <= size l.
Proof. unfold size. lia. Qed.

Lemma size_nil_iff {A} (l : list A) : size l = 0 <-> l = [].
Proof.
  unfold size. destruct l; cbn [List.length]; split; intros H;
    try reflexivity; try discriminate; lia.
Qed.

Lemma pop_back_cons {A} (x : A) l : l <> [] -> pop_back (x :: l) = x :: pop_back l.
Proof. unfold pop_back. destruct l; [congruence|reflexivity]. Qed.

Lemma pop_back_snoc {A} (l : list A) x : pop_back (l ++ [x]) = l.
Proof. apply removelast_last. Qed.

Lemma size_pop_back {A} (l : list A) : l <> [] -> size (pop_back l) = size l - 1.
Proof.
  intros H. destruct (exists_last H) as [l' [x ->]].
  rewrite pop_back_snoc. unfold size. rewrite length_app. cbn [List.length]. lia.
Qed.

Lemma In_pop_back {A} (x : A) l : In x (pop_back l) -> In x l.
Proof.
  destruct l as [|y l]; [intros []|].
  destruct (exists_last (l := y :: l)) as [l' [z E]]; [discriminate|].
  rewrite E, pop_back_snoc. intros H. apply in_or_app. left. exact H.
Qed.

Lemma Forall_pop_back {A} (P : A -> Prop) l : Forall P l -> Forall P (pop_back l).
Proof.
  rewrite !Forall_forall. intros H x Hx. apply H, In_pop_back, Hx.
Qed.

End VectorFacts.

(** * Facts about the reaction tester *)

Module ReactionFacts.
Import Win32 Reaction Spec F32Facts VectorFacts.

(** Proofs about a handler start by naming every component of the world,
    so that the handler computes to an explicit world. *)
Ltac open_world w :=
  destruct w as [[s_state s_round s_onset s_target s_times s_last s_avg
                  s_best s_rng s_running s_audio s_beep s_format s_frames
                  s_init s_latency] s_reads s_calls];
  cbn [app clock_reads calls state roundStartTime flashStartTime
       targetDelayMs reactionTimes lastReactionTime averageTime bestTime rng
       running audioMode beepPlayed audioFormat audioBufferFrames
       audioInitialized audioLatencyMs] in *.

Ltac norm :=
  cbv [Reaction.StartNewRound Reaction.GetRandomDelay Reaction.clear_results
       Reaction.InitWASAPI results
       bind ret gets modify read update record_call Clock_now raise
       app clock_reads calls state roundStartTime flashStartTime
       targetDelayMs reactionTimes lastReactionTime averageTime bestTime rng
       running audioMode beepPlayed audioFormat audioBufferFrames
       audioInitialized audioLatencyMs
       set_state set_roundStartTime set_flashStartTime set_targetDelayMs
       set_reactionTimes set_lastReactionTime set_averageTime set_bestTime
       set_rng set_running set_audioMode set_beepPlayed set_audioFormat
       set_audioBufferFrames set_audioInitialized set_audioLatencyMs
       fst snd].

Ltac norm_in H :=
  cbv [Reaction.StartNewRound Reaction.GetRandomDelay Reaction.clear_results
       Reaction.InitWASAPI results
       bind ret gets modify read update record_call Clock_now raise
       app clock_reads calls state roundStartTime flashStartTime
       targetDelayMs reactionTimes lastReactionTime averageTime bestTime rng
       running audioMode beepPlayed audioFormat audioBufferFrames
       audioInitialized audioLatencyMs
       set_state set_roundStartTime set_flashStartTime set_targetDelayMs
       set_reactionTimes set_lastReactionTime set_averageTime set_bestTime
       set_rng set_running set_audioMode set_beepPlayed set_audioFormat
       set_audioBufferFrames set_audioInitialized set_audioLatencyMs
       fst snd] in H.

Section Facts.
Variable mt19937 : Type.
Variable uniform_real_distribution :
  F32.float -> F32.float -> mt19937 -> F32.float * mt19937.
Variable clock : nat -> Z.

Local Abbreviation World := (World (AppState mt19937) Call).
Local Abbreviation StartNewRound := (StartNewRound uniform_real_distribution clock).
Local Abbreviation ProcessRawInput := (ProcessRawInput uniform_real_distribution clock).
Local Abbreviation WndProc := (WndProc uniform_real_distribution clock).
Local Abbreviation Render := (Render clock).
Local Abbreviation pump := (pump uniform_real_distribution clock).
Local Abbreviation main_loop := (main_loop uniform_real_distribution clock).
Local Abbreviation startup := (startup uniform_real_distribution clock).
Local Abbreviation step := (step uniform_real_distribution clock).
Local Abbreviation run := (run uniform_real_distribution clock).
Local Abbreviation exec := (exec uniform_real_distribution clock).

(** ** [UpdateStats] *)

Lemma UpdateStats_empty (w : World) :
  reactionTimes (app w) = [] -> UpdateStats w = Ok (tt, w).
Proof.
  intros H. open_world w. subst s_times. reflexivity.
Qed.

Lemma UpdateStats_nonempty (w : World) t ts :
  reactionTimes (app w) = t :: ts ->
  UpdateStats w =
  Ok (tt, {| app := set_bestTime
                      (snd (fold_left UpdateStats_body (t :: ts) (F32.zero, t)))
                      (set_averageTime
                         (F32.div (fst (fold_left UpdateStats_body (t :: ts)
                                                  (F32.zero, t)))
                                  (F32.of_Z (size (t :: ts))))
                         (app w));
             clock_reads := clock_reads w; calls := calls w |}).
Proof.
  intros H. open_world w. subst s_times. unfold Reaction.UpdateStats. norm.
  cbn [vector_empty vector_at nth_error]. norm.
  unfold div_by_size.
  pose proof (size_nonneg ts). rewrite size_cons.
  destruct (Z.eqb_spec (size ts + 1) 0) as [E|E]; [lia|]. reflexivity.
Qed.

Lemma UpdateStats_total (w : World) : exists w', UpdateStats w = Ok (tt, w').
Proof.
  destruct (reactionTimes (app w)) as [|t ts] eqn:E.
  - eexists. apply UpdateStats_empty, E.
  - eexists. apply UpdateStats_nonempty, E.
Qed.

Lemma fold_sum l : forall s b,
  fst (fold_left UpdateStats_body l (s, b)) = fold_left F32.add l s.
Proof.
  induction l as [|t l IH]; intros s b; simpl; [reflexivity|]. apply IH.
Qed.

(** The loop keeps in [best] a minimum of the elements seen so far. *)
Lemma fold_best l : forall s b seen,
  F32.is_nan b = false ->
  Forall (fun t => F32.is_nan t = false) l ->
  In b seen ->
  (forall t, In t seen -> F32.leb b t = true) ->
  let b' := snd (fold_left UpdateStats_body l (s, b)) in
  In b' (seen ++ l) /\ forall t, In t (seen ++ l) -> F32.leb b' t = true.
Proof.
  induction l as [|t l IH]; intros s b seen Hb Hl Hin Hle; simpl.
  - rewrite app_nil_r. auto.
  - inversion Hl as [|? ? Ht Hl']; subst.
    replace (seen ++ t :: l) with ((seen ++ [t]) ++ l)
      by (rewrite <- app_assoc; reflexivity).
    destruct (F32.ltb t b) eqn:E.
    + apply IH; auto.
      * apply in_or_app. right. left. reflexivity.
      * intros x Hx. apply in_app_or in Hx. destruct Hx as [Hx|[Hx|[]]].
        -- apply (ltb_leb_trans _ _ _ E). auto.
        -- subst. apply leb_refl, Ht.
    + apply IH; auto.
      * apply in_or_app. left. exact Hin.
      * intros x Hx. apply in_app_or in Hx. destruct Hx as [Hx|[Hx|[]]].
        -- auto.
        -- subst. apply not_ltb_leb; auto.
Qed.

Lemma stats_of_fold t ts :
  Forall (fun x => F32.is_nan x = false) (t :: ts) ->
  is_minimum (snd (fold_left UpdateStats_body (t :: ts) (F32.zero, t))) (t :: ts) /\
  F32.div (fst (fold_left UpdateStats_body (t :: ts) (F32.zero, t)))
          (F32.of_Z (size (t :: ts))) = mean_of (t :: ts).
Proof.
  intros H. split.
  - inversion H as [|? ? Ht Hts]; subst.
    simpl fold_left. rewrite ltb_irrefl.
    apply (fold_best ts (F32.add F32.zero t) t [t] Ht Hts).
    + left. reflexivity.
    + intros x [Hx|[]]. subst. apply leb_refl, Ht.
  - rewrite fold_sum. reflexivity.
Qed.

(** ** The handlers, one kind of input at a time *)

Lemma qualifying_inv raw :
  qualifying raw = true ->
  (dwType (header raw) =? RIM_TYPEMOUSE) = true /\ buttonDown (mouse raw) = true.
Proof. unfold qualifying. intros H. apply andb_prop in H. exact H. Qed.

(** What the capped insertion of [ProcessRawInput] leaves. *)
Lemma capped_insert (x : F32.float) old :
  (if MAX_LOG_ENTRIES <? size (insert_begin x old)
   then pop_back (insert_begin x old) else insert_begin x old)
  = x :: (if MAX_LOG_ENTRIES <=? size old then pop_back old else old).
Proof.
  unfold insert_begin. rewrite size_cons. unfold MAX_LOG_ENTRIES.
  destruct (Z.ltb_spec 25 (size old + 1)), (Z.leb_spec 25 (size old));
    try lia; try reflexivity.
  apply pop_back_cons. intros ->. unfold size in *. simpl in *. lia.
Qed.

(** The click that ends a trial, in full. *)
Lemma trial_step (w : World) (raw : RAWINPUT) :
  state (app w) = Flashing ->
  qualifying raw = true ->
  let now := clock (clock_reads w) in
  let sample := duration_float_milli (now - flashStartTime (app w)) in
  let old := reactionTimes (app w) in
  let times :=
    sample :: (if MAX_LOG_ENTRIES <=? size old then pop_back old else old) in
  let acc := fold_left UpdateStats_body times (F32.zero, sample) in
  let draw :=
    uniform_real_distribution MIN_DELAY_MS MAX_DELAY_MS (rng (app w)) in
  exists w',
    WndProc (WM_INPUT (Some raw)) w = Ok (tt, w') /\
    state (app w') = Waiting /\
    lastReactionTime (app w') = sample /\
    reactionTimes (app w') = times /\
    bestTime (app w') = snd acc /\
    averageTime (app w') = F32.div (fst acc) (F32.of_Z (size times)) /\
    roundStartTime (app w') = clock (S (clock_reads w)) /\
    targetDelayMs (app w') = fst draw /\
    rng (app w') = snd draw /\
    beepPlayed (app w') = false /\
    flashStartTime (app w') = flashStartTime (app w) /\
    audioMode (app w') = audioMode (app w) /\
    clock_reads w' = S (S (clock_reads w)) /\
    calls w' = Enter_StartNewRound :: calls w.
Proof.
  intros Hs Hq. destruct (qualifying_inv raw Hq) as [Ht Hb].
  open_world w. subst s_state.
  set (sample := duration_float_milli (clock s_reads - s_onset)).
  set (times := sample :: _).
  unfold Reaction.WndProc, Reaction.ProcessRawInput. rewrite Ht, Hb.
  cbn [negb]. norm. fold sample.
  pose proof (capped_insert sample s_times) as Hc. fold times in Hc.
  destruct (MAX_LOG_ENTRIES <? size (insert_begin sample s_times));
    rewrite Hc;
    erewrite UpdateStats_nonempty by reflexivity;
    norm; (eexists; split; [reflexivity|]); norm;
    repeat split; reflexivity.
Qed.

(** What an invocation of the tone engine adds to the record of calls:
    its own entry, then calls of the audio client only. *)
Lemma PlayBeepWASAPI_calls hr (w : World) :
  exists audio,
    PlayBeepWASAPI hr w =
      Ok (tt, {| app := app w; clock_reads := clock_reads w;
                 calls := audio ++ Enter_PlayBeepWASAPI :: calls w |}) /\
    forallb audio_call audio = true.
Proof.
  open_world w. unfold Reaction.PlayBeepWASAPI. norm.
  destruct s_init; cbn [negb].
  2: { exists []. split; reflexivity. }
  destruct hr; cbn [negb].
  2: { eexists [_; _; _]. split; reflexivity. }
  destruct (wBitsPerSample s_format =? 32).
  { eexists [_; _; _; _; _; _]. split; reflexivity. }
  destruct (wBitsPerSample s_format =? 16).
  { eexists [_; _; _; _; _; _]. split; reflexivity. }
  eexists [_; _; _; _; _]. split; reflexivity.
Qed.

(** Case analysis of a finished run of a handler on an opened world,
    [H : c w = Ok (tt, w')]: every branch of [c] is followed, innermost
    test first. *)
Ltac case_step H :=
  repeat first
    [ progress norm_in H
    | match type of H with
      | context [Reaction.UpdateStats ?w] =>
          let w1 := fresh "w" in let E := fresh "E" in
          destruct (UpdateStats_total w) as [w1 E]; rewrite E in H; clear E;
          destruct w1 as [? ? ?]
      | context [Reaction.PlayBeepWASAPI ?hr ?w] =>
          let audio := fresh "audio" in
          let E := fresh "E" in let Ha := fresh "Ha" in
          destruct (PlayBeepWASAPI_calls hr w) as [audio [E Ha]];
          rewrite E in H; clear E
      end
    | match type of H with
      | context [match ?x with _ => _ end] =>
          lazymatch x with
          | context [match _ with _ => _ end] => fail
          | _ => let E := fresh "E" in destruct x eqn:E
          end
      end ];
  try discriminate H;
  try (injection H as H; subst).

(** The kinds of step of the state machine. *)
Lemma step_kinds e (w w' : World) :
  step e w = Ok (tt, w') ->
  (* nothing the trials depend on changes *)
  (state (app w') = state (app w) /\ results (app w') = results (app w) /\
   flashStartTime (app w') = flashStartTime (app w) /\
   beepPlayed (app w') = beepPlayed (app w) /\
   calls w' = calls w /\ (clock_reads w <= clock_reads w')%nat)
  \/ (* a false start *)
  (state (app w) = Waiting /\ state (app w') = TooEarly /\
   results (app w') = results (app w) /\
   beepPlayed (app w') = beepPlayed (app w) /\
   calls w' = calls w /\ (clock_reads w <= clock_reads w')%nat)
  \/ (* the click that ends a trial *)
  (state (app w) = Flashing /\
   exists raw, qualifying raw = true /\ e = Message (WM_INPUT (Some raw)))
  \/ (* a new round without a trial *)
  (state (app w') = Waiting /\ beepPlayed (app w') = false /\
   calls w' = Enter_StartNewRound :: calls w /\
   (results (app w') = results (app w) \/
    results (app w') = ([], F32.zero, F32.zero, F32.zero)) /\
   (clock_reads w <= clock_reads w')%nat)
  \/ (* the stimulus onset *)
  ((exists hr, e = Frame hr) /\
   state (app w) = Waiting /\ state (app w') = Flashing /\
   flashStartTime (app w') = clock (S (clock_reads w)) /\
   clock_reads w' = S (S (clock_reads w)) /\
   results (app w') = results (app w) /\
   (beepPlayed (app w') = beepPlayed (app w) /\ calls w' = calls w \/
    audioMode (app w) = true /\ beepPlayed (app w) = false /\
    beepPlayed (app w') = true /\
    exists audio, calls w' = audio ++ Enter_PlayBeepWASAPI :: calls w /\
                  forallb audio_call audio = true)).
Proof.
  intros H.
  assert (T : (exists raw, qualifying raw = true /\ state (app w) = Flashing /\
                           e = Message (WM_INPUT (Some raw))) \/
              (forall raw, e = Message (WM_INPUT (Some raw)) ->
                           state (app w) = Flashing -> qualifying raw = false)).
  { destruct e as [[[raw|]| | | | |]|hr]; try solve [right; intros ? [=]].
    destruct (qualifying raw) eqn:Q; [|right; intros ? [= <-]; auto].
    destruct (state (app w)) eqn:S; try (right; intros ? [= <-]; discriminate).
    left. exists raw. auto. }
  destruct T as [[raw [Q [S ->]]]|T].
  { right. right. left. split; [exact S|]. exists raw. auto. }
  open_world w.
  unfold Reaction.step, Reaction.WndProc, Reaction.ProcessRawInput,
    Reaction.Render in H.
  case_step H.
  all: try solve [exfalso; pose proof (T _ eq_refl eq_refl) as Q;
                  unfold qualifying in Q;
                  destruct (buttonDown _); destruct (dwType _ =? _);
                  discriminate].
  all: norm.
  all: try solve [left; repeat split; auto; lia].
  all: try solve [right; left; repeat split; auto; lia].
  all: try solve [right; right; right; left; repeat split; auto; lia].
  all: try solve [do 4 right; split; [eexists; reflexivity|];
                  repeat split; auto].
  do 4 right. split; [eexists; reflexivity|].
  apply andb_prop in E2. destruct E2 as [A B]. apply negb_true_iff in B.
  repeat (split; [reflexivity|]). right.
  split; [exact A|]. split; [exact B|]. split; [reflexivity|].
  exists audio. split; [reflexivity|exact Ha].
Qed.

(** ** Runs *)

(** Induction over runs: a property that holds after [startup] and that
    every step keeps holds after every run. *)
Lemma run_invariant (P : World -> Prop) :
  (forall e w w', P w -> step e w = Ok (tt, w') -> P w') ->
  forall evs w w', P w -> run evs w = Ok (tt, w') -> P w'.
Proof.
  intros Hstep. induction evs as [|e evs IH]; intros w w' Hw Hrun.
  - injection Hrun as <-. exact Hw.
  - cbn [Reaction.run] in Hrun. unfold bind in Hrun.
    destruct (step e w) as [[[] w1]|f] eqn:E; [|discriminate].
    apply (IH w1 w'); [|exact Hrun]. apply (Hstep e w w1 Hw E).
Qed.

Lemma exec_invariant (P : World -> Prop) :
  (forall seed dev w, startup dev (initial seed) = Ok (tt, w) -> P w) ->
  (forall e w w', P w -> step e w = Ok (tt, w') -> P w') ->
  forall seed dev evs w, exec seed dev evs = Ok (tt, w) -> P w.
Proof.
  intros Hinit Hstep seed dev evs w H. unfold Reaction.exec, bind in H.
  destruct (startup dev (initial seed)) as [[[] w0]|f] eqn:E; [|discriminate].
  apply (run_invariant P Hstep evs w0 w); [|exact H].
  apply (Hinit seed dev w0 E).
Qed.

(** The world [startup] hands to the loop. *)
Lemma startup_world seed dev :
  exists w, startup dev (initial seed) = Ok (tt, w) /\
    state (app w) = Waiting /\ reactionTimes (app w) = [] /\
    beepPlayed (app w) = false /\ audioMode (app w) = false /\
    audioInitialized (app w) = (if dev is Some _ then true else false) /\
    clock_reads w = 1%nat /\ calls w = [Enter_StartNewRound].
Proof.
  unfold Reaction.startup, initial, g_app.
  destruct dev as [d|]; norm; cbn [negb]; norm;
    (eexists; split; [reflexivity|]); norm; repeat split; reflexivity.
Qed.

Lemma startup_inv seed dev w :
  startup dev (initial seed) = Ok (tt, w) ->
  state (app w) = Waiting /\ reactionTimes (app w) = [] /\
  beepPlayed (app w) = false /\ audioMode (app w) = false /\
  audioInitialized (app w) = (if dev is Some _ then true else false) /\
  clock_reads w = 1%nat /\ calls w = [Enter_StartNewRound].
Proof.
  intros H. destruct (startup_world seed dev) as [w0 [E F]].
  rewrite E in H. injection H as <-. exact F.
Qed.

(** Neither [startup] nor a step nor a run stops at a fault. *)
Lemma step_total e (w : World) : exists w', step e w = Ok (tt, w').
Proof.
  open_world w.
  unfold Reaction.step, Reaction.WndProc, Reaction.ProcessRawInput,
    Reaction.Render.
  repeat first
    [ progress norm
    | match goal with
      | |- context [Reaction.UpdateStats ?w] =>
          let w1 := fresh "w" in let E := fresh "E" in
          destruct (UpdateStats_total w) as [w1 E]; rewrite E; clear E;
          destruct w1 as [? ? ?]
      | |- context [Reaction.PlayBeepWASAPI ?hr ?w] =>
          let audio := fresh "audio" in
          let E := fresh "E" in let Ha := fresh "Ha" in
          destruct (PlayBeepWASAPI_calls hr w) as [audio [E Ha]];
          rewrite E; clear E
      end
    | match goal with
      | |- context [match ?x with _ => _ end] =>
          lazymatch x with
          | context [match _ with _ => _ end] => fail
          | _ => destruct x
          end
      end ];
  eexists; reflexivity.
Qed.

Lemma run_total evs : forall w : World, exists w', run evs w = Ok (tt, w').
Proof.
  induction evs as [|e evs IH]; intros w.
  - exists w. reflexivity.
  - destruct (step_total e w) as [w1 E1]. destruct (IH w1) as [w2 E2].
    exists w2. cbn [Reaction.run]. unfold bind. rewrite E1. exact E2.
Qed.

Lemma exec_total seed dev evs : exists w, exec seed dev evs = Ok (tt, w).
Proof.
  destruct (startup_world seed dev) as [w0 [E _]].
  destruct (run_total evs w0) as [w E'].
  exists w. unfold Reaction.exec, bind. rewrite E. exact E'.
Qed.

(** A step on a qualifying input while the stimulus is shown is the
    click of [trial_step]. *)
Ltac trial_case H w raw S Q :=
  let w'' := fresh "w''" in let Eq := fresh "Eq" in
  destruct (trial_step w raw S Q) as [w'' [Eq ?]];
  cbn [Reaction.step] in H;
  rewrite Eq in H; injection H as <-.

Ltac same_results H :=
  let Rt := fresh "Rt" in let Rl := fresh "Rl" in
  let Ra := fresh "Ra" in let Rb := fresh "Rb" in
  unfold results in H; injection H as Rt Rl Ra Rb;
  rewrite ?Rt, ?Rl, ?Ra, ?Rb.

(** ** Invariants of the runs *)

(** The retained samples are never NaN, and the statistics are those of
    the retained samples whenever there are any. *)
Lemma stats_invariant seed dev evs w :
  exec seed dev evs = Ok (tt, w) ->
  Forall (fun t => F32.is_nan t = false) (reactionTimes (app w)) /\
  (reactionTimes (app w) <> [] ->
   is_minimum (bestTime (app w)) (reactionTimes (app w)) /\
   averageTime (app w) = mean_of (reactionTimes (app w))).
Proof.
  revert seed dev evs w. apply exec_invariant.
  - intros seed dev w H. apply startup_inv in H.
    destruct H as [_ [-> _]]. split; [constructor|congruence].
  - intros e w w' [Hn Hs] H.
    destruct (step_kinds e w w' H)
      as [K|[K|[[S [raw [Q ->]]]|[K|K]]]].
    + destruct K as [_ [R _]]. same_results R. auto.
    + destruct K as [_ [_ [R _]]]. same_results R. auto.
    + trial_case H w raw S Q.
      destruct H0 as [_ [_ [Ht [Hb [Ha _]]]]].
      assert (N : Forall (fun t => F32.is_nan t = false)
                         (reactionTimes (app w''))).
      { rewrite Ht. constructor; [apply duration_float_milli_not_nan|].
        destruct (MAX_LOG_ENTRIES <=? _); [apply Forall_pop_back|]; exact Hn. }
      split; [exact N|]. intros _. rewrite Ht in N |- *. rewrite Hb, Ha.
      apply stats_of_fold, N.
    + destruct K as [_ [_ [_ [[R|R] _]]]]; same_results R.
      * auto.
      * split; [constructor|congruence].
    + destruct K as [_ [_ [_ [_ [_ [R _]]]]]]. same_results R. auto.
Qed.

(** The sample sequence never holds more than [MAX_LOG_ENTRIES]. *)
Lemma cap_invariant seed dev evs w :
  exec seed dev evs = Ok (tt, w) ->
  size (reactionTimes (app w)) <= MAX_LOG_ENTRIES.
Proof.
  revert seed dev evs w. apply exec_invariant.
  - intros seed dev w H. apply startup_inv in H.
    destruct H as [_ [-> _]]. unfold MAX_LOG_ENTRIES, size. simpl. lia.
  - intros e w w' Hc H.
    destruct (step_kinds e w w' H)
      as [K|[K|[[S [raw [Q ->]]]|[K|K]]]].
    + destruct K as [_ [R _]]. same_results R. exact Hc.
    + destruct K as [_ [_ [R _]]]. same_results R. exact Hc.
    + trial_case H w raw S Q.
      destruct H0 as [_ [_ [Ht _]]]. rewrite Ht, size_cons.
      unfold MAX_LOG_ENTRIES in *.
      destruct (Z.leb_spec 25 (size (reactionTimes (app w)))); [|lia].
      rewrite size_pop_back; [lia|].
      intros E. rewrite E in *. unfold size in *. simpl in *. lia.
    + destruct K as [_ [_ [_ [[R|R] _]]]]; same_results R.
      * exact Hc.
      * unfold MAX_LOG_ENTRIES, size. simpl. lia.
    + destruct K as [_ [_ [_ [_ [_ [R _]]]]]]. same_results R. exact Hc.
Qed.

(** With a monotonic clock, the onset of a shown stimulus is a reading
    already made, and no retained sample is negative. *)
Lemma onset_invariant seed dev evs w :
  monotonic clock ->
  exec seed dev evs = Ok (tt, w) ->
  (state (app w) = Flashing ->
   exists j, (j < clock_reads w)%nat /\ flashStartTime (app w) = clock j) /\
  Forall (fun t => F32.leb F32.zero t = true) (reactionTimes (app w)).
Proof.
  intros Hm. revert seed dev evs w. apply exec_invariant.
  - intros seed dev w H. apply startup_inv in H.
    destruct H as [-> [-> _]]. split; [discriminate|constructor].
  - intros e w w' [Ho Hn] H.
    destruct (step_kinds e w w' H)
      as [K|[K|[[S [raw [Q ->]]]|[K|K]]]].
    + destruct K as [Hs [R [F [_ [_ L]]]]]. same_results R.
      split; [|exact Hn]. rewrite Hs, F. intros S.
      destruct (Ho S) as [j [Hj E]]. exists j. split; [lia|exact E].
    + destruct K as [_ [Hs [R _]]]. same_results R.
      split; [|exact Hn]. rewrite Hs. discriminate.
    + destruct (Ho S) as [j [Hj E]].
      trial_case H w raw S Q.
      destruct H0 as [Hs [_ [Ht _]]].
      split; [rewrite Hs; discriminate|]. rewrite Ht.
      constructor.
      * apply duration_float_milli_nonneg. rewrite E.
        pose proof (Hm j (clock_reads w)). lia.
      * destruct (MAX_LOG_ENTRIES <=? _); [apply Forall_pop_back|]; exact Hn.
    + destruct K as [Hs [_ [_ [[R|R] _]]]]; same_results R;
        (split; [rewrite Hs; discriminate|]).
      * exact Hn.
      * constructor.
    + destruct K as [_ [_ [_ [F [L [R _]]]]]]. same_results R.
      split; [|exact Hn]. intros _. exists (S (clock_reads w)).
      split; [lia|exact F].
Qed.

(** ** Invocations of the tone engine per round *)

Lemma beeps_from_audio audio : forall cur log,
  forallb audio_call audio = true ->
  beeps_from cur (audio ++ log) = beeps_from cur log.
Proof.
  induction audio as [|c audio IH]; intros cur log H; [reflexivity|].
  cbn [forallb] in H. apply andb_prop in H. destruct H as [Hc H].
  destruct c; try discriminate Hc; cbn [app beeps_from List.app];
    apply IH, H.
Qed.

Lemma beeps_from_S log : forall cur,
  beeps_from (S cur) log =
  S (hd 0%nat (beeps_from cur log)) :: tl (beeps_from cur log).
Proof.
  induction log as [|c log IH]; intros cur; [reflexivity|].
  destruct c; cbn [beeps_from hd tl]; try apply IH. reflexivity.
Qed.

Lemma beeps_audio audio log :
  forallb audio_call audio = true ->
  beeps (audio ++ Enter_PlayBeepWASAPI :: log) = S (beeps log).
Proof.
  unfold beeps. intros H. rewrite filter_app, length_app.
  cbn [filter List.length].
  replace (filter _ audio) with (@nil Call); [reflexivity|].
  induction audio as [|c audio IH]; [reflexivity|].
  cbn [forallb] in H. apply andb_prop in H. destruct H as [Hc H].
  destruct c; try discriminate Hc; cbn [filter]; apply IH, H.
Qed.

(** In every round the tone engine is invoked at most once, and not at
    all while the round is still waiting. *)
Lemma beeps_invariant seed dev evs w :
  exec seed dev evs = Ok (tt, w) ->
  Forall (fun n => (n <= 1)%nat) (beeps_per_round (calls w)) /\
  (state (app w) = Waiting -> hd 0%nat (beeps_per_round (calls w)) = 0%nat).
Proof.
  revert seed dev evs w. apply exec_invariant.
  - intros seed dev w H. apply startup_inv in H.
    destruct H as [_ [_ [_ [_ [_ [_ ->]]]]]].
    split; [repeat constructor|reflexivity].
  - intros e w w' [Hb Hw] H. unfold beeps_per_round in *.
    destruct (step_kinds e w w' H)
      as [K|[K|[[S [raw [Q ->]]]|[K|K]]]].
    + destruct K as [Hs [_ [_ [_ [-> _]]]]]. rewrite Hs. auto.
    + destruct K as [_ [Hs [_ [_ [-> _]]]]]. rewrite Hs.
      split; [exact Hb|discriminate].
    + trial_case H w raw S Q.
      destruct H0 as [_ [_ [_ [_ [_ [_ [_ [_ [_ [_ [_ [_ ->]]]]]]]]]]]].
      cbn [beeps_from hd]. split; [constructor; [lia|exact Hb]|reflexivity].
    + destruct K as [_ [_ [-> _]]].
      cbn [beeps_from hd]. split; [constructor; [lia|exact Hb]|reflexivity].
    + destruct K as [_ [S [Hs [_ [_ [_ [[_ ->]|[_ [_ [_ [audio [-> Ha]]]]]]]]]]]];
        rewrite Hs; (split; [|discriminate]); [exact Hb|].
      rewrite beeps_from_audio by exact Ha. cbn [beeps_from].
      rewrite beeps_from_S. rewrite (Hw S).
      constructor; [lia|].
      destruct (beeps_from 0 (calls w)); [constructor|].
      inversion Hb; assumption.
Qed.

(** ** Inputs one at a time *)

Lemma false_start_step (w : World) raw :
  state (app w) = Waiting -> qualifying raw = true ->
  exists w', step (Message (WM_INPUT (Some raw))) w = Ok (tt, w') /\
    state (app w') = TooEarly /\ results (app w') = results (app w) /\
    rng (app w') = rng (app w) /\ calls w' = calls w.
Proof.
  intros S Q. destruct (qualifying_inv raw Q) as [Ht Hb].
  open_world w. subst s_state.
  unfold Reaction.step, Reaction.WndProc, Reaction.ProcessRawInput.
  rewrite Ht, Hb. cbn [negb]. norm.
  eexists. split; [reflexivity|]. norm. repeat split; reflexivity.
Qed.

Lemma retry_step (w : World) raw :
  state (app w) = TooEarly -> qualifying raw = true ->
  let draw :=
    uniform_real_distribution MIN_DELAY_MS MAX_DELAY_MS (rng (app w)) in
  exists w', step (Message (WM_INPUT (Some raw))) w = Ok (tt, w') /\
    state (app w') = Waiting /\ results (app w') = results (app w) /\
    roundStartTime (app w') = clock (S (clock_reads w)) /\
    targetDelayMs (app w') = fst draw /\ rng (app w') = snd draw /\
    beepPlayed (app w') = false /\
    calls w' = Enter_StartNewRound :: calls w.
Proof.
  intros S Q. destruct (qualifying_inv raw Q) as [Ht Hb].
  open_world w. subst s_state.
  unfold Reaction.step, Reaction.WndProc, Reaction.ProcessRawInput.
  rewrite Ht, Hb. cbn [negb]. norm.
  eexists. split; [reflexivity|]. norm. repeat split; reflexivity.
Qed.

(** A passive event leaves a false start as it is. *)
Lemma passive_step e (w : World) :
  passive e = true -> state (app w) = TooEarly ->
  exists w', step e w = Ok (tt, w') /\
    state (app w') = TooEarly /\ results (app w') = results (app w) /\
    rng (app w') = rng (app w) /\ calls w' = calls w.
Proof.
  intros P S. open_world w. subst s_state.
  destruct e as [[[raw|]| | | | |]|hr]; try discriminate P;
    unfold Reaction.step, Reaction.WndProc, Reaction.ProcessRawInput,
      Reaction.Render; norm.
  - cbn [passive] in P. unfold qualifying in P.
    destruct (dwType (header raw) =? RIM_TYPEMOUSE); cbn [andb] in P.
    + rewrite P. eexists. split; [reflexivity|]. norm. repeat split; reflexivity.
    + eexists. split; [reflexivity|]. norm. repeat split; reflexivity.
  - eexists. split; [reflexivity|]. norm. repeat split; reflexivity.
  - eexists. split; [reflexivity|]. norm. repeat split; reflexivity.
Qed.

Lemma passive_run evs : forall w : World,
  forallb passive evs = true -> state (app w) = TooEarly ->
  exists w', run evs w = Ok (tt, w') /\
    state (app w') = TooEarly /\ results (app w') = results (app w) /\
    rng (app w') = rng (app w) /\ calls w' = calls w.
Proof.
  induction evs as [|e evs IH]; intros w P S.
  - exists w. repeat split; auto.
  - cbn [forallb] in P. apply andb_prop in P. destruct P as [Pe P].
    destruct (passive_step e w Pe S) as [w1 [E1 [S1 [R1 [G1 C1]]]]].
    destruct (IH w1 P S1) as [w2 [E2 [S2 [R2 [G2 C2]]]]].
    exists w2. cbn [Reaction.run]. unfold bind. rewrite E1.
    split; [exact E2|]. repeat split; congruence.
Qed.

Lemma run_app evs1 evs2 (w w1 w2 : World) :
  run evs1 w = Ok (tt, w1) -> run evs2 w1 = Ok (tt, w2) ->
  run (evs1 ++ evs2) w = Ok (tt, w2).
Proof.
  revert w. induction evs1 as [|e evs1 IH]; intros w H1 H2.
  - injection H1 as ->. exact H2.
  - cbn [Reaction.run List.app] in *. unfold bind in *.
    destruct (step e w) as [[[] w0]|]; [|discriminate].
    apply (IH w0 H1 H2).
Qed.

Lemma exec_snoc seed dev evs e (w w' : World) :
  exec seed dev evs = Ok (tt, w) -> step e w = Ok (tt, w') ->
  exec seed dev (evs ++ [e]) = Ok (tt, w').
Proof.
  unfold Reaction.exec, bind. intros H1 H2.
  destruct (startup dev (initial seed)) as [[[] w0]|]; [|discriminate].
  apply (run_app evs [e] w0 w w' H1).
  cbn [Reaction.run]. unfold bind. rewrite H2. reflexivity.
Qed.

(** Recording a sample when the sequence is full. *)
Lemma overflow_step (w : World) raw :
  state (app w) = Flashing ->
  qualifying raw = true ->
  size (reactionTimes (app w)) = MAX_LOG_ENTRIES ->
  exists w',
    WndProc (WM_INPUT (Some raw)) w = Ok (tt, w') /\
    reactionTimes (app w') =
      duration_float_milli (clock (clock_reads w) - flashStartTime (app w))
      :: pop_back (reactionTimes (app w)) /\
    size (reactionTimes (app w')) = MAX_LOG_ENTRIES.
Proof.
  intros S Q Hs.
  destruct (trial_step w raw S Q) as [w' [E [_ [_ [T _]]]]].
  exists w'. split; [exact E|]. rewrite T, Hs, Z.leb_refl.
  split; [reflexivity|]. rewrite size_cons, size_pop_back; [lia|].
  intros N. rewrite N in Hs. discriminate Hs.
Qed.

(** ** The claims about the reaction tester *)


(** C2: with a monotonic clock, after every run each retained sample is
    at least zero; whenever the stimulus is shown its onset is not later
    than the next clock reading, so the sample a click would record then
    is at least zero too. *)
Theorem C2_latency_nonneg seed dev evs (w : World) :
  monotonic clock ->
  exec seed dev evs = Ok (tt, w) ->
  Forall (fun t => F32.leb F32.zero t = true) (reactionTimes (app w)) /\
  (state (app w) = Flashing ->
   flashStartTime (app w) <= clock (clock_reads w) /\
   F32.leb F32.zero
     (duration_float_milli (clock (clock_reads w) - flashStartTime (app w)))
   = true).
Proof.
  intros Hm H. destruct (onset_invariant seed dev evs w Hm H) as [Ho Hn].
  split; [exact Hn|]. intros S. destruct (Ho S) as [j [Hj E]].
  assert (L : flashStartTime (app w) <= clock (clock_reads w)).
  { rewrite E. apply Hm. lia. }
  split; [exact L|]. apply duration_float_milli_nonneg. lia.
Qed.

(** C3: a qualifying button-down event received in [Waiting] leads to
    [TooEarly] (FalseStart); after any frames and non-qualifying inputs,
    the next qualifying button-down event leads back to [Waiting] and
    arms a new round.  Neither changes the sample sequence, the last
    sample or the statistics. *)
Theorem C3_false_start (w : World) raw1 between raw2 :
  state (app w) = Waiting ->
  qualifying raw1 = true ->
  forallb passive between = true ->
  qualifying raw2 = true ->
  exists w1 w2 w3,
    step (Message (WM_INPUT (Some raw1))) w = Ok (tt, w1) /\
    state (app w1) = TooEarly /\ results (app w1) = results (app w) /\
    calls w1 = calls w /\
    run between w1 = Ok (tt, w2) /\
    state (app w2) = TooEarly /\ results (app w2) = results (app w) /\
    calls w2 = calls w /\
    step (Message (WM_INPUT (Some raw2))) w2 = Ok (tt, w3) /\
    state (app w3) = Waiting /\ results (app w3) = results (app w) /\
    roundStartTime (app w3) = clock (S (clock_reads w2)) /\
    (targetDelayMs (app w3), rng (app w3)) =
      uniform_real_distribution MIN_DELAY_MS MAX_DELAY_MS (rng (app w)) /\
    beepPlayed (app w3) = false /\
    calls w3 = Enter_StartNewRound :: calls w.
Proof.
  intros S Q1 P Q2.
  destruct (false_start_step w raw1 S Q1) as [w1 [E1 [S1 [R1 [G1 C1]]]]].
  destruct (passive_run between w1 P S1) as [w2 [E2 [S2 [R2 [G2 C2]]]]].
  destruct (retry_step w2 raw2 S2 Q2)
    as [w3 [E3 [S3 [R3 [T3 [D3 [G3 [B3 C3]]]]]]]].
  exists w1, w2, w3. repeat split; try assumption; try congruence.
  rewrite D3, G3, G2, G1. symmetry. apply surjective_pairing.
Qed.

(** C4: after every run that leaves samples, so after every recorded
    trial, [bestTime] is a minimum of the retained samples and
    [averageTime] is their sum divided by their number; the retained
    samples are those left after eviction, at most [MAX_LOG_ENTRIES]. *)
Theorem C4_running_stats seed dev evs (w : World) :
  exec seed dev evs = Ok (tt, w) ->
  reactionTimes (app w) <> [] ->
  is_minimum (bestTime (app w)) (reactionTimes (app w)) /\
  averageTime (app w) = mean_of (reactionTimes (app w)) /\
  size (reactionTimes (app w)) <= MAX_LOG_ENTRIES.
Proof.
  intros H N. destruct (stats_invariant seed dev evs w H) as [_ Hs].
  destruct (Hs N) as [Hb Ha]. repeat split; try assumption.
  - apply Hb.
  - apply Hb.
  - apply (cap_invariant seed dev evs w H).
Qed.

(** C7: in every round, delimited by the calls of [StartNewRound], the
    tone engine is invoked at most once.  A step invokes it only if it is
    a frame that takes [Waiting] to [Flashing] in audio mode with the
    flag clear, and it leaves the flag set; a step that clears a set flag
    is one that starts a new round. *)
Theorem C7_one_beep_per_round seed dev evs e (w w' : World) :
  exec seed dev evs = Ok (tt, w) ->
  step e w = Ok (tt, w') ->
  Forall (fun n => (n <= 1)%nat) (beeps_per_round (calls w')) /\
  (beeps (calls w') <> beeps (calls w) ->
   (exists hr, e = Frame hr) /\
   state (app w) = Waiting /\ state (app w') = Flashing /\
   audioMode (app w) = true /\
   beepPlayed (app w) = false /\ beepPlayed (app w') = true /\
   beeps (calls w') = S (beeps (calls w))) /\
  (beepPlayed (app w) = true -> beepPlayed (app w') = false ->
   calls w' = Enter_StartNewRound :: calls w).
Proof.
  intros H Hstep. split.
  { apply (beeps_invariant seed dev (evs ++ [e]) w').
    apply (exec_snoc seed dev evs e w w' H Hstep). }
  destruct (step_kinds e w w' Hstep)
    as [K|[K|[[S [raw [Q ->]]]|[K|K]]]].
  - destruct K as [_ [_ [_ [B [C _]]]]]. rewrite C, B. split; congruence.
  - destruct K as [_ [_ [_ [B [C _]]]]]. rewrite C, B. split; congruence.
  - destruct (trial_step w raw S Q) as [w'' [Eq F]].
    cbn [Reaction.step] in Hstep. rewrite Eq in Hstep.
    injection Hstep as <-.
    destruct F as [_ [_ [_ [_ [_ [_ [_ [_ [_ [_ [_ [_ C]]]]]]]]]]]].
    rewrite C. split; [|auto]. unfold beeps. cbn [filter]. congruence.
  - destruct K as [_ [_ [C _]]]. rewrite C. split; [|auto].
    unfold beeps. cbn [filter]. congruence.
  - destruct K as [F [S [S' [_ [_ [_ [[B C]|[A [B [B' [audio [C Ha]]]]]]]]]]]].
    + rewrite C, B. split; congruence.
    + rewrite C, B, B'. split; [|discriminate]. intros _.
      rewrite beeps_audio by exact Ha. repeat split; auto.
Qed.

(** C9: when the tone engine is initialised and [GetBuffer] succeeds, the
    frame count requested, filled (for 32 and 16 bit formats) and released
    is [toneSamples_of] the sample rate, the truncated [float] product
    rate * 80 / 1000, clamped to [audioBufferFrames]; it never exceeds
    the buffer size, and for the common sample rates the unclamped count
    is exactly rate * 80 / 1000. *)
Theorem C9_tone_frames (w : World) :
  audioInitialized (app w) = true ->
  let format := audioFormat (app w) in
  let rate := nSamplesPerSec format in
  let bits := wBitsPerSample format in
  let frames := Z.min (toneSamples_of rate) (audioBufferFrames (app w)) in
  let fill :=
    if bits =? 32 then [Buffer_fill frames (nChannels format) 32]
    else if bits =? 16 then [Buffer_fill frames (nChannels format) 16]
    else [] in
  exists w',
    PlayBeepWASAPI true w = Ok (tt, w') /\
    app w' = app w /\
    calls w' =
      [AudioClient_Start; RenderClient_ReleaseBuffer frames] ++ fill ++
      [RenderClient_GetBuffer frames; AudioClient_Reset; AudioClient_Stop;
       Enter_PlayBeepWASAPI] ++ calls w /\
    frames <= audioBufferFrames (app w) /\
    frames <= toneSamples_of rate /\
    (In rate common_rates -> toneSamples_of rate = rate * 80 / 1000).
Proof.
  intros I. open_world w. subst s_init.
  set (rate := nSamplesPerSec s_format).
  set (frames := Z.min (toneSamples_of rate) s_frames).
  unfold Reaction.PlayBeepWASAPI. norm. cbn [negb]. fold rate.
  assert (E : (if s_frames <? toneSamples_of rate then s_frames
               else toneSamples_of rate) = frames).
  { unfold frames. destruct (Z.ltb_spec s_frames (toneSamples_of rate)); lia. }
  rewrite E.
  assert (R : In rate common_rates -> toneSamples_of rate = rate * 80 / 1000).
  { unfold common_rates. cbn [In]. intros H.
    repeat (destruct H as [<-|H]; [vm_compute; reflexivity|]).
    destruct H. }
  destruct (wBitsPerSample s_format =? 32);
    [|destruct (wBitsPerSample s_format =? 16)];
    (eexists; split; [reflexivity|]); norm;
    (split; [reflexivity|]); (split; [reflexivity|]);
    (split; [unfold frames; lia|]); (split; [unfold frames; lia|exact R]).
Qed.

(** C10: with an empty sample sequence [UpdateStats] returns at once and
    leaves the whole state, so [averageTime] and [bestTime], as it was.
    In no state does it index outside the vector or divide by a zero
    count, and no run of the program stops at such a fault. *)
Theorem C10_update_stats_empty (w : World) :
  (reactionTimes (app w) = [] -> UpdateStats w = Ok (tt, w)) /\
  (exists w', UpdateStats w = Ok (tt, w')) /\
  (forall seed dev evs, exists w', exec seed dev evs = Ok (tt, w')).
Proof.
  split; [apply UpdateStats_empty|].
  split; [apply UpdateStats_total|]. apply exec_total.
Qed.

End Facts.

(** ** The claims on a concrete run *)

Lemma Demo_clock_monotonic : monotonic Demo.clock.
Proof. unfold monotonic, Demo.clock. intros i j H. nia. Qed.

Ltac computed := vm_compute; reflexivity.


Lemma C2_witness :
  Forall (fun t => F32.leb F32.zero t = true)
         (reactionTimes (app (Demo.world_after (Demo.trials 3)))).
Proof.
  assert (E : exec Demo.draw Demo.clock 0%nat (Some Demo.device)
                (Demo.trials 3)
              = Ok (tt, Demo.world_after (Demo.trials 3))) by computed.
  exact (proj1 (C2_latency_nonneg _ Demo.draw Demo.clock 0%nat
                  (Some Demo.device) (Demo.trials 3)
                  (Demo.world_after (Demo.trials 3))
                  Demo_clock_monotonic E)).
Defined.

Lemma C3_witness :
  exists w3,
    run Demo.draw Demo.clock
        [Message (WM_INPUT (Some Demo.click)); Frame true;
         Message (WM_INPUT (Some Demo.move));
         Message (WM_INPUT (Some Demo.right_click))]
        (Demo.world_after []) = Ok (tt, w3) /\
    state (app w3) = Waiting /\
    results (app w3) = results (app (Demo.world_after [])).
Proof.
  assert (S : state (app (Demo.world_after [])) = Waiting) by computed.
  assert (Q1 : qualifying Demo.click = true) by computed.
  assert (P : forallb passive
                [Frame true; Message (WM_INPUT (Some Demo.move))] = true)
    by computed.
  assert (Q2 : qualifying Demo.right_click = true) by computed.
  destruct (C3_false_start _ Demo.draw Demo.clock (Demo.world_after [])
              Demo.click
              [Frame true; Message (WM_INPUT (Some Demo.move))]
              Demo.right_click S Q1 P Q2)
    as [w1 [w2 [w3 [E1 [_ [_ [_ [E2 [_ [_ [_ [E3 [S3 [R3 _]]]]]]]]]]]]]].
  exists w3. split; [|split; assumption].
  apply (run_app _ Demo.draw Demo.clock [_] _ _ w1 w3).
  - cbn [run]. unfold bind. rewrite E1. reflexivity.
  - apply (run_app _ Demo.draw Demo.clock _ [_] _ w2 w3 E2).
    cbn [run]. unfold bind. rewrite E3. reflexivity.
Defined.

Lemma C4_witness :
  is_minimum (bestTime (app (Demo.world_after (Demo.trials 3))))
             (reactionTimes (app (Demo.world_after (Demo.trials 3)))).
Proof.
  assert (E : exec Demo.draw Demo.clock 0%nat (Some Demo.device)
                (Demo.trials 3)
              = Ok (tt, Demo.world_after (Demo.trials 3))) by computed.
  assert (N : reactionTimes (app (Demo.world_after (Demo.trials 3))) <> [])
    by (vm_compute; discriminate).
  exact (proj1 (C4_running_stats _ Demo.draw Demo.clock 0%nat
                  (Some Demo.device) (Demo.trials 3)
                  (Demo.world_after (Demo.trials 3)) E N)).
Defined.

Lemma C7_witness :
  Forall (fun n => (n <= 1)%nat)
    (beeps_per_round
       (calls (Demo.world_after
                 [Message (WM_KEYDOWN VK_F1); Frame true; Frame true]))).
Proof.
  assert (E : exec Demo.draw Demo.clock 0%nat (Some Demo.device)
                [Message (WM_KEYDOWN VK_F1); Frame true]
              = Ok (tt, Demo.world_after
                          [Message (WM_KEYDOWN VK_F1); Frame true]))
    by computed.
  assert (E' : step Demo.draw Demo.clock (Frame true)
                 (Demo.world_after [Message (WM_KEYDOWN VK_F1); Frame true])
               = Ok (tt, Demo.world_after
                           [Message (WM_KEYDOWN VK_F1); Frame true; Frame true]))
    by computed.
  exact (proj1 (C7_one_beep_per_round _ Demo.draw Demo.clock 0%nat
                  (Some Demo.device)
                  [Message (WM_KEYDOWN VK_F1); Frame true] (Frame true)
                  _ _ E E')).
Defined.

Lemma C9_witness :
  exists w',
    PlayBeepWASAPI true (Demo.world_after [Message (WM_KEYDOWN VK_F1)])
    = Ok (tt, w') /\
    In (RenderClient_ReleaseBuffer 144) (calls w').
Proof.
  assert (I : audioInitialized
                (app (Demo.world_after [Message (WM_KEYDOWN VK_F1)])) = true)
    by computed.
  destruct (C9_tone_frames _ (Demo.world_after [Message (WM_KEYDOWN VK_F1)]) I)
    as [w' [E [_ [C _]]]].
  exists w'. split; [exact E|]. rewrite C. right. left.
  vm_compute. reflexivity.
Defined.

Lemma C10_witness :
  UpdateStats (Demo.world_after []) = Ok (tt, Demo.world_after []).
Proof.
  assert (E : reactionTimes (app (Demo.world_after [])) = []) by computed.
  apply (proj1 (C10_update_stats_empty _ Demo.draw Demo.clock
                  (Demo.world_after [])) E).
Defined.

End ReactionFacts.

(** * Facts about the latency tester *)

Module LatencyFacts.
Import Win32 Latency Spec F32Facts VectorFacts.

Ltac open_world w :=
  destruct w as [[s_flashing s_flashStart s_duration s_appStart s_lastEvent
                  s_inputText s_deviceText s_lastFrame s_frameTime s_fps
                  s_sFrameTime s_sFps s_buttons s_keyboard s_delta s_log
                  s_up s_hz s_overlay s_times s_mouseHz s_entries s_running]
                 s_reads s_calls];
  cbn [app clock_reads calls
       isFlashing flashStartTime flashDurationMs appStartTime lastEventTimeMs
       lastInputText lastDeviceText lastFrameTime frameTimeMs fps
       smoothedFrameTimeMs smoothedFps enableMouseButtons enableKeyboard
       enableMouseDelta enableLog enableUpEvents enableMouseHz enableOverlay
       mouseDeltaTimes mouseHz logEntries running] in *.

Ltac norm :=
  cbv [Latency.toggle Latency.end_flash
       bind ret gets modify read update record_call Clock_now raise
       app clock_reads calls
       isFlashing flashStartTime flashDurationMs appStartTime lastEventTimeMs
       lastInputText lastDeviceText lastFrameTime frameTimeMs fps
       smoothedFrameTimeMs smoothedFps enableMouseButtons enableKeyboard
       enableMouseDelta enableLog enableUpEvents enableMouseHz enableOverlay
       mouseDeltaTimes mouseHz logEntries running
       set_isFlashing set_flashStartTime set_flashDurationMs
       set_lastEventTimeMs set_lastInputText set_lastDeviceText
       set_lastFrameTime set_frameTimeMs set_fps set_smoothedFrameTimeMs
       set_smoothedFps set_enableMouseButtons set_enableKeyboard
       set_enableMouseDelta set_enableLog set_enableUpEvents
       set_enableMouseHz set_enableOverlay set_mouseDeltaTimes set_mouseHz
       set_logEntries set_running
       fst snd].

Ltac norm_in H :=
  cbv [Latency.toggle Latency.end_flash
       bind ret gets modify read update record_call Clock_now raise
       app clock_reads calls
       isFlashing flashStartTime flashDurationMs appStartTime lastEventTimeMs
       lastInputText lastDeviceText lastFrameTime frameTimeMs fps
       smoothedFrameTimeMs smoothedFps enableMouseButtons enableKeyboard
       enableMouseDelta enableLog enableUpEvents enableMouseHz enableOverlay
       mouseDeltaTimes mouseHz logEntries running
       set_isFlashing set_flashStartTime set_flashDurationMs
       set_lastEventTimeMs set_lastInputText set_lastDeviceText
       set_lastFrameTime set_frameTimeMs set_fps set_smoothedFrameTimeMs
       set_smoothedFps set_enableMouseButtons set_enableKeyboard
       set_enableMouseDelta set_enableLog set_enableUpEvents
       set_enableMouseHz set_enableOverlay set_mouseDeltaTimes set_mouseHz
       set_logEntries set_running
       fst snd] in H.

(** Case analysis of a finished run of a handler on an opened world. *)
Ltac case_step H :=
  repeat first
    [ progress norm_in H
    | match type of H with
      | context [match ?x with _ => _ end] =>
          lazymatch x with
          | context [match _ with _ => _ end] => fail
          | _ => let E := fresh "E" in destruct x eqn:E
          end
      end ];
  try discriminate H;
  try (injection H as H; subst).

(** Every branch of a handler in the goal. *)
Ltac case_goal :=
  repeat first
    [ progress norm
    | match goal with
      | |- context [match ?x with _ => _ end] =>
          lazymatch x with
          | context [match _ with _ => _ end] => fail
          | _ => let E := fresh "E" in destruct x eqn:E
          end
      end ].

(** The disjunct of the goal that [tac] proves. *)
Ltac disj tac :=
  first [ solve [tac] | left; disj tac | right; disj tac ].

(** ** The eviction loop *)

Lemma erase_older_suffix a l : exists old, l = old ++ erase_older a l.
Proof.
  induction l as [|t l [old IH]]; [exists []; reflexivity|].
  cbn [erase_older]. destruct (t <? a).
  - exists (t :: old). cbn [List.app]. rewrite <- IH. reflexivity.
  - exists []. reflexivity.
Qed.

Lemma erase_older_sorted now l :
  StronglySorted Z.le l ->
  erase_older (now - 1000000000) l = within_last_second now l.
Proof.
  unfold within_last_second. generalize (now - 1000000000). intros a.
  induction l as [|t l IH]; intros Hs; [reflexivity|].
  inversion Hs as [|? ? Hl Ht]; subst.
  cbn [erase_older filter]. destruct (Z.ltb_spec t a) as [L|L].
  - destruct (Z.leb_spec a t); [lia|]. apply IH, Hl.
  - destruct (Z.leb_spec a t); [|lia]. f_equal.
    symmetry. apply forallb_filter_id.
    apply forallb_forall. intros x Hx. apply Z.leb_le.
    rewrite Forall_forall in Ht. specialize (Ht x Hx). lia.
Qed.

Lemma sorted_suffix (old l : list Z) :
  StronglySorted Z.le (old ++ l) -> StronglySorted Z.le l.
Proof.
  induction old as [|t old IH]; [auto|].
  cbn [List.app]. intros H. inversion H; subst. auto.
Qed.

Lemma sorted_snoc (l : list Z) x :
  StronglySorted Z.le l -> Forall (fun t => t <= x) l ->
  StronglySorted Z.le (l ++ [x]).
Proof.
  induction l as [|t l IH]; intros Hs Hb; cbn [List.app].
  - constructor; constructor.
  - inversion Hs as [|? ? Hl Ht]; subst. inversion Hb as [|? ? Hx Hb']; subst.
    constructor; [apply IH; assumption|].
    apply Forall_app. split; [exact Ht|]. constructor; [exact Hx|constructor].
Qed.

Section Facts.
Variable clock : nat -> Z.
Variable GetRawInputDeviceInfoW : Z -> string.
Variable GetKeyNameTextW : Z -> string.
Variable swprintf_times : F64.double -> F64.double -> string.

Local Abbreviation World := (World AppState Call).
Local Abbreviation TriggerFlash := (TriggerFlash clock swprintf_times).
Local Abbreviation ProcessRawInput :=
  (ProcessRawInput clock GetRawInputDeviceInfoW GetKeyNameTextW swprintf_times).
Local Abbreviation WndProc :=
  (WndProc clock GetRawInputDeviceInfoW GetKeyNameTextW swprintf_times).
Local Abbreviation Render := (Render clock).
Local Abbreviation step :=
  (step clock GetRawInputDeviceInfoW GetKeyNameTextW swprintf_times).
Local Abbreviation run :=
  (run clock GetRawInputDeviceInfoW GetKeyNameTextW swprintf_times).
Local Abbreviation exec :=
  (exec clock GetRawInputDeviceInfoW GetKeyNameTextW swprintf_times).

(** The text of the log entry [TriggerFlash] writes in world [w]. *)
Local Abbreviation entry_of w inputInfo deviceInfo :=
  (let currentTimeMs :=
     duration_double_milli (clock (clock_reads w) - appStartTime (app w)) in
   swprintf_times currentTimeMs
                  (F64.sub currentTimeMs (lastEventTimeMs (app w)))
     ++ " | " ++ inputInfo ++ " | " ++ deviceInfo)%string.

Lemma log_capped_insert (x : string) old :
  (if MAX_LOG_ENTRIES <? size (insert_begin x old)
   then pop_back (insert_begin x old) else insert_begin x old)
  = x :: (if MAX_LOG_ENTRIES <=? size old then pop_back old else old).
Proof.
  unfold insert_begin. rewrite size_cons. unfold MAX_LOG_ENTRIES.
  destruct (Z.ltb_spec 30 (size old + 1)), (Z.leb_spec 30 (size old));
    try lia; try reflexivity.
  apply pop_back_cons. intros ->. unfold size in *. simpl in *. lia.
Qed.

(** [TriggerFlash] in full. *)
Lemma TriggerFlash_effect inputInfo deviceInfo (w : World) :
  exists w',
    TriggerFlash inputInfo deviceInfo w = Ok (tt, w') /\
    isFlashing (app w') = true /\
    flashStartTime (app w') = clock (clock_reads w) /\
    lastInputText (app w') = inputInfo /\
    lastDeviceText (app w') = deviceInfo /\
    logEntries (app w') =
      (if enableLog (app w)
       then entry_of w inputInfo deviceInfo
            :: (if MAX_LOG_ENTRIES <=? size (logEntries (app w))
                then pop_back (logEntries (app w)) else logEntries (app w))
       else logEntries (app w)) /\
    mouseDeltaTimes (app w') = mouseDeltaTimes (app w) /\
    mouseHz (app w') = mouseHz (app w) /\
    enableLog (app w') = enableLog (app w) /\
    enableMouseHz (app w') = enableMouseHz (app w) /\
    clock_reads w' = S (clock_reads w) /\
    calls w' = Enter_TriggerFlash inputInfo deviceInfo :: calls w.
Proof.
  open_world w. unfold Latency.TriggerFlash. norm. destruct s_log.
  - match goal with
    | |- context [insert_begin ?x s_entries] =>
        pose proof (log_capped_insert x s_entries) as Hc
    end.
    destruct (MAX_LOG_ENTRIES <? size (insert_begin _ s_entries));
      (eexists; split; [reflexivity|]); norm; rewrite <- Hc;
      repeat split; reflexivity.
  - eexists. split; [reflexivity|]. norm. repeat split; reflexivity.
Qed.

(** Case analysis of a finished run of a handler on an opened world,
    with [TriggerFlash] taken as a whole. *)
Ltac case_handler H :=
  repeat first
    [ progress norm_in H
    | match type of H with
      | context [Latency.TriggerFlash _ _ ?i ?d ?w] =>
          let w1 := fresh "w" in
          let E := fresh "E" in let F := fresh "F" in
          destruct (TriggerFlash_effect i d w) as [w1 [E F]];
          rewrite E in H; clear E;
          destruct w1 as [[t_flashing t_flashStart t_duration t_appStart
                           t_lastEvent t_inputText t_deviceText t_lastFrame
                           t_frameTime t_fps t_sFrameTime t_sFps t_buttons
                           t_keyboard t_delta t_log t_up t_hz t_overlay
                           t_times t_mouseHz t_entries t_running]
                          t_reads t_calls];
          norm_in F;
          destruct F as (? & ? & ? & ? & ? & ? & ? & ? & ? & ? & ?);
          subst
      end
    | match type of H with
      | context [match ?x with _ => _ end] =>
          lazymatch x with
          | context [match _ with _ => _ end] => fail
          | _ => let E := fresh "E" in destruct x eqn:E
          end
      end ];
  try discriminate H;
  try (injection H as H; subst).

(** What a step can do to the clock, the log and the rate window. *)
Lemma step_effect e (w w' : World) :
  step e w = Ok (tt, w') ->
  (clock_reads w <= clock_reads w')%nat /\
  (logEntries (app w') = logEntries (app w) \/
   logEntries (app w') = [] \/
   exists entry,
     logEntries (app w') =
     entry :: (if MAX_LOG_ENTRIES <=? size (logEntries (app w))
               then pop_back (logEntries (app w)) else logEntries (app w))) /\
  (mouseDeltaTimes (app w') = mouseDeltaTimes (app w) \/
   mouseDeltaTimes (app w') = [] \/
   (mouseDeltaTimes (app w') =
      push_back (clock (clock_reads w)) (mouseDeltaTimes (app w)) /\
    (clock_reads w < clock_reads w')%nat) \/
   exists a, mouseDeltaTimes (app w') = erase_older a (mouseDeltaTimes (app w))).
Proof.
  intros H. open_world w.
  unfold Latency.step, Latency.WndProc, Latency.ProcessRawInput,
    Latency.Render in H.
  case_handler H.
  all: norm.
  all: split; [lia|].
  all: split;
    [ try match goal with |- context [if ?b then _ else _] => destruct b end;
      disj ltac:(first [reflexivity | eexists; reflexivity])
    | disj ltac:(first [reflexivity | split; [reflexivity|lia]
                       | eexists; reflexivity]) ].
Qed.

(** ** Runs *)

Lemma latency_run_invariant (P : World -> Prop) :
  (forall e w w', P w -> step e w = Ok (tt, w') -> P w') ->
  forall evs w w', P w -> run evs w = Ok (tt, w') -> P w'.
Proof.
  intros Hstep. induction evs as [|e evs IH]; intros w w' Hw Hrun.
  - injection Hrun as <-. exact Hw.
  - cbn [Latency.run] in Hrun. unfold bind in Hrun.
    destruct (step e w) as [[[] w1]|f] eqn:E; [|discriminate].
    apply (IH w1 w'); [|exact Hrun]. apply (Hstep e w w1 Hw E).
Qed.

Lemma latency_step_total e (w : World) : exists w', step e w = Ok (tt, w').
Proof.
  open_world w.
  unfold Latency.step, Latency.WndProc, Latency.ProcessRawInput,
    Latency.Render.
  repeat first
    [ progress norm
    | match goal with
      | |- context [Latency.TriggerFlash _ _ ?i ?d ?w] =>
          let w1 := fresh "w" in let E := fresh "E" in
          destruct (TriggerFlash_effect i d w) as [w1 [E _]];
          rewrite E; clear E
      end
    | match goal with
      | |- context [match ?x with _ => _ end] =>
          lazymatch x with
          | context [match _ with _ => _ end] => fail
          | _ => destruct x
          end
      end ];
  eexists; reflexivity.
Qed.

(** The log never holds more than [MAX_LOG_ENTRIES]. *)
Lemma log_cap_invariant evs w :
  exec evs = Ok (tt, w) -> size (logEntries (app w)) <= MAX_LOG_ENTRIES.
Proof.
  intros Hx. unfold Latency.exec in Hx.
  refine (latency_run_invariant
            (fun w => size (logEntries (app w)) <= MAX_LOG_ENTRIES)
            _ evs _ w _ Hx).
  - intros e w0 w' Hc H.
    destruct (step_effect e w0 w' H) as [_ [[L|[L|[entry L]]] _]];
      rewrite L; try exact Hc.
    + unfold MAX_LOG_ENTRIES, size. simpl. lia.
    + rewrite size_cons. unfold MAX_LOG_ENTRIES in *.
      destruct (Z.leb_spec 30 (size (logEntries (app w0)))); [|lia].
      rewrite size_pop_back; [lia|].
      intros E. rewrite E in *. unfold size in *. simpl in *. lia.
  - unfold MAX_LOG_ENTRIES, size. simpl. lia.
Qed.

(** With a monotonic clock the rate window is in time order, and each of
    its entries is a reading already made. *)
Lemma rate_invariant evs w :
  monotonic clock ->
  exec evs = Ok (tt, w) ->
  StronglySorted Z.le (mouseDeltaTimes (app w)) /\
  Forall (fun t => exists j, (j < clock_reads w)%nat /\ t = clock j)
         (mouseDeltaTimes (app w)).
Proof.
  intros Hm Hx. unfold Latency.exec in Hx.
  refine (latency_run_invariant
            (fun w =>
               StronglySorted Z.le (mouseDeltaTimes (app w)) /\
               Forall (fun t => exists j, (j < clock_reads w)%nat /\
                                          t = clock j)
                      (mouseDeltaTimes (app w)))
            _ evs _ w _ Hx).
  - intros e w0 w' [Hs Hf] H.
    assert (Hf' : forall k, (clock_reads w0 <= k)%nat ->
              Forall (fun t => exists j, (j < k)%nat /\ t = clock j)
                     (mouseDeltaTimes (app w0))).
    { intros k Hk. eapply Forall_impl; [|exact Hf].
      intros t [j [Hj ->]]. exists j. split; [lia|reflexivity]. }
    destruct (step_effect e w0 w' H) as [Hr [_ [T|[T|[[T Hlt]|[a T]]]]]];
      rewrite T.
    + split; [exact Hs|]. apply Hf', Hr.
    + split; constructor.
    + unfold push_back. split.
      * apply sorted_snoc; [exact Hs|].
        eapply Forall_impl; [|exact Hf].
        intros t [j [Hj ->]]. apply Hm. lia.
      * apply Forall_app. split; [apply Hf'; lia|].
        constructor; [|constructor]. exists (clock_reads w0). split; [lia|auto].
    + destruct (erase_older_suffix a (mouseDeltaTimes (app w0))) as [old E].
      split.
      * apply (sorted_suffix old). rewrite <- E. exact Hs.
      * specialize (Hf' _ Hr). rewrite E in Hf'.
        apply Forall_app in Hf'. apply Hf'.
  - split; constructor.
Qed.

(** ** Inputs and frames one at a time *)

Lemma delta_event_inv raw :
  delta_event raw = true ->
  (dwType (header raw) =? RIM_TYPEMOUSE) = true /\
  negb (lLastX (mouse raw) =? 0) || negb (lLastY (mouse raw) =? 0) = true.
Proof. unfold delta_event. intros H. apply andb_prop in H. exact H. Qed.

(** With rate tracking on, a mouse report with a displacement puts the
    reading of the clock at the back of the rate window, whatever the
    display filters do afterwards. *)
Lemma delta_counts (w : World) raw :
  enableMouseHz (app w) = true ->
  delta_event raw = true ->
  exists w',
    WndProc (WM_INPUT (Some raw)) w = Ok (tt, w') /\
    mouseDeltaTimes (app w') =
      push_back (clock (clock_reads w)) (mouseDeltaTimes (app w)).
Proof.
  intros Hz D. destruct (delta_event_inv raw D) as [Ht Hd].
  destruct (latency_step_total (Message (WM_INPUT (Some raw))) w) as [w' H].
  cbn [Latency.step] in H. exists w'. split; [exact H|].
  open_world w. subst s_hz.
  unfold Latency.WndProc, Latency.ProcessRawInput in H.
  rewrite Ht, Hd in H. cbn [andb] in H.
  case_handler H; reflexivity.
Qed.

(** A motion-only report that the move filter suppresses changes the
    rate window and nothing that is displayed. *)
Lemma suppressed_motion_counts (w : World) raw :
  enableMouseHz (app w) = true ->
  motion_only raw = true ->
  enableMouseDelta (app w) = false ->
  WndProc (WM_INPUT (Some raw)) w =
  Ok (tt, {| app := set_mouseDeltaTimes
                      (push_back (clock (clock_reads w))
                                 (mouseDeltaTimes (app w))) (app w);
             clock_reads := S (clock_reads w);
             calls := calls w |}).
Proof.
  intros Hz Hmo Hd. unfold motion_only in Hmo.
  apply andb_prop in Hmo. destruct Hmo as [D Hf].
  destruct (delta_event_inv raw D) as [Ht Hx].
  open_world w. subst s_hz s_delta.
  unfold Latency.WndProc, Latency.ProcessRawInput.
  rewrite Ht, Hx, Hf. cbn [andb negb]. norm. cbn [andb negb]. reflexivity.
Qed.

(** A frame of the full path, with rate tracking on. *)
Lemma full_frame_rate (w : World) :
  enableOverlay (app w) = true ->
  enableMouseHz (app w) = true ->
  exists w',
    Render w = Ok (tt, w') /\
    mouseDeltaTimes (app w') =
      erase_older (clock (clock_reads w) - 1000000000)
                  (mouseDeltaTimes (app w)) /\
    mouseHz (app w') = F32.of_Z (size (mouseDeltaTimes (app w'))).
Proof.
  intros Ho Hz. destruct (latency_step_total Frame w) as [w' H].
  cbn [Latency.step] in H. exists w'. split; [exact H|].
  open_world w. subst s_overlay s_hz.
  unfold Latency.Render in H. cbn [negb] in H.
  case_handler H;
    try match goal with E : negb true = true |- _ => discriminate E end;
    norm; split; reflexivity.
Qed.

(** Inserting into a full log. *)
Lemma log_overflow inputInfo deviceInfo (w : World) :
  enableLog (app w) = true ->
  size (logEntries (app w)) = MAX_LOG_ENTRIES ->
  exists w',
    TriggerFlash inputInfo deviceInfo w = Ok (tt, w') /\
    logEntries (app w') =
      entry_of w inputInfo deviceInfo :: pop_back (logEntries (app w)) /\
    size (logEntries (app w')) = MAX_LOG_ENTRIES.
Proof.
  intros Hl Hs.
  destruct (TriggerFlash_effect inputInfo deviceInfo w)
    as [w' [E [_ [_ [_ [_ [L _]]]]]]].
  exists w'. split; [exact E|]. rewrite L, Hl, Hs, Z.leb_refl.
  split; [reflexivity|]. rewrite size_cons, size_pop_back; [lia|].
  intros N. rewrite N in Hs. discriminate Hs.
Qed.

(** ** The claim about the mouse rate *)

(** C8: in every state a run reaches with rate tracking on, (1) a mouse
    report with a displacement leaves the rate window as it was with the
    reading of the clock added at its end; (2) a motion-only report that
    the move filter suppresses is added all the same, while the call
    record, the flash, the displayed texts and the log stay as they
    were; (3) with a monotonic clock, a frame of the full path leaves in
    the window exactly the readings not older than one second at the
    frame's reading, in their order, and sets [mouseHz] to their
    number. *)
Theorem C8_mouse_rate evs (w : World) raw :
  monotonic clock ->
  exec evs = Ok (tt, w) ->
  enableMouseHz (app w) = true ->
  (delta_event raw = true ->
   exists w',
     WndProc (WM_INPUT (Some raw)) w = Ok (tt, w') /\
     mouseDeltaTimes (app w') =
       mouseDeltaTimes (app w) ++ [clock (clock_reads w)] /\
     size (mouseDeltaTimes (app w')) = size (mouseDeltaTimes (app w)) + 1) /\
  (motion_only raw = true -> enableMouseDelta (app w) = false ->
   exists w',
     WndProc (WM_INPUT (Some raw)) w = Ok (tt, w') /\
     mouseDeltaTimes (app w') =
       mouseDeltaTimes (app w) ++ [clock (clock_reads w)] /\
     calls w' = calls w /\
     isFlashing (app w') = isFlashing (app w) /\
     lastInputText (app w') = lastInputText (app w) /\
     lastDeviceText (app w') = lastDeviceText (app w) /\
     logEntries (app w') = logEntries (app w)) /\
  (enableOverlay (app w) = true ->
   exists w',
     Render w = Ok (tt, w') /\
     mouseDeltaTimes (app w') =
       filter (fun t => clock (clock_reads w) - 1000000000 <=? t)
              (mouseDeltaTimes (app w)) /\
     mouseHz (app w') =
       F32.of_Z (Z.of_nat (List.length (mouseDeltaTimes (app w'))))).
Proof.
  intros Hm Hx Hz. split; [|split].
  - intros D. destruct (delta_counts w raw Hz D) as [w' [E T]].
    exists w'. split; [exact E|]. unfold push_back in T.
    split; [exact T|]. rewrite T. unfold size. rewrite length_app.
    cbn [List.length]. lia.
  - intros Hmo Hd. eexists. split.
    + apply (suppressed_motion_counts w raw Hz Hmo Hd).
    + open_world w. norm. unfold push_back. repeat split; reflexivity.
  - intros Ho. destruct (full_frame_rate w Ho Hz) as [w' [E [T R]]].
    exists w'. split; [exact E|]. split; [|exact R].
    rewrite T. apply erase_older_sorted.
    apply (rate_invariant evs w Hm Hx).
Qed.

End Facts.

Ltac computed := vm_compute; reflexivity.

Lemma fast_clock_monotonic : monotonic Cases.fast_clock.
Proof. unfold monotonic, Cases.fast_clock. intros i j H. lia. Qed.

(** On a clock of 1 ms steps, after three displayed moves with rate
    tracking on (each reads the clock twice): a fourth move is added at
    the end of the window, and a frame keeps the three readings, all
    within the last second, and reports 3. *)
Lemma C8_witness :
  (exists w',
     WndProc Cases.fast_clock Demo.device_name Demo.key_name Demo.times_text
       (WM_INPUT (Some Demo.move)) (Cases.fast_world_after Cases.three_moves)
     = Ok (tt, w') /\
     mouseDeltaTimes (app w') = [2000000; 4000000; 6000000] ++ [8000000]) /\
  (exists w',
     Render Cases.fast_clock (Cases.fast_world_after Cases.three_moves)
     = Ok (tt, w') /\
     mouseDeltaTimes (app w') = [2000000; 4000000; 6000000] /\
     mouseHz (app w') = F32.of_Z 3).
Proof.
  pose (w := Cases.fast_world_after Cases.three_moves).
  assert (E : exec Cases.fast_clock Demo.device_name Demo.key_name
                Demo.times_text Cases.three_moves = Ok (tt, w)) by computed.
  assert (Hz : enableMouseHz (app w) = true) by computed.
  assert (Ho : enableOverlay (app w) = true) by computed.
  assert (D : delta_event Demo.move = true) by computed.
  assert (T0 : mouseDeltaTimes (app w) = [2000000; 4000000; 6000000])
    by computed.
  assert (C0 : Cases.fast_clock (clock_reads w) = 8000000) by computed.
  pose proof (C8_mouse_rate Cases.fast_clock Demo.device_name Demo.key_name
                Demo.times_text Cases.three_moves w Demo.move
                fast_clock_monotonic E Hz) as [P1 [_ P3]].
  split.
  - destruct (P1 D) as [w' [R [T _]]].
    exists w'. split; [exact R|]. rewrite T, T0, C0. reflexivity.
  - destruct (P3 Ho) as [w' [R [T F]]].
    assert (T' : mouseDeltaTimes (app w') = [2000000; 4000000; 6000000]).
    { rewrite T, T0, C0. reflexivity. }
    exists w'. split; [exact R|]. split; [exact T'|].
    rewrite F, T'. reflexivity.
Defined.

End LatencyFacts.


(** * The claim about both bounded histories *)

Module Claims.
Import Win32 Spec.

Lemma capped_front {A} (x : A) (old : list A) cap :
  0 < cap -> size old <= cap ->
  x :: (if cap <=? size old then pop_back old else old) =
  firstn (Z.to_nat cap) (x :: old).
Proof.
  unfold size, pop_back. intros Hc Hs.
  replace (Z.to_nat cap) with (S (Z.to_nat (cap - 1))) by lia.
  cbn [firstn]. f_equal.
  destruct (Z.leb_spec cap (Z.of_nat (List.length old))).
  - rewrite removelast_firstn_len. f_equal. lia.
  - symmetry. apply firstn_all2. lia.
Qed.

Lemma size_capped_front {A} (x : A) (old : list A) cap :
  0 < cap ->
  size (firstn (Z.to_nat cap) (x :: old)) = Z.min (size old + 1) cap.
Proof.
  unfold size. intros Hc. rewrite length_firstn. cbn [List.length]. lia.
Qed.

(** C5: after every run the sample sequence of the reaction tester holds
    at most 25 entries and the log of the latency tester at most 30.
    Recording a sample, or logging an entry, leaves the first 25 (30) of
    the new entry followed by the entries held before: below the cap the
    new entry is put in front and nothing is dropped, so the size grows
    by one until it reaches the cap; at the cap the new entry is put in
    front, the last (oldest) one is dropped, the others keep their order
    and the size stays at the cap. *)
Theorem C5_bounded_histories :
  (forall (mt19937 : Type) uniform_real_distribution clock seed dev evs
          (w : World (Reaction.AppState mt19937) Reaction.Call),
     Reaction.exec uniform_real_distribution clock seed dev evs = Ok (tt, w) ->
     let times := Reaction.reactionTimes (app w) in
     size times <= Reaction.MAX_LOG_ENTRIES /\
     forall raw,
       Reaction.state (app w) = Reaction.Flashing ->
       qualifying raw = true ->
       let sample :=
         duration_float_milli
           (clock (clock_reads w) - Reaction.flashStartTime (app w)) in
       exists w',
         Reaction.WndProc uniform_real_distribution clock
                          (WM_INPUT (Some raw)) w = Ok (tt, w') /\
         Reaction.reactionTimes (app w') = firstn 25 (sample :: times) /\
         size (Reaction.reactionTimes (app w')) = Z.min (size times + 1) 25 /\
         (size times < Reaction.MAX_LOG_ENTRIES ->
          Reaction.reactionTimes (app w') = sample :: times) /\
         (size times = Reaction.MAX_LOG_ENTRIES ->
          Reaction.reactionTimes (app w') = sample :: pop_back times /\
          size (Reaction.reactionTimes (app w')) = Reaction.MAX_LOG_ENTRIES /\
          forall rest oldest,
            times = rest ++ [oldest] ->
            Reaction.reactionTimes (app w') = sample :: rest)) /\
  (forall clock GetRawInputDeviceInfoW GetKeyNameTextW swprintf_times evs
          (w : World Latency.AppState Latency.Call),
     Latency.exec clock GetRawInputDeviceInfoW GetKeyNameTextW swprintf_times
                  evs = Ok (tt, w) ->
     let entries := Latency.logEntries (app w) in
     size entries <= Latency.MAX_LOG_ENTRIES /\
     forall inputInfo deviceInfo,
       Latency.enableLog (app w) = true ->
       exists w' entry,
         Latency.TriggerFlash clock swprintf_times inputInfo deviceInfo w
         = Ok (tt, w') /\
         Latency.logEntries (app w') = firstn 30 (entry :: entries) /\
         size (Latency.logEntries (app w')) = Z.min (size entries + 1) 30 /\
         (size entries < Latency.MAX_LOG_ENTRIES ->
          Latency.logEntries (app w') = entry :: entries) /\
         (size entries = Latency.MAX_LOG_ENTRIES ->
          Latency.logEntries (app w') = entry :: pop_back entries /\
          size (Latency.logEntries (app w')) = Latency.MAX_LOG_ENTRIES /\
          forall rest oldest,
            entries = rest ++ [oldest] ->
            Latency.logEntries (app w') = entry :: rest)).
Proof.
  split.
  - intros mt dist clock seed dev evs w H times.
    pose proof (ReactionFacts.cap_invariant mt dist clock seed dev evs w H)
      as Hc.
    fold times in Hc. split; [exact Hc|].
    intros raw S Q sample.
    destruct (ReactionFacts.trial_step mt dist clock w raw S Q)
      as [w' [E [_ [_ [T _]]]]].
    fold times sample in T.
    assert (F : Reaction.reactionTimes (app w') = firstn 25 (sample :: times)).
    { rewrite T. apply (capped_front sample times 25); [lia|exact Hc]. }
    exists w'. split; [exact E|]. split; [exact F|].
    split; [rewrite F; apply (size_capped_front sample times 25); lia|].
    unfold Reaction.MAX_LOG_ENTRIES in *. split.
    + intros Hlt. rewrite T.
      destruct (Z.leb_spec 25 (size times)); [lia|reflexivity].
    + intros Hs. rewrite T, Hs, Z.leb_refl.
      split; [reflexivity|]. split.
      * rewrite VectorFacts.size_cons, VectorFacts.size_pop_back; [lia|].
        intros N. rewrite N in Hs. discriminate Hs.
      * intros rest oldest Hr. rewrite Hr.
        rewrite VectorFacts.pop_back_snoc. reflexivity.
  - intros clock dn kn fmt evs w H entries.
    pose proof (LatencyFacts.log_cap_invariant clock dn kn fmt evs w H) as Hc.
    fold entries in Hc. split; [exact Hc|].
    intros i d Hl.
    destruct (LatencyFacts.TriggerFlash_effect clock fmt i d w)
      as [w' [E [_ [_ [_ [_ [L _]]]]]]].
    rewrite Hl in L. fold entries in L.
    match type of L with
    | _ = ?e :: _ => set (entry := e) in *
    end.
    assert (F : Latency.logEntries (app w') = firstn 30 (entry :: entries)).
    { rewrite L. apply (capped_front entry entries 30); [lia|exact Hc]. }
    exists w', entry. split; [exact E|]. split; [exact F|].
    split; [rewrite F; apply (size_capped_front entry entries 30); lia|].
    unfold Latency.MAX_LOG_ENTRIES in *. split.
    + intros Hlt. rewrite L.
      destruct (Z.leb_spec 30 (size entries)); [lia|reflexivity].
    + intros Hs. rewrite L, Hs, Z.leb_refl.
      split; [reflexivity|]. split.
      * rewrite VectorFacts.size_cons, VectorFacts.size_pop_back; [lia|].
        intros N. rewrite N in Hs. discriminate Hs.
      * intros rest oldest Hr. rewrite Hr.
        rewrite VectorFacts.pop_back_snoc. reflexivity.
Qed.

(** After 27 trials 25 samples are held, and the next one evicts the
    oldest; after 32 logged clicks 30 entries are held, and so does the
    next one. *)
Lemma C5_witness :
  (size (Reaction.reactionTimes
           (app (Demo.world_after (Demo.trials 27 ++ [Reaction.Frame true]))))
   = Reaction.MAX_LOG_ENTRIES /\
   exists w',
     Reaction.WndProc Demo.draw Demo.clock (WM_INPUT (Some Demo.click))
       (Demo.world_after (Demo.trials 27 ++ [Reaction.Frame true]))
     = Ok (tt, w') /\
     size (Reaction.reactionTimes (app w')) = Reaction.MAX_LOG_ENTRIES /\
     Reaction.reactionTimes (app w') =
       duration_float_milli
         (Demo.clock
            (clock_reads
               (Demo.world_after (Demo.trials 27 ++ [Reaction.Frame true])))
          - Reaction.flashStartTime
              (app (Demo.world_after
                      (Demo.trials 27 ++ [Reaction.Frame true]))))
       :: pop_back
            (Reaction.reactionTimes
               (app (Demo.world_after
                       (Demo.trials 27 ++ [Reaction.Frame true]))))) /\
  (size (Latency.logEntries
           (app (Demo.latency_world_after
                   (Latency.Message (WM_KEYDOWN VK_F4) :: Demo.clicks 32))))
   = Latency.MAX_LOG_ENTRIES /\
   exists w' entry,
     Latency.TriggerFlash Demo.clock Demo.times_text "Left Click DOWN" "MOUSE"
       (Demo.latency_world_after
          (Latency.Message (WM_KEYDOWN VK_F4) :: Demo.clicks 32))
     = Ok (tt, w') /\
     size (Latency.logEntries (app w')) = Latency.MAX_LOG_ENTRIES /\
     Latency.logEntries (app w') =
       entry :: pop_back
                  (Latency.logEntries
                     (app (Demo.latency_world_after
                             (Latency.Message (WM_KEYDOWN VK_F4)
                              :: Demo.clicks 32))))).
Proof.
  pose (evs1 := Demo.trials 27 ++ [Reaction.Frame true]).
  pose (evs2 := Latency.Message (WM_KEYDOWN VK_F4) :: Demo.clicks 32).
  assert (E1 : Reaction.exec Demo.draw Demo.clock 0%nat (Some Demo.device)
                 evs1 = Ok (tt, Demo.world_after evs1))
    by (vm_compute; reflexivity).
  assert (S1 : Reaction.state (app (Demo.world_after evs1))
               = Reaction.Flashing) by (vm_compute; reflexivity).
  assert (Q1 : qualifying Demo.click = true) by (vm_compute; reflexivity).
  assert (Z1 : size (Reaction.reactionTimes (app (Demo.world_after evs1)))
               = Reaction.MAX_LOG_ENTRIES) by (vm_compute; reflexivity).
  assert (E2 : Latency.exec Demo.clock Demo.device_name Demo.key_name
                 Demo.times_text evs2
               = Ok (tt, Demo.latency_world_after evs2))
    by (vm_compute; reflexivity).
  assert (L2 : Latency.enableLog (app (Demo.latency_world_after evs2)) = true)
    by (vm_compute; reflexivity).
  assert (Z2 : size (Latency.logEntries (app (Demo.latency_world_after evs2)))
               = Latency.MAX_LOG_ENTRIES) by (vm_compute; reflexivity).
  split.
  - split; [exact Z1|].
    destruct (proj2 (proj1 C5_bounded_histories _ _ _ _ _ _ _ E1)
                Demo.click S1 Q1) as [w' [E [_ [_ [_ F]]]]].
    destruct (F Z1) as [T [Z _]].
    exists w'. split; [exact E|]. split; [exact Z|exact T].
  - split; [exact Z2|].
    destruct (proj2 (proj2 C5_bounded_histories _ _ _ _ _ _ E2)
                "Left Click DOWN"%string "MOUSE"%string L2)
      as [w' [entry [E [_ [_ [_ F]]]]]].
    destruct (F Z2) as [T [Z _]].
    exists w', entry. split; [exact E|]. split; [exact Z|exact T].
Defined.

End Claims.

(** * More about the reaction tester *)

Module ReactionMore.
Import Win32 Reaction Spec F32Facts VectorFacts ReactionFacts.

Section More.
Variable mt19937 : Type.
Variable uniform_real_distribution :
  F32.float -> F32.float -> mt19937 -> F32.float * mt19937.
Variable clock : nat -> Z.

Local Abbreviation World := (World (AppState mt19937) Call).
Local Abbreviation WndProc := (WndProc uniform_real_distribution clock).
Local Abbreviation Render := (Render clock).
Local Abbreviation pump := (pump uniform_real_distribution clock).
Local Abbreviation main_loop := (main_loop uniform_real_distribution clock).
Local Abbreviation startup := (startup uniform_real_distribution clock).
Local Abbreviation wWinMain := (wWinMain uniform_real_distribution clock).
Local Abbreviation step := (step uniform_real_distribution clock).
Local Abbreviation run := (run uniform_real_distribution clock).
Local Abbreviation exec := (exec uniform_real_distribution clock).

(** [UpdateStats] writes at most the two statistics. *)
Lemma UpdateStats_shape (w : World) :
  exists avg best,
    UpdateStats w =
    Ok (tt, {| app := set_bestTime best (set_averageTime avg (app w));
               clock_reads := clock_reads w; calls := calls w |}).
Proof.
  destruct (reactionTimes (app w)) as [|t ts] eqn:E.
  - exists (averageTime (app w)), (bestTime (app w)).
    rewrite (UpdateStats_empty _ w E). open_world w. reflexivity.
  - do 2 eexists. apply (UpdateStats_nonempty _ w t ts E).
Qed.

Ltac norm_beep_in H :=
  cbv [Reaction.StartNewRound Reaction.GetRandomDelay Reaction.clear_results
       Reaction.InitWASAPI Reaction.PlayBeepWASAPI results
       bind ret gets modify read update record_call Clock_now raise
       app clock_reads calls state roundStartTime flashStartTime
       targetDelayMs reactionTimes lastReactionTime averageTime bestTime rng
       running audioMode beepPlayed audioFormat audioBufferFrames
       audioInitialized audioLatencyMs
       set_state set_roundStartTime set_flashStartTime set_targetDelayMs
       set_reactionTimes set_lastReactionTime set_averageTime set_bestTime
       set_rng set_running set_audioMode set_beepPlayed set_audioFormat
       set_audioBufferFrames set_audioInitialized set_audioLatencyMs
       fst snd] in H.

(** Case analysis of a finished handler on an opened world, through
    [UpdateStats] and the tone engine as well. *)
Ltac case_run H :=
  repeat first
    [ progress norm_beep_in H
    | match type of H with
      | context [Reaction.UpdateStats ?w] =>
          let avg := fresh "avg" in let best := fresh "best" in
          let E := fresh "E" in
          destruct (UpdateStats_shape w) as [avg [best E]];
          rewrite E in H; clear E
      end
    | match type of H with
      | context [match ?x with _ => _ end] =>
          lazymatch x with
          | context [match _ with _ => _ end] => fail
          | _ => let E := fresh "E" in destruct x eqn:E
          end
      end ];
  try discriminate H;
  try (injection H as H; subst).

Ltac unfold_step H :=
  unfold Reaction.step, Reaction.WndProc, Reaction.ProcessRawInput,
    Reaction.Render in H.

(** ** The keys *)

(** The SPACE key: from any state the samples are discarded, the three
    statistics are zero again and a new round is armed; the modality is
    kept. *)
Theorem space_clears (w : World) :
  exists w',
    WndProc (WM_KEYDOWN VK_SPACE) w = Ok (tt, w') /\
    results (app w') = ([], F32.zero, F32.zero, F32.zero) /\
    state (app w') = Waiting /\
    beepPlayed (app w') = false /\
    audioMode (app w') = audioMode (app w) /\
    running (app w') = running (app w) /\
    roundStartTime (app w') = clock (clock_reads w) /\
    (targetDelayMs (app w'), rng (app w')) =
      uniform_real_distribution MIN_DELAY_MS MAX_DELAY_MS (rng (app w)) /\
    calls w' = Enter_StartNewRound :: calls w.
Proof.
  open_world w. unfold Reaction.WndProc. cbn [Z.eqb VK_SPACE VK_ESCAPE Pos.eqb].
  norm. eexists. split; [reflexivity|]. norm.
  repeat split; try reflexivity. symmetry. apply surjective_pairing.
Qed.

(** The F1 key: the modality is switched, and as with SPACE the samples
    and statistics are discarded and a new round is armed, so samples of
    the two modalities never share the sequence. *)
Theorem F1_switches_modality (w : World) :
  exists w',
    WndProc (WM_KEYDOWN VK_F1) w = Ok (tt, w') /\
    audioMode (app w') = negb (audioMode (app w)) /\
    results (app w') = ([], F32.zero, F32.zero, F32.zero) /\
    state (app w') = Waiting /\
    beepPlayed (app w') = false /\
    running (app w') = running (app w) /\
    roundStartTime (app w') = clock (clock_reads w) /\
    (targetDelayMs (app w'), rng (app w')) =
      uniform_real_distribution MIN_DELAY_MS MAX_DELAY_MS (rng (app w)) /\
    calls w' = Enter_StartNewRound :: calls w.
Proof.
  open_world w. unfold Reaction.WndProc. cbn [Z.eqb VK_SPACE VK_ESCAPE VK_F1 Pos.eqb].
  norm. eexists. split; [reflexivity|]. norm.
  repeat split; try reflexivity. symmetry. apply surjective_pairing.
Qed.

(** ** Inputs that do not qualify *)

(** A raw input that is not a mouse report with a button-down flag (a
    move, a release, the wheel, a key, another device) and a raw input
    that could not be read change nothing, and do not read the clock. *)
Theorem ignored_input lParam (w : World) :
  match lParam with
  | Some raw => qualifying raw = false
  | None => True
  end ->
  WndProc (WM_INPUT lParam) w = Ok (tt, w).
Proof.
  intros Q. open_world w. unfold Reaction.WndProc, Reaction.ProcessRawInput.
  destruct lParam as [raw|]; [|reflexivity].
  unfold qualifying in Q.
  destruct (dwType (header raw) =? RIM_TYPEMOUSE); [|reflexivity].
  cbn [andb] in Q. rewrite Q. reflexivity.
Qed.

(** ** Frames *)

(** A frame never records a sample, never arms a round and never leaves
    [Flashing] or [TooEarly]: outside [Waiting] it only reads the clock.
    In [Waiting] it shows the stimulus exactly when the rounded elapsed
    time has reached the planned delay, and then the onset is the second
    reading of the clock. *)
Theorem frame_rule hr (w : World) :
  let elapsed :=
    duration_float_milli (clock (clock_reads w) - roundStartTime (app w)) in
  let due := F32.leb (targetDelayMs (app w)) elapsed in
  exists w',
    Render hr w = Ok (tt, w') /\
    results (app w') = results (app w) /\
    roundStartTime (app w') = roundStartTime (app w) /\
    targetDelayMs (app w') = targetDelayMs (app w) /\
    rng (app w') = rng (app w) /\
    audioMode (app w') = audioMode (app w) /\
    running (app w') = running (app w) /\
    match state (app w) with
    | Waiting =>
        if due
        then state (app w') = Flashing /\
             flashStartTime (app w') = clock (S (clock_reads w)) /\
             clock_reads w' = S (S (clock_reads w))
        else app w' = app w /\ calls w' = calls w /\
             clock_reads w' = S (clock_reads w)
    | _ => app w' = app w /\ calls w' = calls w /\
           clock_reads w' = S (clock_reads w)
    end.
Proof.
  intros elapsed due.
  destruct (step_total _ uniform_real_distribution clock (Frame hr) w)
    as [w' H].
  cbn [Reaction.step] in H. exists w'. split; [exact H|].
  subst elapsed due. open_world w. unfold Reaction.Render in H.
  case_run H; norm; repeat split; reflexivity.
Qed.

(** ** More invariants of the runs *)

Ltac same_results H :=
  let Rt := fresh "Rt" in let Rl := fresh "Rl" in
  let Ra := fresh "Ra" in let Rb := fresh "Rb" in
  unfold results in H; injection H as Rt Rl Ra Rb;
  rewrite ?Rt, ?Rl, ?Ra, ?Rb.

Ltac trial_case H w raw S Q :=
  let w'' := fresh "w''" in let Eq := fresh "Eq" in
  destruct (trial_step _ uniform_real_distribution clock w raw S Q)
    as [w'' [Eq ?]];
  cbn [Reaction.step] in H;
  rewrite Eq in H; injection H as <-.

(** After every run: without samples the last sample and both statistics
    are zero; with samples the last sample is the first of the
    sequence. *)
Theorem results_consistent seed dev evs (w : World) :
  exec seed dev evs = Ok (tt, w) ->
  match reactionTimes (app w) with
  | [] => lastReactionTime (app w) = F32.zero /\
          averageTime (app w) = F32.zero /\ bestTime (app w) = F32.zero
  | newest :: _ => lastReactionTime (app w) = newest
  end.
Proof.
  revert seed dev evs w. apply exec_invariant.
  - intros seed dev w H. unfold Reaction.startup, initial, g_app in H.
    case_run H; norm; repeat split; reflexivity.
  - intros e w w' Hi H.
    destruct (step_kinds _ _ _ e w w' H)
      as [K|[K|[[S [raw [Q ->]]]|[K|K]]]].
    + destruct K as [_ [R _]]. same_results R. exact Hi.
    + destruct K as [_ [_ [R _]]]. same_results R. exact Hi.
    + trial_case H w raw S Q.
      destruct H0 as [_ [L [T _]]]. rewrite T. exact L.
    + destruct K as [_ [_ [_ [[R|R] _]]]]; same_results R.
      * exact Hi.
      * repeat split; reflexivity.
    + destruct K as [_ [_ [_ [_ [_ [R _]]]]]]. same_results R. exact Hi.
Qed.

(** While a round waits, its beep flag is clear. *)
Lemma waiting_flag_clear seed dev evs (w : World) :
  exec seed dev evs = Ok (tt, w) ->
  state (app w) = Waiting -> beepPlayed (app w) = false.
Proof.
  revert seed dev evs w.
  refine (exec_invariant _ _ _
            (fun w => state (app w) = Waiting -> beepPlayed (app w) = false)
            _ _).
  - intros seed dev w H. apply startup_inv in H. intros _. apply H.
  - intros e w w' Hi H.
    destruct (step_kinds _ _ _ e w w' H)
      as [K|[K|[[S [raw [Q ->]]]|[K|K]]]].
    + destruct K as [Hs [_ [_ [B _]]]]. rewrite Hs, B. exact Hi.
    + destruct K as [_ [Hs _]]. rewrite Hs. discriminate.
    + trial_case H w raw S Q. intros _. apply H0.
    + intros _. apply K.
    + destruct K as [_ [_ [Hs _]]]. rewrite Hs. discriminate.
Qed.

(** In audio mode every stimulus onset invokes the tone engine: whenever
    a frame takes a round a run has reached from [Waiting] to [Flashing]
    in audio mode, one more invocation is on record. *)
Theorem audio_onset_beeps seed dev evs hr (w w' : World) :
  exec seed dev evs = Ok (tt, w) ->
  audioMode (app w) = true ->
  state (app w) = Waiting ->
  Render hr w = Ok (tt, w') ->
  state (app w') = Flashing ->
  beeps (calls w') = S (beeps (calls w)) /\ beepPlayed (app w') = true.
Proof.
  intros Hx Ha Hs H Hs'.
  pose proof (waiting_flag_clear seed dev evs w Hx Hs) as Hb.
  destruct (PlayBeepWASAPI_calls mt19937 hr
              {| app := set_beepPlayed true
                          (set_flashStartTime (clock (S (clock_reads w)))
                             (set_state Flashing (app w)));
                 clock_reads := S (S (clock_reads w));
                 calls := calls w |}) as [audio [E Haud]].
  open_world w. subst s_audio s_state s_beep.
  unfold Reaction.Render in H. norm_in H.
  destruct (F32.leb s_target _).
  - cbn [andb negb] in H. norm_in H. norm_in E. rewrite E in H.
    injection H as <-. norm. split; [|reflexivity].
    apply beeps_audio, Haud.
  - injection H as <-. discriminate Hs'.
Qed.

(** The stimulus is never shown early: whenever a run is in [Flashing],
    some frame read the clock, found the rounded time since the start of
    the round at or above the planned delay, and the onset is the
    reading that followed. *)
Theorem never_early seed dev evs (w : World) :
  exec seed dev evs = Ok (tt, w) ->
  state (app w) = Flashing ->
  exists k, (S k < clock_reads w)%nat /\
    F32.leb (targetDelayMs (app w))
            (duration_float_milli (clock k - roundStartTime (app w))) = true /\
    flashStartTime (app w) = clock (S k).
Proof.
  revert seed dev evs w.
  refine (exec_invariant _ _ _
            (fun w =>
               state (app w) = Flashing ->
               exists k, (S k < clock_reads w)%nat /\
                 F32.leb (targetDelayMs (app w))
                         (duration_float_milli
                            (clock k - roundStartTime (app w))) = true /\
                 flashStartTime (app w) = clock (S k))
            _ _).
  - intros seed dev w H. apply startup_inv in H.
    destruct H as [-> _]. discriminate.
  - intros e w w' Hi H. open_world w. unfold_step H.
    case_run H; norm; try discriminate; intros S;
      try (destruct (Hi S) as [k [Hk [Hd Ho]]];
           exists k; repeat split; [lia|exact Hd|exact Ho]);
      exists s_reads; repeat split; try lia; assumption.
Qed.

(** Visual mode is silent: as long as F1 is not pressed the tester stays
    in visual mode and the tone engine is never invoked. *)
Theorem visual_mode_silent seed dev evs (w : World) :
  Forall (fun e => e <> Message (WM_KEYDOWN VK_F1)) evs ->
  exec seed dev evs = Ok (tt, w) ->
  audioMode (app w) = false /\ beeps (calls w) = 0%nat.
Proof.
  intros Hk H. unfold Reaction.exec, bind in H.
  destruct (startup dev (initial seed)) as [[[] w0]|] eqn:E;
    [|discriminate].
  apply startup_inv in E.
  assert (I0 : audioMode (app w0) = false /\ beeps (calls w0) = 0%nat).
  { destruct E as [_ [_ [_ [A [_ [_ ->]]]]]]. split; [exact A|reflexivity]. }
  clear E. revert w0 I0 H.
  induction Hk as [|e evs He Hk IH]; intros w0 I0 H.
  - injection H as <-. exact I0.
  - cbn [Reaction.run] in H. unfold bind in H.
    destruct (step e w0) as [[[] w1]|] eqn:E1; [|discriminate].
    apply (IH w1); [|exact H]. clear IH H.
    destruct I0 as [A B]. open_world w0. subst s_audio.
    destruct e as [[lParam|wParam| | | |]|hr];
      try (destruct (Z.eqb_spec wParam VK_F1) as [->|N];
           [exfalso; apply He; reflexivity|]);
      unfold_step E1;
      case_run E1;
      try match goal with
          | Q : (?x =? VK_F1) = true |- _ =>
              apply Z.eqb_eq in Q; contradiction
          | Q : false && _ = true |- _ => discriminate Q
          end;
      norm; unfold beeps in *; cbn [filter List.length];
      split; try reflexivity; exact B.
Qed.

(** ** The tone engine at its edges *)

(** When [GetBuffer] fails, playback has been stopped and reset, but no
    buffer is released and playback is not started: the round goes on
    without a tone. *)
Theorem beep_without_buffer (w : World) :
  audioInitialized (app w) = true ->
  exists frames,
    PlayBeepWASAPI false w =
    Ok (tt, {| app := app w; clock_reads := clock_reads w;
               calls := [RenderClient_GetBuffer frames; AudioClient_Reset;
                         AudioClient_Stop; Enter_PlayBeepWASAPI]
                        ++ calls w |}) /\
    frames <= audioBufferFrames (app w).
Proof.
  intros I. open_world w. subst s_init.
  unfold Reaction.PlayBeepWASAPI. norm. cbn [negb].
  eexists. split; [reflexivity|].
  destruct (Z.ltb_spec s_frames (toneSamples_of (nSamplesPerSec s_format)));
    lia.
Qed.

(** When [InitWASAPI] has failed, no run calls the audio client. *)
Lemma loop_is_silent seed evs (w : World) :
  exec seed None evs = Ok (tt, w) ->
  audioInitialized (app w) = false /\
  forallb (fun c => negb (audio_call c)) (calls w) = true.
Proof.
  intros H. unfold Reaction.exec, bind in H.
  destruct (startup None (initial seed)) as [[[] w0]|] eqn:E;
    [|discriminate].
  apply startup_inv in E.
  refine (run_invariant _ _ _
            (fun w =>
               audioInitialized (app w) = false /\
               forallb (fun c => negb (audio_call c)) (calls w) = true)
            _ evs w0 w _ H).
  - intros e w1 w2 [I C] H1.
    open_world w1. subst s_init. unfold_step H1.
    case_run H1;
      try match goal with E : negb false = false |- _ => discriminate E end;
      norm; cbn [forallb audio_call negb andb];
      split; try reflexivity; exact C.
  - destruct E as [_ [_ [_ [_ [I [_ ->]]]]]]. split; [exact I|reflexivity].
Qed.

(** ** The message loop *)

(** No step sets [running] again once it is cleared. *)
Theorem stopped_stays_stopped e (w w' : World) :
  running (app w) = false -> step e w = Ok (tt, w') ->
  running (app w') = false.
Proof.
  intros R H. open_world w. subst s_running. unfold_step H.
  case_run H; reflexivity.
Qed.

Lemma pump_through_quit pre post : forall w : World,
  pump (pre ++ WM_QUIT :: post) w = pump (pre ++ [WM_QUIT]) w.
Proof.
  induction pre as [|msg pre IH]; intros w; [reflexivity|].
  cbn [List.app Reaction.pump].
  destruct msg; try reflexivity; unfold bind;
    match goal with
    | |- context [Reaction.WndProc _ _ ?m w] =>
        destruct (Reaction.WndProc uniform_real_distribution clock m w)
          as [[[] w1]|]; [apply IH|reflexivity]
    end.
Qed.

Lemma pump_quit_stops pre : forall (w w' : World),
  pump (pre ++ [WM_QUIT]) w = Ok (tt, w') -> running (app w') = false.
Proof.
  induction pre as [|msg pre IH]; intros w w' H.
  - cbn in H. injection H as <-. reflexivity.
  - cbn [List.app Reaction.pump] in H.
    destruct msg;
      try (unfold bind in H;
           match type of H with
           | context [Reaction.WndProc _ _ ?m w] =>
               destruct (Reaction.WndProc uniform_real_distribution clock m w)
                 as [[[] w1]|]; [apply (IH w1 w' H)|discriminate]
           end).
    cbn in H. injection H as <-. reflexivity.
Qed.

Lemma Render_keeps_running hr (w : World) :
  exists w', Render hr w = Ok (tt, w') /\ running (app w') = running (app w).
Proof.
  destruct (step_total _ uniform_real_distribution clock (Frame hr) w)
    as [w' H].
  cbn [Reaction.step] in H. exists w'. split; [exact H|].
  open_world w. unfold Reaction.Render in H.
  case_run H; reflexivity.
Qed.

Lemma main_loop_stopped frames (w : World) :
  running (app w) = false -> main_loop frames w = Ok (tt, w).
Proof.
  intros R. destruct frames as [|[queue hr] rest]; [reflexivity|].
  cbn [Reaction.main_loop]. unfold bind, read, gets. cbn [app].
  rewrite R. reflexivity.
Qed.

(** Once [WM_QUIT] is taken from the queue, the messages behind it are
    not dispatched, the frame of that iteration is still rendered, and
    no later iteration runs: the loop ends with [running] cleared. *)
Theorem quit_ends_loop pre post hr rest (w : World) :
  running (app w) = true ->
  main_loop ((pre ++ WM_QUIT :: post, hr) :: rest) w =
  main_loop [(pre ++ [WM_QUIT], hr)] w /\
  forall w', main_loop ((pre ++ WM_QUIT :: post, hr) :: rest) w = Ok (tt, w') ->
             running (app w') = false.
Proof.
  intros R.
  assert (E : forall behind tail,
            main_loop ((pre ++ WM_QUIT :: behind, hr) :: tail) w =
            match pump (pre ++ [WM_QUIT]) w with
            | Ok (_, w1) =>
                match Render hr w1 with
                | Ok (_, w2) => Ok (tt, w2)
                | Fault f => Fault f
                end
            | Fault f => Fault f
            end).
  { intros behind tail. cbn [Reaction.main_loop]. unfold bind at 1, read, gets.
    cbn [app]. rewrite R. unfold bind. rewrite pump_through_quit.
    destruct (pump (pre ++ [WM_QUIT]) w) as [[[] w1]|] eqn:P; [|reflexivity].
    pose proof (pump_quit_stops pre w w1 P) as R1.
    destruct (Render_keeps_running hr w1) as [w2 [F R2]].
    rewrite F. apply main_loop_stopped. congruence. }
  split.
  - rewrite (E post rest). rewrite (E [] []). reflexivity.
  - intros w' H. rewrite (E post rest) in H.
    destruct (pump (pre ++ [WM_QUIT]) w) as [[[] w1]|] eqn:P; [|discriminate].
    pose proof (pump_quit_stops pre w w1 P) as R1.
    destruct (Render_keeps_running hr w1) as [w2 [F R2]].
    rewrite F in H. injection H as <-. congruence.
Qed.

Lemma run_app_bind evs1 evs2 : forall w : World,
  run (evs1 ++ evs2) w = bind (run evs1) (fun _ => run evs2) w.
Proof.
  induction evs1 as [|e evs1 IH]; intros w; [reflexivity|].
  cbn [List.app Reaction.run]. unfold bind in *.
  destruct (step e w) as [[[] w1]|]; [apply IH|reflexivity].
Qed.

Lemma pump_is_run queue :
  exists evs, forall w : World, pump queue w = run evs w.
Proof.
  induction queue as [|msg queue [evs IH]]; [exists []; reflexivity|].
  destruct msg.
  5: { exists [Message WM_QUIT]. intros w. open_world w. reflexivity. }
  all: match goal with
       | |- exists _, forall w, pump (?m :: _) w = _ =>
           exists (Message m :: evs)
       end; intros w;
    cbn [Reaction.pump Reaction.run Reaction.step]; unfold bind;
    match goal with
    | |- context [Reaction.WndProc _ _ ?m w] =>
        destruct (Reaction.WndProc uniform_real_distribution clock m w)
          as [[[] w1]|]; [apply IH|reflexivity]
    end.
Qed.

Lemma main_loop_is_run frames : forall w : World,
  exists evs, main_loop frames w = run evs w.
Proof.
  induction frames as [|[queue hr] rest IH]; intros w;
    [exists []; reflexivity|].
  cbn [Reaction.main_loop]. unfold bind at 1, read, gets. cbn [app].
  destruct (running (app w)); [|exists []; reflexivity].
  destruct (pump_is_run queue) as [evq Hq]. unfold bind. rewrite Hq.
  destruct (run evq w) as [[[] w1]|f] eqn:E1.
  - destruct (Render hr w1) as [[[] w2]|f] eqn:E2.
    + destruct (IH w2) as [evs2 E3].
      exists (evq ++ Frame hr :: evs2).
      rewrite run_app_bind. unfold bind. rewrite E1.
      cbn [Reaction.run Reaction.step]. unfold bind. rewrite E2. exact E3.
    + exists (evq ++ [Frame hr]).
      rewrite run_app_bind. unfold bind. rewrite E1.
      cbn [Reaction.run Reaction.step]. unfold bind. rewrite E2. reflexivity.
  - exists evq. symmetry. exact E1.
Qed.

Lemma main_loop_quit_stops frames : forall (w w' : World),
  main_loop frames w = Ok (tt, w') ->
  (exists pre post hr, In (pre ++ WM_QUIT :: post, hr) frames) ->
  running (app w') = false.
Proof.
  induction frames as [|[queue hr] rest IH]; intros w w' H [pre [post [hq Hin]]];
    [destruct Hin|].
  destruct (running (app w)) eqn:R.
  - destruct Hin as [Hq|Hin].
    + injection Hq as -> ->.
      apply (proj2 (quit_ends_loop pre post hq rest w R) w' H).
    + cbn [Reaction.main_loop] in H. unfold bind at 1, read, gets in H.
      cbn [app] in H. rewrite R in H. unfold bind in H.
      destruct (pump queue w) as [[[] w1]|]; [|discriminate].
      destruct (Render hr w1) as [[[] w2]|]; [|discriminate].
      apply (IH w2 w' H). exists pre, post, hq. exact Hin.
  - rewrite main_loop_stopped in H by exact R. injection H as <-. exact R.
Qed.

(** The shape of an execution of [wWinMain] whose window and devices
    could be created. *)
Lemma wWinMain_shape seed dev activated frames :
  exists evs w,
    exec seed dev evs = Ok (tt, w) /\
    ((exists pre post hr, In (pre ++ WM_QUIT :: post, hr) frames) ->
     running (app w) = false) /\
    wWinMain true true true dev activated frames (initial seed) =
    if running (app w) then Ok (None, w)
    else Ok (Some 0,
             {| app := app w; clock_reads := clock_reads w;
                calls := (if match dev with
                             | Some _ => true
                             | None => activated
                             end
                          then [AudioClient_Stop] else []) ++ calls w |}).
Proof.
  destruct (startup_world _ uniform_real_distribution clock seed dev)
    as [w0 [E0 _]].
  destruct (main_loop_is_run frames w0) as [evs E].
  destruct (exec_total _ uniform_real_distribution clock seed dev evs)
    as [w Hx].
  assert (Hl : main_loop frames w0 = Ok (tt, w)).
  { rewrite E. unfold Reaction.exec, bind in Hx. rewrite E0 in Hx. exact Hx. }
  exists evs, w. split; [exact Hx|]. split.
  - intros Hq. apply (main_loop_quit_stops frames w0 w Hl Hq).
  - unfold Reaction.wWinMain. cbn [negb]. unfold bind at 1.
    rewrite E0. unfold bind at 1. rewrite Hl.
    unfold bind at 1, read, gets. cbn [app].
    destruct (running (app w)); [reflexivity|].
    unfold Reaction.Cleanup, Reaction.CleanupWASAPI, bind.
    destruct (match dev with Some _ => true | None => activated end);
      open_world w; reflexivity.
Qed.


Lemma filter_none {A} (p : A -> bool) l :
  forallb (fun x => negb (p x)) l = true -> filter p l = [].
Proof.
  induction l as [|x l IH]; [reflexivity|]. cbn [forallb filter].
  intros H. apply andb_prop in H. destruct H as [Hx H].
  apply negb_true_iff in Hx. rewrite Hx. apply IH, H.
Qed.

(** When [InitWASAPI] has failed, the tone engine never reaches the
    audio client: in every run [audioInitialized] is clear and no
    [Stop], [Reset], [GetBuffer], buffer fill, [ReleaseBuffer] or
    [Start] is on record; and over a whole execution of [wWinMain] the
    only such call is the one [Stop] that [CleanupWASAPI] makes at exit,
    and only when the failure came after the audio client had been
    activated. *)
Theorem silent_without_device seed :
  (forall evs (w : World),
     exec seed None evs = Ok (tt, w) ->
     audioInitialized (app w) = false /\
     filter audio_call (calls w) = []) /\
  (forall activated frames code (w : World),
     wWinMain true true true None activated frames (initial seed)
     = Ok (code, w) ->
     audioInitialized (app w) = false /\
     filter audio_call (calls w) =
       match code with
       | Some _ => if activated then [AudioClient_Stop] else []
       | None => []
       end).
Proof.
  split.
  - intros evs w H. destruct (loop_is_silent seed evs w H) as [I C].
    split; [exact I|]. apply filter_none, C.
  - intros activated frames code w H.
    destruct (wWinMain_shape seed None activated frames)
      as [evs [w1 [Hx [_ E]]]].
    destruct (loop_is_silent seed evs w1 Hx) as [I C].
    apply filter_none in C. rewrite E in H.
    destruct (running (app w1)).
    + injection H as <- <-. split; assumption.
    + injection H as <- <-. cbn [app calls]. split; [exact I|].
      rewrite filter_app, C, app_nil_r.
      destruct activated; reflexivity.
Qed.

End More.

(** ** The length of the tone *)

Lemma all_from_spec p n : forall r,
  Cases.all_from n r p = true ->
  forall x, r <= x < r + Z.of_nat n -> p x = true.
Proof.
  induction n as [|n IH]; intros r H x Hx; [lia|].
  cbn [Cases.all_from] in H. apply andb_prop in H. destruct H as [Hr H].
  destruct (Z.eq_dec x r) as [->|N]; [exact Hr|].
  apply (IH (r + 1) H). lia.
Qed.

Lemma tone_exact_checked :
  Cases.all_from (Z.to_nat 16000) 0 Cases.tone_exact = true.
Proof. vm_cast_no_check (eq_refl true). Qed.

(** At every sample rate below 400 kHz at which 80 ms are a whole number
    of frames, that is at the multiples of 25 Hz, the [float] product and
    quotient of [PlayBeepWASAPI] lose nothing: the tone has exactly
    these frames, though the truncation would drop one if the quotient
    were rounded below the integer. *)
Theorem tone_whole_frames (k : Z) :
  0 <= k < 16000 -> toneSamples_of (25 * k) = 2 * k.
Proof.
  intros H. apply Z.eqb_eq.
  apply (all_from_spec Cases.tone_exact _ 0 tone_exact_checked).
  rewrite Z2Nat.id; lia.
Qed.

(** ** The properties on concrete runs *)

Lemma ignored_input_witness :
  WndProc Demo.draw Demo.clock (WM_INPUT (Some Demo.move))
          (Demo.world_after [Frame true]) =
  Ok (tt, Demo.world_after [Frame true]).
Proof.
  assert (Q : match Some Demo.move with
              | Some raw => qualifying raw = false
              | None => True
              end) by computed.
  exact (ignored_input _ Demo.draw Demo.clock (Some Demo.move)
           (Demo.world_after [Frame true]) Q).
Defined.

Lemma results_consistent_witness :
  match reactionTimes (app (Demo.world_after (Demo.trials 2))) with
  | [] => lastReactionTime (app (Demo.world_after (Demo.trials 2))) = F32.zero /\
          averageTime (app (Demo.world_after (Demo.trials 2))) = F32.zero /\
          bestTime (app (Demo.world_after (Demo.trials 2))) = F32.zero
  | newest :: _ =>
      lastReactionTime (app (Demo.world_after (Demo.trials 2))) = newest
  end.
Proof.
  assert (E : exec Demo.draw Demo.clock 0%nat (Some Demo.device)
                (Demo.trials 2)
              = Ok (tt, Demo.world_after (Demo.trials 2))) by computed.
  exact (results_consistent _ Demo.draw Demo.clock 0%nat (Some Demo.device)
           (Demo.trials 2) (Demo.world_after (Demo.trials 2)) E).
Defined.

Lemma never_early_witness :
  exists k,
    (S k < clock_reads (Demo.world_after [Frame true]))%nat /\
    flashStartTime (app (Demo.world_after [Frame true])) = Demo.clock (S k).
Proof.
  assert (E : exec Demo.draw Demo.clock 0%nat (Some Demo.device) [Frame true]
              = Ok (tt, Demo.world_after [Frame true])) by computed.
  assert (S : state (app (Demo.world_after [Frame true])) = Flashing)
    by computed.
  destruct (never_early _ Demo.draw Demo.clock 0%nat (Some Demo.device)
              [Frame true] (Demo.world_after [Frame true]) E S)
    as [k [Hk [_ Ho]]].
  exists k. split; assumption.
Defined.

Lemma visual_mode_silent_witness :
  beeps (calls (Demo.world_after (Demo.trials 2))) = 0%nat.
Proof.
  assert (K : Forall (fun e => e <> Message (WM_KEYDOWN VK_F1))
                     (Demo.trials 2))
    by (repeat constructor; discriminate).
  assert (E : exec Demo.draw Demo.clock 0%nat (Some Demo.device)
                (Demo.trials 2)
              = Ok (tt, Demo.world_after (Demo.trials 2))) by computed.
  exact (proj2 (visual_mode_silent _ Demo.draw Demo.clock 0%nat
                  (Some Demo.device) (Demo.trials 2)
                  (Demo.world_after (Demo.trials 2)) K E)).
Defined.

Lemma audio_onset_beeps_witness :
  beeps (calls (Demo.world_after [Message (WM_KEYDOWN VK_F1); Frame true])) =
  S (beeps (calls (Demo.world_after [Message (WM_KEYDOWN VK_F1)]))).
Proof.
  pose (w := Demo.world_after [Message (WM_KEYDOWN VK_F1)]).
  pose (w' := Demo.world_after [Message (WM_KEYDOWN VK_F1); Frame true]).
  assert (E : exec Demo.draw Demo.clock 0%nat (Some Demo.device)
                [Message (WM_KEYDOWN VK_F1)] = Ok (tt, w)) by computed.
  assert (A : audioMode (app w) = true) by computed.
  assert (S0 : state (app w) = Waiting) by computed.
  assert (R : Render Demo.clock true w = Ok (tt, w')) by computed.
  assert (S1 : state (app w') = Flashing) by computed.
  exact (proj1 (audio_onset_beeps _ Demo.draw Demo.clock 0%nat
                  (Some Demo.device) [Message (WM_KEYDOWN VK_F1)] true
                  w w' E A S0 R S1)).
Defined.

Lemma beep_without_buffer_witness :
  exists frames,
    PlayBeepWASAPI false (Demo.world_after []) =
    Ok (tt, {| app := app (Demo.world_after []);
               clock_reads := clock_reads (Demo.world_after []);
               calls := [RenderClient_GetBuffer frames; AudioClient_Reset;
                         AudioClient_Stop; Enter_PlayBeepWASAPI]
                        ++ calls (Demo.world_after []) |}) /\
    frames <= audioBufferFrames (app (Demo.world_after [])).
Proof.
  assert (I : audioInitialized (app (Demo.world_after [])) = true)
    by computed.
  exact (beep_without_buffer Demo.engine (Demo.world_after []) I).
Defined.

Lemma silent_without_device_witness :
  filter audio_call
    (calls (Cases.world_without_device
              [Message (WM_KEYDOWN VK_F1); Frame true])) = [] /\
  filter audio_call (calls (Cases.final_world Cases.program_without_device))
  = [AudioClient_Stop].
Proof.
  assert (E1 : exec Demo.draw Demo.clock 0%nat None
                 [Message (WM_KEYDOWN VK_F1); Frame true]
               = Ok (tt, Cases.world_without_device
                           [Message (WM_KEYDOWN VK_F1); Frame true]))
    by computed.
  assert (E2 : wWinMain Demo.draw Demo.clock true true true None true
                 Cases.quit_frames (initial 0%nat)
               = Ok (Some 0, Cases.final_world Cases.program_without_device))
    by computed.
  split.
  - exact (proj2 (proj1 (silent_without_device _ Demo.draw Demo.clock 0%nat)
                    [Message (WM_KEYDOWN VK_F1); Frame true]
                    (Cases.world_without_device
                       [Message (WM_KEYDOWN VK_F1); Frame true]) E1)).
  - exact (proj2 (proj2 (silent_without_device _ Demo.draw Demo.clock 0%nat)
                    true Cases.quit_frames (Some 0)
                    (Cases.final_world Cases.program_without_device) E2)).
Defined.


Lemma stopped_stays_stopped_witness :
  running (app (Demo.world_after [Message (WM_KEYDOWN VK_ESCAPE);
                                  Message (WM_KEYDOWN VK_SPACE)])) = false.
Proof.
  pose (w := Demo.world_after [Message (WM_KEYDOWN VK_ESCAPE)]).
  pose (w' := Demo.world_after [Message (WM_KEYDOWN VK_ESCAPE);
                                Message (WM_KEYDOWN VK_SPACE)]).
  assert (R : running (app w) = false) by computed.
  assert (E : step Demo.draw Demo.clock (Message (WM_KEYDOWN VK_SPACE)) w
              = Ok (tt, w')) by computed.
  exact (stopped_stays_stopped _ Demo.draw Demo.clock
           (Message (WM_KEYDOWN VK_SPACE)) w w' R E).
Defined.

Lemma quit_ends_loop_witness :
  main_loop Demo.draw Demo.clock
    [([WM_INPUT (Some Demo.click); WM_QUIT; WM_KEYDOWN VK_SPACE], true);
     ([WM_KEYDOWN VK_F1], true)]
    (Demo.world_after []) =
  main_loop Demo.draw Demo.clock
    [([WM_INPUT (Some Demo.click); WM_QUIT], true)]
    (Demo.world_after []).
Proof.
  assert (R : running (app (Demo.world_after [])) = true) by computed.
  exact (proj1 (quit_ends_loop _ Demo.draw Demo.clock
                  [WM_INPUT (Some Demo.click)] [WM_KEYDOWN VK_SPACE] true
                  [([WM_KEYDOWN VK_F1], true)] (Demo.world_after []) R)).
Defined.

Lemma tone_whole_frames_witness : toneSamples_of (25 * 1764) = 2 * 1764.
Proof. apply (tone_whole_frames 1764). lia. Defined.

End ReactionMore.

(** * More about the latency tester *)

Module LatencyMore.
Import Win32 Latency Spec F32Facts VectorFacts LatencyFacts.

Section More.
Variable clock : nat -> Z.
Variable GetRawInputDeviceInfoW : Z -> string.
Variable GetKeyNameTextW : Z -> string.
Variable swprintf_times : F64.double -> F64.double -> string.

Local Abbreviation World := (World AppState Call).
Local Abbreviation TriggerFlash := (TriggerFlash clock swprintf_times).
Local Abbreviation WndProc :=
  (WndProc clock GetRawInputDeviceInfoW GetKeyNameTextW swprintf_times).
Local Abbreviation Render := (Render clock).
Local Abbreviation pump :=
  (pump clock GetRawInputDeviceInfoW GetKeyNameTextW swprintf_times).
Local Abbreviation main_loop :=
  (main_loop clock GetRawInputDeviceInfoW GetKeyNameTextW swprintf_times).
Local Abbreviation step :=
  (step clock GetRawInputDeviceInfoW GetKeyNameTextW swprintf_times).
Local Abbreviation run :=
  (run clock GetRawInputDeviceInfoW GetKeyNameTextW swprintf_times).
Local Abbreviation exec :=
  (exec clock GetRawInputDeviceInfoW GetKeyNameTextW swprintf_times).

Lemma Ok_inj {S : Type} (a b : S) :
  Ok (tt, a) = Ok (tt, b) -> a = b.
Proof. intros H. injection H as <-. reflexivity. Qed.

(** The world a finished handler ends in, read off its equation. *)
Ltac finished H :=
  lazymatch type of H with
  | Fault _ = Ok _ => discriminate H
  | Ok (tt, _) = Ok (tt, _) => apply Ok_inj in H; subst
  | _ => idtac
  end.

(** Case analysis of a finished handler on an opened world, with
    [TriggerFlash] taken as a whole. *)
Ltac case_flash H :=
  repeat first
    [ progress norm_in H
    | match type of H with
      | context [Latency.TriggerFlash _ _ ?i ?d ?w] =>
          let w1 := fresh "w" in
          let E := fresh "E" in let F := fresh "F" in
          destruct (TriggerFlash_effect clock swprintf_times i d w)
            as [w1 [E F]];
          rewrite E in H; clear E;
          destruct w1 as [[t_flashing t_flashStart t_duration t_appStart
                           t_lastEvent t_inputText t_deviceText t_lastFrame
                           t_frameTime t_fps t_sFrameTime t_sFps t_buttons
                           t_keyboard t_delta t_log t_up t_hz t_overlay
                           t_times t_mouseHz t_entries t_running]
                          t_reads t_calls];
          norm_in F;
          destruct F as (? & ? & ? & ? & ? & ? & ? & ? & ? & ? & ?);
          subst
      end
    | match type of H with
      | context [match ?x with _ => _ end] =>
          lazymatch x with
          | context [match _ with _ => _ end] => fail
          | _ => let E := fresh "E" in destruct x eqn:E
          end
      end ];
  finished H.

(** [TriggerFlash] writes the flash, the two texts, the log and the time
    of the last logged event, and nothing else. *)
Lemma TriggerFlash_shape inputInfo deviceInfo (w : World) :
  exists entries lastEvent,
    TriggerFlash inputInfo deviceInfo w =
    Ok (tt, {| app := set_lastEventTimeMs lastEvent
                        (set_logEntries entries
                           (set_lastDeviceText deviceInfo
                              (set_lastInputText inputInfo
                                 (set_flashStartTime (clock (clock_reads w))
                                    (set_isFlashing true (app w))))));
               clock_reads := S (clock_reads w);
               calls := Enter_TriggerFlash inputInfo deviceInfo :: calls w |}).
Proof.
  open_world w. unfold Latency.TriggerFlash. norm. destruct s_log.
  - destruct (MAX_LOG_ENTRIES <? size (insert_begin _ s_entries));
      do 2 eexists; reflexivity.
  - exists s_entries, s_lastEvent. reflexivity.
Qed.

(** Case analysis of a finished handler on an opened world, keeping of
    [TriggerFlash] only which fields it writes. *)
Ltac case_shape H :=
  repeat first
    [ progress norm_in H
    | match type of H with
      | context [Latency.TriggerFlash _ _ ?i ?d ?w] =>
          let entries := fresh "entries" in
          let lastEvent := fresh "lastEvent" in
          let E := fresh "E" in
          destruct (TriggerFlash_shape i d w) as [entries [lastEvent E]];
          rewrite E in H; clear E
      end
    | match type of H with
      | context [match ?x with _ => _ end] =>
          lazymatch x with
          | context [match _ with _ => _ end] => fail
          | _ => let E := fresh "E" in destruct x eqn:E
          end
      end ];
  finished H.

Ltac unfold_step H :=
  unfold Latency.step, Latency.WndProc, Latency.ProcessRawInput,
    Latency.Render in H.

(** ** What the switches guarantee *)

(** While logging is off the log is empty: it starts empty, entries are
    only written with logging on, and switching logging off clears it. *)
Theorem log_off_empty evs (w : World) :
  exec evs = Ok (tt, w) ->
  enableLog (app w) = false -> logEntries (app w) = [].
Proof.
  intros Hx. unfold Latency.exec in Hx.
  refine (latency_run_invariant _ _ _ _
            (fun w => enableLog (app w) = false -> logEntries (app w) = [])
            _ evs _ w _ Hx).
  - intros e w0 w' Hi H. open_world w0. unfold_step H.
    case_flash H; norm; intros L; subst;
      try reflexivity; try discriminate; auto;
      destruct s_log; cbn [negb] in *; first [discriminate | auto].
  - reflexivity.
Qed.

(** While rate tracking is off the rate window is empty and the
    displayed rate is zero. *)
Theorem rate_off_clear evs (w : World) :
  exec evs = Ok (tt, w) ->
  enableMouseHz (app w) = false ->
  mouseDeltaTimes (app w) = [] /\ mouseHz (app w) = F32.zero.
Proof.
  intros Hx. unfold Latency.exec in Hx.
  refine (latency_run_invariant _ _ _ _
            (fun w => enableMouseHz (app w) = false ->
                      mouseDeltaTimes (app w) = [] /\
                      mouseHz (app w) = F32.zero)
            _ evs _ w _ Hx).
  - intros e w0 w' Hi H. open_world w0. unfold_step H.
    case_flash H; norm; intros L; subst;
      try (split; reflexivity); try discriminate; auto;
      try solve [destruct s_hz; cbn [negb] in *; first [discriminate | auto]];
      match goal with
      | E : _ && false = true |- _ => rewrite andb_false_r in E; discriminate E
      end.
  - split; reflexivity.
Qed.

(** ** Frames *)

(** A frame never starts a flash and never touches what an input wrote:
    the texts, the log, the onset and the switches stay, and no call is
    recorded.  The flash ends exactly when the whole milliseconds since
    the onset have reached [flashDurationMs], measured at the reading
    the frame makes for that test.  With the overlay off nothing but
    [isFlashing] changes. *)
Theorem frame_effect (w : World) :
  let k := if enableOverlay (app w) then S (clock_reads w)
           else clock_reads w in
  let elapsed :=
    duration_cast_milliseconds (clock k - flashStartTime (app w)) in
  exists w',
    Render w = Ok (tt, w') /\
    isFlashing (app w') =
      isFlashing (app w) &&
      negb (F32.leb (flashDurationMs (app w)) (F32.of_Z elapsed)) /\
    flashStartTime (app w') = flashStartTime (app w) /\
    flashDurationMs (app w') = flashDurationMs (app w) /\
    lastInputText (app w') = lastInputText (app w) /\
    lastDeviceText (app w') = lastDeviceText (app w) /\
    logEntries (app w') = logEntries (app w) /\
    calls w' = calls w /\
    (enableOverlay (app w) = false ->
     app w' = set_isFlashing (isFlashing (app w')) (app w)).
Proof.
  intros k elapsed.
  destruct (latency_step_total clock GetRawInputDeviceInfoW GetKeyNameTextW
              swprintf_times Frame w) as [w' H].
  cbn [Latency.step] in H. exists w'. split; [exact H|].
  subst k elapsed. open_world w. unfold Latency.Render in H.
  destruct s_overlay; norm_in H; cbn [negb] in H;
    case_flash H; norm;
    repeat match goal with
           | E : F32.leb _ _ = _ |- _ => rewrite E
           end;
    cbn [andb negb]; repeat split; try reflexivity; discriminate.
Qed.

Lemma size_push_back {A} (x : A) (l : list A) :
  size (push_back x l) = size l + 1.
Proof. unfold push_back, size. rewrite length_app. cbn. lia. Qed.

(** With the overlay off the rate window is never evicted: over frames
    and mouse reports with a displacement, with rate tracking on, it
    grows by one reading for every report. *)
Theorem window_grows_without_overlay evs (w w' : World) :
  enableOverlay (app w) = false ->
  enableMouseHz (app w) = true ->
  Forall (fun e => e = Frame \/
                   exists raw, delta_event raw = true /\
                               e = Message (WM_INPUT (Some raw))) evs ->
  run evs w = Ok (tt, w') ->
  size (mouseDeltaTimes (app w')) =
  size (mouseDeltaTimes (app w)) +
  size (filter (fun e => match e with Frame => false | _ => true end) evs).
Proof.
  intros Ho Hz Hf. revert w Ho Hz.
  induction Hf as [|e evs He Hf IH]; intros w Ho Hz H.
  - injection H as <-. unfold size. cbn. lia.
  - cbn [Latency.run] in H. unfold bind in H.
    destruct (step e w) as [[[] w1]|] eqn:E1; [|discriminate].
    assert (K : enableOverlay (app w1) = false /\
                enableMouseHz (app w1) = true /\
                size (mouseDeltaTimes (app w1)) =
                size (mouseDeltaTimes (app w)) +
                (match e with Frame => 0 | _ => 1 end)).
    { destruct He as [->|[raw [D ->]]].
      - open_world w. subst s_overlay s_hz. unfold_step E1.
        case_flash E1; norm; repeat split; lia.
      - destruct (delta_event_inv raw D) as [Ht Hd].
        open_world w. subst s_overlay s_hz. unfold_step E1.
        rewrite Ht, Hd in E1. cbn [andb] in E1.
        case_shape E1; norm; repeat split; try reflexivity;
          apply size_push_back. }
    destruct K as [Ho1 [Hz1 Hs]].
    rewrite (IH w1 Ho1 Hz1 H), Hs.
    destruct e; cbn [filter]; rewrite ?size_cons; lia.
Qed.

(** ** Inputs the filters drop *)

Lemma test_nonzero flags mask :
  test flags mask = true -> (flags =? 0) = false.
Proof.
  unfold test. intros H. apply Z.eqb_neq. intros ->.
  rewrite Z.land_0_l in H. discriminate H.
Qed.

(** A key event changes nothing when the keyboard is switched off, and
    a key release changes nothing when releases are switched off. *)
Theorem key_filtered raw (w : World) :
  dwType (header raw) = RIM_TYPEKEYBOARD ->
  enableKeyboard (app w) = false \/
  (enableUpEvents (app w) = false /\
   test (Flags (keyboard raw)) RI_KEY_BREAK = true) ->
  WndProc (WM_INPUT (Some raw)) w = Ok (tt, w).
Proof.
  intros T C. open_world w.
  unfold Latency.WndProc, Latency.ProcessRawInput. rewrite T.
  change (RIM_TYPEKEYBOARD =? RIM_TYPEMOUSE) with false.
  change (RIM_TYPEKEYBOARD =? RIM_TYPEKEYBOARD) with true.
  cbv iota. norm.
  destruct C as [->|[-> ->]]; [reflexivity|].
  cbn [negb andb]. destruct s_keyboard; reflexivity.
Qed.

(** With rate tracking off, a mouse report changes nothing at all in
    three cases: it carries a button flag while buttons are switched
    off, whatever else it carries; it carries no button flag while moves
    are switched off; or releases are switched off and the first flag
    the chain of tests meets is the release of the left button, even
    when the same report carries the press of another button. *)
Theorem mouse_report_dropped raw (w : World) :
  dwType (header raw) = RIM_TYPEMOUSE ->
  enableMouseHz (app w) = false ->
  (usButtonFlags (mouse raw) <> 0 /\ enableMouseButtons (app w) = false) \/
  (usButtonFlags (mouse raw) = 0 /\ enableMouseDelta (app w) = false) \/
  (enableUpEvents (app w) = false /\
   test (usButtonFlags (mouse raw)) RI_MOUSE_LEFT_BUTTON_DOWN = false /\
   test (usButtonFlags (mouse raw)) RI_MOUSE_LEFT_BUTTON_UP = true) ->
  WndProc (WM_INPUT (Some raw)) w = Ok (tt, w).
Proof.
  intros T Hz C. open_world w. subst s_hz.
  unfold Latency.WndProc, Latency.ProcessRawInput. rewrite T.
  change (RIM_TYPEMOUSE =? RIM_TYPEMOUSE) with true. cbv iota.
  norm. rewrite andb_false_r.
  destruct C as [[F ->]|[[F ->]|[-> [D U]]]].
  - apply Z.eqb_neq in F. rewrite F. reflexivity.
  - rewrite F. cbn [Z.eqb negb andb].
    destruct s_buttons;
      (destruct (negb (lLastX (mouse raw) =? 0) ||
                 negb (lLastY (mouse raw) =? 0)) eqn:E;
       [reflexivity|]);
      cbn [andb]; unfold Latency.mouse_inputInfo; rewrite F;
      reflexivity.
  - rewrite (test_nonzero _ _ U). cbn [negb andb].
    destruct s_buttons; [|reflexivity]. rewrite andb_false_r.
    unfold Latency.mouse_inputInfo. rewrite D, U. reflexivity.
Qed.

(** ** Inputs that flash *)

(** With buttons switched on, a report with the left-down flag always
    flashes and is named a left click, whatever other flags and
    whatever displacement it carries and whatever the other switches
    say; the onset is the reading made for it, which is the second
    reading when the report also entered the rate window. *)
Theorem left_down_flashes raw (w : World) :
  dwType (header raw) = RIM_TYPEMOUSE ->
  test (usButtonFlags (mouse raw)) RI_MOUSE_LEFT_BUTTON_DOWN = true ->
  enableMouseButtons (app w) = true ->
  let deviceInfo :=
    ("MOUSE: " ++
     device_leaf (GetRawInputDeviceInfoW (hDevice (header raw))))%string in
  let k := if delta_event raw && enableMouseHz (app w)
           then S (clock_reads w) else clock_reads w in
  exists w',
    WndProc (WM_INPUT (Some raw)) w = Ok (tt, w') /\
    isFlashing (app w') = true /\
    flashStartTime (app w') = clock k /\
    lastInputText (app w') = "Left Click DOWN"%string /\
    lastDeviceText (app w') = deviceInfo /\
    calls w' = Enter_TriggerFlash "Left Click DOWN" deviceInfo :: calls w.
Proof.
  intros T D B deviceInfo k.
  destruct (latency_step_total clock GetRawInputDeviceInfoW GetKeyNameTextW
              swprintf_times (Message (WM_INPUT (Some raw))) w) as [w' H].
  cbn [Latency.step] in H. exists w'. split; [exact H|].
  subst deviceInfo k. unfold delta_event. rewrite T.
  change (RIM_TYPEMOUSE =? RIM_TYPEMOUSE) with true. cbn [andb].
  open_world w. subst s_buttons.
  unfold Latency.WndProc, Latency.ProcessRawInput in H. rewrite T in H.
  change (RIM_TYPEMOUSE =? RIM_TYPEMOUSE) with true in H. cbv iota in H.
  unfold Latency.mouse_inputInfo in H. rewrite D in H.
  rewrite (test_nonzero _ _ D) in H. cbn [negb andb] in H.
  destruct (negb (lLastX (mouse raw) =? 0) || negb (lLastY (mouse raw) =? 0));
    destruct s_hz; cbn [andb];
    case_shape H;
    try match goal with
        | E : negb _ = _ |- _ => discriminate E
        | E : _ && _ = _ |- _ => discriminate E
        end;
    norm; repeat split; reflexivity.
Qed.

(** ** The switches *)

(** The keys F1, F2, F3, F7 and F9 are switches without a side effect:
    pressed twice they leave the state as it was. *)
Theorem switch_twice key (w : World) :
  In key [VK_F1; VK_F2; VK_F3; VK_F7; VK_F9] ->
  exists w1,
    WndProc (WM_KEYDOWN key) w = Ok (tt, w1) /\
    WndProc (WM_KEYDOWN key) w1 = Ok (tt, w).
Proof.
  intros K. open_world w. cbn [In] in K.
  repeat (destruct K as [<-|K];
          [unfold Latency.WndProc;
           cbn [Z.eqb Pos.eqb VK_ESCAPE VK_F1 VK_F2 VK_F3 VK_F4 VK_F5 VK_F6
                VK_F7 VK_F8 VK_F9];
           norm; eexists; split; [reflexivity|];
           norm; rewrite negb_involutive; reflexivity|]).
  destruct K.
Qed.

(** ** The device name *)

Lemma rfind_found c s i :
  String.get i s = Some c ->
  forall d,
    (forall j, (i < j <= i + d)%nat -> String.get j s <> Some c) ->
    rfind c s (i + d) = Some i.
Proof.
  intros Hi. induction d as [|d IH]; intros Hn.
  - rewrite Nat.add_0_r. destruct i; cbn [rfind]; rewrite Hi, Ascii.eqb_refl;
      reflexivity.
  - rewrite Nat.add_succ_r. cbn [rfind].
    destruct (String.get (S (i + d)) s) as [x|] eqn:G.
    + destruct (Ascii.eqb_spec x c) as [->|N].
      * exfalso. apply (Hn (S (i + d))); [lia|exact G].
      * apply IH. intros j Hj. apply Hn. lia.
    + apply IH. intros j Hj. apply Hn. lia.
Qed.

Lemma rfind_none c s pos :
  (forall j, (j <= pos)%nat -> String.get j s <> Some c) ->
  rfind c s pos = None.
Proof.
  induction pos as [|p IH]; intros Hn; cbn [rfind].
  - destruct (String.get 0 s) as [x|] eqn:G; [|reflexivity].
    destruct (Ascii.eqb_spec x c) as [->|N]; [|reflexivity].
    exfalso. apply (Hn 0%nat); [lia|exact G].
  - destruct (String.get (S p) s) as [x|] eqn:G.
    + destruct (Ascii.eqb_spec x c) as [->|N].
      * exfalso. apply (Hn (S p)); [lia|exact G].
      * apply IH. intros j Hj. apply Hn. lia.
    + apply IH. intros j Hj. apply Hn. lia.
Qed.

Lemma get_at_join a c b :
  String.get (String.length a) (a ++ String c b) = Some c.
Proof. induction a as [|x a IH]; [reflexivity|exact IH]. Qed.

Lemma get_before_join a b j :
  (j < String.length a)%nat -> String.get j (a ++ b) = String.get j a.
Proof.
  revert j. induction a as [|x a IH]; intros j Hj; cbn in Hj; [lia|].
  destruct j; [reflexivity|]. cbn. apply IH. lia.
Qed.

Lemma get_after_join a c b j :
  String.get (String.length a + S j) (a ++ String c b) = String.get j b.
Proof. induction a as [|x a IH]; [reflexivity|exact IH]. Qed.

Lemma length_join a c b :
  String.length (a ++ String c b) = S (String.length a + String.length b).
Proof. induction a as [|x a IH]; cbn; [reflexivity|]. rewrite IH. reflexivity. Qed.

Lemma join_assoc a c b d e :
  (a ++ String c (b ++ String d e) = (a ++ String c b) ++ String d e)%string.
Proof. induction a as [|x a IH]; cbn; [reflexivity|]. rewrite IH. reflexivity. Qed.

Lemma substring_prefix a b :
  String.substring 0 (String.length a) (a ++ b) = a.
Proof.
  induction a as [|x a IH]; cbn.
  - destruct b; reflexivity.
  - rewrite IH. reflexivity.
Qed.

Lemma substring_after_join a c b n :
  String.substring (String.length a + 1) n (a ++ String c b) =
  String.substring 0 n b.
Proof. induction a as [|x a IH]; [reflexivity|exact IH]. Qed.

(** Of a device path with at least two ['#'] the tester shows what lies
    between the last two. *)
Theorem device_leaf_between pre leaf post :
  (forall i, String.get i leaf <> Some "#"%char) ->
  (forall i, String.get i post <> Some "#"%char) ->
  device_leaf (pre ++ "#" ++ leaf ++ "#" ++ post) = leaf.
Proof.
  intros Hl Hp. cbn [String.append].
  set (s := (pre ++ String "#" (leaf ++ String "#" post))%string).
  set (a := (pre ++ String "#" leaf)%string).
  assert (Es : s = (a ++ String "#" post)%string) by apply join_assoc.
  assert (La : String.length a = S (String.length pre + String.length leaf))
    by apply length_join.
  assert (Ls : (String.length s - 1 =
                String.length a + String.length post)%nat).
  { rewrite Es, length_join. lia. }
  assert (R1 : rfind "#" s (String.length s - 1) = Some (String.length a)).
  { rewrite Ls. apply rfind_found.
    - rewrite Es. apply get_at_join.
    - intros j Hj.
      replace j with (String.length a + S (j - String.length a - 1))%nat
        by lia.
      rewrite Es, get_after_join. apply Hp. }
  assert (R2 : rfind "#" s (String.length a - 1) = Some (String.length pre)).
  { replace (String.length a - 1)%nat
      with (String.length pre + String.length leaf)%nat by lia.
    apply rfind_found.
    - apply get_at_join.
    - intros j Hj.
      replace j with (String.length pre + S (j - String.length pre - 1))%nat
        by lia.
      unfold s. rewrite get_after_join, get_before_join by lia. apply Hl. }
  unfold device_leaf. rewrite R1.
  destruct (Nat.ltb_spec 0 (String.length a)) as [_|N]; [|lia].
  rewrite R2.
  replace (String.length a - String.length pre - 1)%nat
    with (String.length leaf) by lia.
  unfold s. rewrite substring_after_join. apply substring_prefix.
Qed.

(** A device name with one ['#'] or none is shown as it is. *)
Theorem device_leaf_unchanged a b :
  (forall i, String.get i a <> Some "#"%char) ->
  (forall i, String.get i b <> Some "#"%char) ->
  device_leaf a = a /\ device_leaf (a ++ "#" ++ b) = (a ++ "#" ++ b)%string.
Proof.
  intros Ha Hb. split.
  - unfold device_leaf. rewrite rfind_none; [reflexivity|].
    intros j _. apply Ha.
  - cbn [String.append]. set (s := (a ++ String "#" b)%string).
    assert (R1 : rfind "#" s (String.length s - 1) = Some (String.length a)).
    { replace (String.length s - 1)%nat
        with (String.length a + String.length b)%nat
        by (unfold s; rewrite length_join; lia).
      apply rfind_found.
      - apply get_at_join.
      - intros j Hj.
        replace j with (String.length a + S (j - String.length a - 1))%nat
          by lia.
        unfold s. rewrite get_after_join. apply Hb. }
    unfold device_leaf. rewrite R1.
    destruct (Nat.ltb_spec 0 (String.length a)) as [P|_]; [|reflexivity].
    rewrite rfind_none; [reflexivity|].
    intros j Hj. unfold s. rewrite get_before_join by lia. apply Ha.
Qed.

(** ** The message loop *)

Lemma latency_run_total evs : forall w : World,
  exists w', run evs w = Ok (tt, w').
Proof.
  induction evs as [|e evs IH]; intros w; [exists w; reflexivity|].
  destruct (latency_step_total clock GetRawInputDeviceInfoW GetKeyNameTextW
              swprintf_times e w) as [w1 E].
  destruct (IH w1) as [w' H]. exists w'.
  cbn [Latency.run]. unfold bind. rewrite E. exact H.
Qed.

Lemma latency_run_app evs1 evs2 : forall w : World,
  run (evs1 ++ evs2) w = bind (run evs1) (fun _ => run evs2) w.
Proof.
  induction evs1 as [|e evs1 IH]; intros w; [reflexivity|].
  cbn [List.app Latency.run]. unfold bind in *.
  destruct (step e w) as [[[] w1]|]; [apply IH|reflexivity].
Qed.

Lemma latency_pump_is_run queue :
  exists evs, forall w : World, pump queue w = run evs w.
Proof.
  induction queue as [|msg queue [evs IH]]; [exists []; reflexivity|].
  destruct msg.
  5: { exists [Message WM_QUIT]. intros w. open_world w. reflexivity. }
  all: match goal with
       | |- exists _, forall w, pump (?m :: _) w = _ =>
           exists (Message m :: evs)
       end; intros w;
    cbn [Latency.pump Latency.run Latency.step]; unfold bind;
    match goal with
    | |- context [Latency.WndProc _ _ _ _ ?m w] =>
        destruct (WndProc m w) as [[[] w1]|]; [apply IH|reflexivity]
    end.
Qed.

Lemma latency_loop_is_run frames : forall w : World,
  exists evs, main_loop frames w = run evs w.
Proof.
  induction frames as [|queue rest IH]; intros w; [exists []; reflexivity|].
  cbn [Latency.main_loop]. unfold bind at 1, read, gets. cbn [app].
  destruct (running (app w)); [|exists []; reflexivity].
  destruct (latency_pump_is_run queue) as [evq Hq]. unfold bind. rewrite Hq.
  destruct (run evq w) as [[[] w1]|f] eqn:E1.
  - destruct (Render w1) as [[[] w2]|f] eqn:E2.
    + destruct (IH w2) as [evs2 E3].
      exists (evq ++ Frame :: evs2).
      rewrite latency_run_app. unfold bind. rewrite E1.
      cbn [Latency.run Latency.step]. unfold bind. rewrite E2. exact E3.
    + exists (evq ++ [Frame]).
      rewrite latency_run_app. unfold bind. rewrite E1.
      cbn [Latency.run Latency.step]. unfold bind. rewrite E2. reflexivity.
  - exists evq. symmetry. exact E1.
Qed.

(** Every execution of the message loop of the latency tester is a run:
    it ends where some sequence of dispatched messages and frames ends.
    So it never stops at a fault, and what holds after every run holds
    after every execution of the loop, such as the bound of 30 on the
    log. *)
Theorem latency_loop_runs frames :
  exists evs w,
    main_loop frames (initial clock) = exec evs /\
    exec evs = Ok (tt, w) /\
    size (logEntries (app w)) <= MAX_LOG_ENTRIES.
Proof.
  destruct (latency_loop_is_run frames (initial clock)) as [evs E].
  destruct (latency_run_total evs (initial clock)) as [w Hx].
  exists evs, w. split; [exact E|]. split; [exact Hx|].
  apply (log_cap_invariant clock GetRawInputDeviceInfoW
           GetKeyNameTextW swprintf_times evs w Hx).
Qed.

(** ** The frame rate *)

Lemma mul_positive_sign x my ey :
  F32.has_sign false x = true ->
  F32.has_sign false (F32.mul x (S754_finite false my ey)) = true.
Proof.
  destruct x as [s|s| |s m e]; cbn [F32.has_sign]; intros H; try discriminate H;
    apply eqb_prop in H; subst s; try reflexivity.
  unfold F32.mul, SFmul. cbn [xorb].
  apply binary_round_aux_sign. lia.
Qed.

Lemma add_nonneg_sign x y :
  F32.has_sign false x = true -> F32.has_sign false y = true ->
  F32.has_sign false (F32.add x y) = true.
Proof.
  destruct x as [sx|sx| |sx mx ex], y as [sy|sy| |sy my ey];
    cbn [F32.has_sign]; intros Hx Hy; try discriminate Hx; try discriminate Hy;
    apply eqb_prop in Hx; apply eqb_prop in Hy; subst sx sy;
    try reflexivity.
  unfold F32.add, SFadd. cbn [cond_Zopp].
  match goal with
  | |- F32.has_sign false (binary_normalize _ _ ?n ?e false) = true =>
      pose proof (binary_normalize_sign F32.prec F32.emax n e) as H;
      replace (n <? 0) with false in H by (symmetry; apply Z.ltb_ge; lia)
  end.
  exact H.
Qed.

Lemma fps_of_sign frameTime :
  F32.has_sign false
    (if F32.ltb F32.zero frameTime
     then F32.div (F32.of_Z 1000) frameTime else F32.zero) = true.
Proof.
  destruct frameTime as [s|s| |s m e].
  - destruct s; reflexivity.
  - destruct s; reflexivity.
  - reflexivity.
  - destruct s; [reflexivity|].
    change (F32.ltb F32.zero (S754_finite false m e)) with true. cbv iota.
    apply (SFdiv_sign F32.prec F32.emax false false (F32.of_Z 1000) m e).
    reflexivity.
Qed.

Lemma smoothing_finite :
  exists m e, smoothing = S754_finite false m e.
Proof. vm_compute. do 2 eexists. reflexivity. Qed.

Lemma rest_finite :
  exists m e, F32.sub (F32.of_Z 1) smoothing = S754_finite false m e.
Proof. vm_compute. do 2 eexists. reflexivity. Qed.

(** One step of the moving average of two values that are not negative
    is not negative. *)
Lemma average_sign old new :
  F32.has_sign false old = true -> F32.has_sign false new = true ->
  F32.has_sign false
    (F32.add (F32.mul old smoothing)
             (F32.mul new (F32.sub (F32.of_Z 1) smoothing))) = true.
Proof.
  intros Ho Hn.
  destruct smoothing_finite as [m1 [e1 E1]].
  destruct rest_finite as [m2 [e2 E2]]. rewrite E2, E1.
  apply add_nonneg_sign; apply mul_positive_sign; assumption.
Qed.

(** The frame rate on the overlay is never negative and never a NaN.
    After every run the rate of the last frame, [fps], and the displayed
    moving average, [smoothedFps], are zero or above, even when two
    frames read the same instant or the clock steps back: the division
    is made only by a frame time above zero, the rate is zero otherwise,
    and the average of values that are not negative is not negative.  A
    frame of the full path takes as frame time the rounded time since
    the reading of the previous frame, and moves the average by one
    step toward the new rate. *)
Theorem fps_never_negative evs (w : World) :
  exec evs = Ok (tt, w) ->
  (F32.leb F32.zero (smoothedFps (app w)) = true /\
   F32.is_nan (smoothedFps (app w)) = false /\
   F32.leb F32.zero (fps (app w)) = true /\
   F32.is_nan (fps (app w)) = false) /\
  (enableOverlay (app w) = true ->
   let frameTime :=
     duration_float_milli (clock (clock_reads w) - lastFrameTime (app w)) in
   let rate :=
     if F32.ltb F32.zero frameTime
     then F32.div (F32.of_Z 1000) frameTime else F32.zero in
   exists w',
     Render w = Ok (tt, w') /\
     frameTimeMs (app w') = frameTime /\
     lastFrameTime (app w') = clock (clock_reads w) /\
     fps (app w') = rate /\
     smoothedFps (app w') =
       F32.add (F32.mul (smoothedFps (app w)) smoothing)
               (F32.mul rate (F32.sub (F32.of_Z 1) smoothing))).
Proof.
  intros Hx.
  assert (I : F32.has_sign false (fps (app w)) = true /\
              F32.has_sign false (smoothedFps (app w)) = true).
  { unfold Latency.exec in Hx.
    refine (latency_run_invariant _ _ _ _
              (fun w => F32.has_sign false (fps (app w)) = true /\
                        F32.has_sign false (smoothedFps (app w)) = true)
              _ evs _ w _ Hx).
    - intros e w0 w' [Hf Hs] H. open_world w0. unfold_step H.
      case_shape H; norm; try (split; assumption);
        match goal with
        | E : F32.ltb F32.zero ?x = _ |- _ =>
            pose proof (fps_of_sign x) as P; rewrite E in P
        end;
        (split; [exact P|]); apply average_sign; assumption.
    - split; reflexivity. }
  destruct I as [If Is]. split.
  - repeat split.
    + apply leb_zero_nonneg, Is.
    + apply (has_sign_not_nan false), Is.
    + apply leb_zero_nonneg, If.
    + apply (has_sign_not_nan false), If.
  - intros Ho frameTime rate.
    destruct (latency_step_total clock GetRawInputDeviceInfoW GetKeyNameTextW
                swprintf_times Frame w) as [w' H].
    cbn [Latency.step] in H. exists w'. split; [exact H|].
    subst frameTime rate. clear Hx If Is.
    open_world w. subst s_overlay. unfold Latency.Render in H.
    norm_in H. cbn [negb] in H.
    case_shape H; norm; repeat split; reflexivity.
Qed.

End More.

(** ** The properties on concrete runs *)

Lemma log_off_empty_witness :
  logEntries
    (app (Demo.latency_world_after
            [Message (WM_KEYDOWN VK_F4); Message (WM_INPUT (Some Demo.click));
             Message (WM_KEYDOWN VK_F4)])) = [].
Proof.
  pose (evs := [Message (WM_KEYDOWN VK_F4);
                Message (WM_INPUT (Some Demo.click));
                Message (WM_KEYDOWN VK_F4)]).
  assert (E : exec Demo.clock Demo.device_name Demo.key_name Demo.times_text
                evs = Ok (tt, Demo.latency_world_after evs)) by computed.
  assert (L : enableLog (app (Demo.latency_world_after evs)) = false)
    by computed.
  exact (log_off_empty Demo.clock Demo.device_name Demo.key_name
           Demo.times_text evs (Demo.latency_world_after evs) E L).
Defined.

Lemma rate_off_clear_witness :
  mouseDeltaTimes
    (app (Demo.latency_world_after
            [Message (WM_KEYDOWN VK_F8); Message (WM_INPUT (Some Demo.move));
             Message (WM_KEYDOWN VK_F8)])) = [].
Proof.
  pose (evs := [Message (WM_KEYDOWN VK_F8);
                Message (WM_INPUT (Some Demo.move));
                Message (WM_KEYDOWN VK_F8)]).
  assert (E : exec Demo.clock Demo.device_name Demo.key_name Demo.times_text
                evs = Ok (tt, Demo.latency_world_after evs)) by computed.
  assert (Z : enableMouseHz (app (Demo.latency_world_after evs)) = false)
    by computed.
  exact (proj1 (rate_off_clear Demo.clock Demo.device_name Demo.key_name
                  Demo.times_text evs (Demo.latency_world_after evs) E Z)).
Defined.

Lemma window_grows_without_overlay_witness :
  size (mouseDeltaTimes
          (app (Demo.latency_world_after
                  [Message (WM_KEYDOWN VK_F9); Message (WM_KEYDOWN VK_F8);
                   Message (WM_INPUT (Some Demo.move)); Frame;
                   Message (WM_INPUT (Some Demo.move))]))) =
  size (mouseDeltaTimes
          (app (Demo.latency_world_after
                  [Message (WM_KEYDOWN VK_F9); Message (WM_KEYDOWN VK_F8)])))
  + 2.
Proof.
  pose (w := Demo.latency_world_after
               [Message (WM_KEYDOWN VK_F9); Message (WM_KEYDOWN VK_F8)]).
  pose (w' := Demo.latency_world_after
                [Message (WM_KEYDOWN VK_F9); Message (WM_KEYDOWN VK_F8);
                 Message (WM_INPUT (Some Demo.move)); Frame;
                 Message (WM_INPUT (Some Demo.move))]).
  pose (evs := [Message (WM_INPUT (Some Demo.move)); Frame;
                Message (WM_INPUT (Some Demo.move))]).
  assert (Ho : enableOverlay (app w) = false) by computed.
  assert (Hz : enableMouseHz (app w) = true) by computed.
  assert (D : delta_event Demo.move = true) by computed.
  assert (Hf : Forall (fun e => e = Frame \/
                         exists raw, delta_event raw = true /\
                                     e = Message (WM_INPUT (Some raw))) evs).
  { apply Forall_cons;
      [right; exists Demo.move; split; [exact D|reflexivity]|].
    apply Forall_cons; [left; reflexivity|].
    apply Forall_cons;
      [right; exists Demo.move; split; [exact D|reflexivity]|].
    apply Forall_nil. }
  assert (R : run Demo.clock Demo.device_name Demo.key_name Demo.times_text
                evs w = Ok (tt, w')) by computed.
  exact (window_grows_without_overlay Demo.clock Demo.device_name
           Demo.key_name Demo.times_text evs w w' Ho Hz Hf R).
Defined.

Lemma key_filtered_witness :
  WndProc Demo.clock Demo.device_name Demo.key_name Demo.times_text
          (WM_INPUT (Some Cases.key_release))
          (Demo.latency_world_after [Message (WM_KEYDOWN VK_F7)]) =
  Ok (tt, Demo.latency_world_after [Message (WM_KEYDOWN VK_F7)]).
Proof.
  pose (w := Demo.latency_world_after [Message (WM_KEYDOWN VK_F7)]).
  assert (T : dwType (header Cases.key_release) = RIM_TYPEKEYBOARD)
    by computed.
  assert (U : enableUpEvents (app w) = false) by computed.
  assert (B : test (Flags (keyboard Cases.key_release)) RI_KEY_BREAK = true)
    by computed.
  exact (key_filtered Demo.clock Demo.device_name Demo.key_name
           Demo.times_text Cases.key_release w T (or_intror (conj U B))).
Defined.

Lemma mouse_report_dropped_witness :
  WndProc Demo.clock Demo.device_name Demo.key_name Demo.times_text
          (WM_INPUT (Some Cases.release_and_press))
          (Demo.latency_world_after [Message (WM_KEYDOWN VK_F7)]) =
  Ok (tt, Demo.latency_world_after [Message (WM_KEYDOWN VK_F7)]).
Proof.
  pose (w := Demo.latency_world_after [Message (WM_KEYDOWN VK_F7)]).
  pose (flags := usButtonFlags (mouse Cases.release_and_press)).
  assert (T : dwType (header Cases.release_and_press) = RIM_TYPEMOUSE)
    by computed.
  assert (Hz : enableMouseHz (app w) = false) by computed.
  assert (U : enableUpEvents (app w) = false) by computed.
  assert (D : test flags RI_MOUSE_LEFT_BUTTON_DOWN = false) by computed.
  assert (R : test flags RI_MOUSE_LEFT_BUTTON_UP = true) by computed.
  exact (mouse_report_dropped Demo.clock Demo.device_name Demo.key_name
           Demo.times_text Cases.release_and_press w T Hz
           (or_intror (or_intror (conj U (conj D R))))).
Defined.

Lemma left_down_flashes_witness :
  exists w',
    WndProc Demo.clock Demo.device_name Demo.key_name Demo.times_text
            (WM_INPUT (Some Demo.click)) (Demo.latency_world_after []) =
    Ok (tt, w') /\
    isFlashing (app w') = true /\
    lastInputText (app w') = "Left Click DOWN"%string.
Proof.
  pose (w := Demo.latency_world_after []).
  assert (T : dwType (header Demo.click) = RIM_TYPEMOUSE) by computed.
  assert (D : test (usButtonFlags (mouse Demo.click))
                   RI_MOUSE_LEFT_BUTTON_DOWN = true) by computed.
  assert (B : enableMouseButtons (app w) = true) by computed.
  destruct (left_down_flashes Demo.clock Demo.device_name Demo.key_name
              Demo.times_text Demo.click w T D B)
    as [w' [E [F [_ [I _]]]]].
  exists w'. split; [exact E|]. split; assumption.
Defined.

Lemma switch_twice_witness :
  exists w1,
    WndProc Demo.clock Demo.device_name Demo.key_name Demo.times_text
            (WM_KEYDOWN VK_F3) (Demo.latency_world_after []) = Ok (tt, w1) /\
    WndProc Demo.clock Demo.device_name Demo.key_name Demo.times_text
            (WM_KEYDOWN VK_F3) w1 = Ok (tt, Demo.latency_world_after []).
Proof.
  assert (K : In VK_F3 [VK_F1; VK_F2; VK_F3; VK_F7; VK_F9])
    by (right; right; left; reflexivity).
  exact (switch_twice Demo.clock Demo.device_name Demo.key_name
           Demo.times_text VK_F3 (Demo.latency_world_after []) K).
Defined.

Lemma device_leaf_between_witness :
  device_leaf "\\?\HID#VID_046D&PID_C08B#7&2a1b3c4d&0&0000#{378de44c}" =
  "7&2a1b3c4d&0&0000"%string.
Proof.
  assert (L : forall i, String.get i "7&2a1b3c4d&0&0000" <> Some "#"%char).
  { intros i. do 18 (destruct i as [|i]; [discriminate|]). discriminate. }
  assert (P : forall i, String.get i "{378de44c}" <> Some "#"%char).
  { intros i. do 11 (destruct i as [|i]; [discriminate|]). discriminate. }
  exact (device_leaf_between "\\?\HID#VID_046D&PID_C08B"
           "7&2a1b3c4d&0&0000" "{378de44c}" L P).
Defined.

Lemma device_leaf_unchanged_witness :
  device_leaf "HID#keyboard" = "HID#keyboard"%string.
Proof.
  assert (A : forall i, String.get i "HID" <> Some "#"%char).
  { intros i. do 4 (destruct i as [|i]; [discriminate|]). discriminate. }
  assert (B : forall i, String.get i "keyboard" <> Some "#"%char).
  { intros i. do 9 (destruct i as [|i]; [discriminate|]). discriminate. }
  exact (proj2 (device_leaf_unchanged "HID" "keyboard" A B)).
Defined.

Lemma fps_never_negative_witness :
  F32.leb F32.zero
    (smoothedFps (app (Demo.latency_world_after [Frame; Frame]))) = true /\
  F32.is_nan
    (smoothedFps (app (Demo.latency_world_after [Frame; Frame]))) = false.
Proof.
  assert (E : exec Demo.clock Demo.device_name Demo.key_name Demo.times_text
                [Frame; Frame]
              = Ok (tt, Demo.latency_world_after [Frame; Frame])) by computed.
  destruct (proj1 (fps_never_negative Demo.clock Demo.device_name
                     Demo.key_name Demo.times_text [Frame; Frame]
                     (Demo.latency_world_after [Frame; Frame]) E))
    as [L [N _]].
  split; assumption.
Defined.

End LatencyMore.
